(** * NFT marketplace: listing and settlement ledger

    A shallow embedding of the two Solidity contracts of the repository,
    [NFT] (contracts/src/NFT.sol) and [NFTMarketplace]
    (contracts/src/Marketplace.sol, which the sources carry after the
    deployment script), and the properties of the settlement ledger proved
    about them.

    Conventions of the embedding:
    - [uint256] and [address] values are binary naturals [N]; arithmetic that
      Solidity 0.8 checks is written with the check and raises [Panic 0x11];
    - a Solidity [mapping] is a [gmap] read with the zero value as default;
    - a contract function is a computation in the monad [M]: it threads the
      world state and may [revert], which discards every change made so far;
    - [msg.sender], [msg.value] and [tx.origin] are explicit arguments;
    - calls that leave the two contracts (the ether transfer to a recipient,
      the ERC-721 receiver hook) are answered by the environment [Env], which
      is shown the state in which the call is made; the called account
      is represented by its answer alone, and what it does itself while it
      runs is left out: where this matters, a property of a call that
      reaches such an account is stated for the amount sent and for the
      state in which the account is called;
    - events and gas are not modelled, and the marketplace keeps the NFT
      contract that its constructor deployed ([setNFTContract] is not among
      the modelled calls). *)

From stdpp Require Import gmap strings list fin_maps.
From Stdlib Require Import NArith Lia.

Open Scope N_scope.

(** ** Values *)

Abbreviation address := N (only parsing).

Definition MAX_UINT256 : N := 2 ^ 256 - 1.

(** [address(0)] *)
Definition address0 : N := 0.

(** Custom errors of the two contracts, the errors of the OpenZeppelin base
    contracts they inherit, and the two failures of the platform itself. *)
Inductive Error : Type :=
  (* NFTMarketplace *)
  | PriceMustBeGreaterThanZero
  | NotTokenOwner
  | NotApprovedForMarketplace
  | ListingNotActive
  | CannotBuyOwnNFT
  | IncorrectPaymentAmount
  | FeeExceedsMaximum
  | TransferFailed
  | InvalidNFTContract
  (* NFT *)
  | NotAuthorizedToMint
  | InvalidMarketplaceAddress
  (* Ownable, ReentrancyGuard *)
  | OwnableUnauthorizedAccount (account : address)
  | ReentrancyGuardReentrantCall
  (* ERC721 *)
  | ERC721NonexistentToken (tokenId : N)
  | ERC721IncorrectOwner (sender : address) (tokenId : N) (owner : address)
  | ERC721InvalidSender (sender : address)
  | ERC721InvalidReceiver (receiver : address)
  | ERC721InsufficientApproval (operator : address) (tokenId : N)
  | ERC721InvalidApprover (approver : address)
  | ERC721InvalidOperator (operator : address)
  (* platform *)
  | Panic (code : N)
  | InsufficientBalance.

(** Arithmetic overflow, [Panic(0x11)]. *)
Definition ARITHMETIC_OVERFLOW : N := 17.

(** ** Storage *)

(** [struct Listing] *)
Record Listing : Type := mkListing {
  seller : address;
  price : N;
  isActive : bool
}.

(** The value of a [listings] slot that was never written. *)
Definition zero_listing : Listing := mkListing address0 0 false.

(** Storage of the [NFT] contract (with the ERC721, ERC721URIStorage,
    Ownable and ReentrancyGuard state it inherits). *)
Record NFTStorage : Type := mkNFTStorage {
  nft_owner : address;                      (* Ownable._owner *)
  nft_entered : bool;                       (* ReentrancyGuard._status == ENTERED *)
  _tokenIdCounter : N;
  marketplaceAddress : address;
  _owners : gmap N N;
  _tokenApprovals : gmap N N;
  _operatorApprovals : gmap (N * N) bool;
  _tokenURIs : gmap N string
}.

(** Storage of the [NFTMarketplace] contract. *)
Record MarketStorage : Type := mkMarketStorage {
  mkt_owner : address;                      (* Ownable._owner *)
  mkt_entered : bool;                       (* ReentrancyGuard._status == ENTERED *)
  marketplaceFee : N;
  listings : gmap N Listing;
  listedTokenIds : list N;
  _listedTokenIndex : gmap N N;
  _hasBeenListed : gmap N bool
}.

(** The world: ether balances and the storage of the two contracts. *)
Record State : Type := mkState {
  balances : gmap N N;
  market : MarketStorage;
  nft : NFTStorage
}.

(** Reading a mapping slot: an absent key reads as the zero value [d]. *)
Definition sload {K V : Type} `{Countable K} (d : V) (m : gmap K V) (k : K) : V :=
  default d (m !! k).

Definition balance (s : State) (a : address) : N := sload 0 (balances s) a.

(** *** Field updates *)

Definition with_balances (b : gmap N N) (s : State) : State :=
  mkState b (market s) (nft s).
Definition with_market (m : MarketStorage) (s : State) : State :=
  mkState (balances s) m (nft s).
Definition with_nft (n : NFTStorage) (s : State) : State :=
  mkState (balances s) (market s) n.

Definition set_mkt_entered (b : bool) (m : MarketStorage) : MarketStorage :=
  mkMarketStorage (mkt_owner m) b (marketplaceFee m) (listings m)
    (listedTokenIds m) (_listedTokenIndex m) (_hasBeenListed m).
Definition set_marketplaceFee (f : N) (m : MarketStorage) : MarketStorage :=
  mkMarketStorage (mkt_owner m) (mkt_entered m) f (listings m)
    (listedTokenIds m) (_listedTokenIndex m) (_hasBeenListed m).
Definition set_listings (l : gmap N Listing) (m : MarketStorage) : MarketStorage :=
  mkMarketStorage (mkt_owner m) (mkt_entered m) (marketplaceFee m) l
    (listedTokenIds m) (_listedTokenIndex m) (_hasBeenListed m).
Definition set_listedTokenIds (l : list N) (m : MarketStorage) : MarketStorage :=
  mkMarketStorage (mkt_owner m) (mkt_entered m) (marketplaceFee m) (listings m)
    l (_listedTokenIndex m) (_hasBeenListed m).
Definition set_listedTokenIndex (i : gmap N N) (m : MarketStorage) : MarketStorage :=
  mkMarketStorage (mkt_owner m) (mkt_entered m) (marketplaceFee m) (listings m)
    (listedTokenIds m) i (_hasBeenListed m).
Definition set_hasBeenListed (h : gmap N bool) (m : MarketStorage) : MarketStorage :=
  mkMarketStorage (mkt_owner m) (mkt_entered m) (marketplaceFee m) (listings m)
    (listedTokenIds m) (_listedTokenIndex m) h.

Definition set_nft_entered (b : bool) (n : NFTStorage) : NFTStorage :=
  mkNFTStorage (nft_owner n) b (_tokenIdCounter n) (marketplaceAddress n)
    (_owners n) (_tokenApprovals n) (_operatorApprovals n) (_tokenURIs n).
Definition set_tokenIdCounter (c : N) (n : NFTStorage) : NFTStorage :=
  mkNFTStorage (nft_owner n) (nft_entered n) c (marketplaceAddress n)
    (_owners n) (_tokenApprovals n) (_operatorApprovals n) (_tokenURIs n).
Definition set_owners (o : gmap N N) (n : NFTStorage) : NFTStorage :=
  mkNFTStorage (nft_owner n) (nft_entered n) (_tokenIdCounter n) (marketplaceAddress n)
    o (_tokenApprovals n) (_operatorApprovals n) (_tokenURIs n).
Definition set_tokenApprovals (a : gmap N N) (n : NFTStorage) : NFTStorage :=
  mkNFTStorage (nft_owner n) (nft_entered n) (_tokenIdCounter n) (marketplaceAddress n)
    (_owners n) a (_operatorApprovals n) (_tokenURIs n).
Definition set_operatorApprovals (a : gmap (N * N) bool) (n : NFTStorage) : NFTStorage :=
  mkNFTStorage (nft_owner n) (nft_entered n) (_tokenIdCounter n) (marketplaceAddress n)
    (_owners n) (_tokenApprovals n) a (_tokenURIs n).
Definition set_tokenURIs (u : gmap N string) (n : NFTStorage) : NFTStorage :=
  mkNFTStorage (nft_owner n) (nft_entered n) (_tokenIdCounter n) (marketplaceAddress n)
    (_owners n) (_tokenApprovals n) (_operatorApprovals n) u.
Definition set_marketplaceAddress (a : address) (n : NFTStorage) : NFTStorage :=
  mkNFTStorage (nft_owner n) (nft_entered n) (_tokenIdCounter n) a
    (_owners n) (_tokenApprovals n) (_operatorApprovals n) (_tokenURIs n).

(** ** The contract monad *)

(** A call either returns a value in a new state, or reverts: a revert
    carries no state, the changes of the reverted call are lost. *)
Inductive Outcome (A : Type) : Type :=
  | Ok (a : A) (s : State)
  | Revert (e : Error).
Arguments Ok {A} a s.
Arguments Revert {A} e.

Definition M (A : Type) : Type := State -> Outcome A.

Definition ret {A : Type} (a : A) : M A := fun s => Ok a s.

Definition bind {A B : Type} (m : M A) (k : A -> M B) : M B :=
  fun s => match m s with
           | Ok a s' => k a s'
           | Revert e => Revert e
           end.

Definition revert {A : Type} (e : Error) : M A := fun _ => Revert e.

Definition gets {A : Type} (f : State -> A) : M A := fun s => Ok (f s) s.

Definition modify (f : State -> State) : M unit := fun s => Ok tt (f s).

Notation "x <- m ;; k" := (bind m (fun x => k))
  (at level 100, m at next level, right associativity).
Notation "m1 ;; m2" := (bind m1 (fun _ => m2))
  (at level 100, right associativity).

(** [if (c) revert e();] *)
Definition revert_if (c : bool) (e : Error) : M unit :=
  if c then revert e else ret tt.

(** Checked [uint256] arithmetic of Solidity 0.8. *)
Definition checked_add (a b : N) : M N :=
  if decide (a + b ≤ MAX_UINT256) then ret (a + b)
  else revert (Panic ARITHMETIC_OVERFLOW).

Definition checked_mul (a b : N) : M N :=
  if decide (a * b ≤ MAX_UINT256) then ret (a * b)
  else revert (Panic ARITHMETIC_OVERFLOW).

Definition checked_sub (a b : N) : M N :=
  if decide (b ≤ a) then ret (a - b)
  else revert (Panic ARITHMETIC_OVERFLOW).

(** What an external caller observes of a call made in state [s]: the result
    and the state afterwards, which is [s] itself when the call reverted. *)
Definition transact {A : Type} (m : M A) (s : State) : State * (Error + A) :=
  match m s with
  | Ok a s' => (s', inr a)
  | Revert e => (s, inl e)
  end.

(** ** The environment *)

(** Addresses of the two deployed contracts and the behaviour of every other
    account when it is called: whether it accepts an ether transfer
    ([receive]/[fallback]) and whether it accepts a token
    ([onERC721Received]; an account without code always does).  Both are
    asked in the state at the moment of the call. *)
Record Env : Type := mkEnv {
  this : address;
  nftContract : address;
  accepts_ether : State -> address -> N -> bool;
  accepts_token : State -> address -> address -> address -> N -> bool
}.

(** ** Ether transfers *)

Definition move_ether (from to : address) (v : N) (s : State) : State :=
  let b := balances s in
  let b1 := <[from := sload 0 b from - v]> b in
  with_balances (<[to := sload 0 b1 to + v]> b1) s.

(** The value of a message call is moved from the caller to the called
    contract before its code runs; a caller that does not hold the value
    cannot make the call. *)
Definition payable {A : Type} (E : Env) (msg_sender : address) (msg_value : N)
    (body : M A) : M A :=
  fun s =>
    if decide (msg_value ≤ balance s msg_sender)
    then body (move_ether msg_sender (this E) msg_value s)
    else Revert InsufficientBalance.

(** [payable(to).call{value: v}("")] made by the marketplace.  The call
    returns [false], with nothing moved, when the marketplace does not hold
    [v] or when the recipient rejects the transfer.  The marketplace itself
    accepts every transfer ([receive() external payable {}]); the NFT
    contract has neither [receive] nor [fallback] and accepts none.  Of a
    recipient outside the two contracts only the answer is represented: the
    state returned records the ether moved and nothing the recipient did
    itself. *)
Definition call_value (E : Env) (to : address) (v : N) : M bool :=
  fun s =>
    if decide (v ≤ balance s (this E)) then
      if decide (to = this E) then Ok true s
      else if decide (to = nftContract E) then Ok false s
      else if accepts_ether E s to v then Ok true (move_ether (this E) to v s)
      else Ok false s
    else Ok false s.

(** ** The ERC-721 base contract *)

Module ERC721.
Section WithEnv.
Context (E : Env).

(** Modelled from the spec: the ERC-721 base contract [ERC721URIStorage]
    that [NFT] inherits is imported from the OpenZeppelin package and is not
    among the sources.  The definitions of this module follow section 4.1 of
    the specification (AssetRegistry: owner per asset, one approved
    transferer per asset cleared on every ownership change, blanket
    operators per owner, a transfer that demands the right owner and an
    authorised caller) in the shape of the library's release 5 functions.
    The per-owner token count [_balances] is left out: nothing here reads it. *)
Definition _ownerOf (s : State) (tokenId : N) : address :=
  sload address0 (_owners (nft s)) tokenId.

Definition _getApproved (s : State) (tokenId : N) : address :=
  sload address0 (_tokenApprovals (nft s)) tokenId.

Definition _isApprovedForAll (s : State) (owner operator : address) : bool :=
  sload false (_operatorApprovals (nft s)) (owner, operator).

Definition _requireOwned (tokenId : N) : M address :=
  owner <- gets (fun s => _ownerOf s tokenId) ;;
  if decide (owner = address0) then revert (ERC721NonexistentToken tokenId)
  else ret owner.

Definition ownerOf (tokenId : N) : M address := _requireOwned tokenId.

Definition getApproved (tokenId : N) : M address :=
  _requireOwned tokenId ;;
  gets (fun s => _getApproved s tokenId).

Definition isApprovedForAll (owner operator : address) : M bool :=
  gets (fun s => _isApprovedForAll s owner operator).

Definition _isAuthorized (s : State) (owner spender : address) (tokenId : N) : bool :=
  bool_decide (spender ≠ address0) &&
  (bool_decide (owner = spender) || _isApprovedForAll s owner spender
   || bool_decide (_getApproved s tokenId = spender)).

Definition _checkAuthorized (owner spender : address) (tokenId : N) : M unit :=
  ok <- gets (fun s => _isAuthorized s owner spender tokenId) ;;
  if ok then ret tt
  else if decide (owner = address0) then revert (ERC721NonexistentToken tokenId)
  else revert (ERC721InsufficientApproval spender tokenId).

Definition write_owner (tokenId : N) (to : address) (s : State) : State :=
  with_nft (set_owners (<[tokenId := to]> (_owners (nft s))) (nft s)) s.

Definition write_approval (tokenId : N) (to : address) (s : State) : State :=
  with_nft (set_tokenApprovals (<[tokenId := to]> (_tokenApprovals (nft s))) (nft s)) s.

Definition write_operator (owner operator : address) (approved : bool) (s : State) : State :=
  with_nft (set_operatorApprovals
              (<[(owner, operator) := approved]> (_operatorApprovals (nft s))) (nft s)) s.

(** Modelled from the spec: the library's [_update], the single place where
    ownership changes (section 4.1, transfer): it checks [auth] when it is
    not [address(0)], clears the per-token approval of an existing token,
    writes the new owner and returns the previous one. *)
Definition _update (to : address) (tokenId : N) (auth : address) : M address :=
  from <- gets (fun s => _ownerOf s tokenId) ;;
  (if decide (auth = address0) then ret tt else _checkAuthorized from auth tokenId) ;;
  (if decide (from = address0) then ret tt
   else modify (write_approval tokenId address0)) ;;
  modify (write_owner tokenId to) ;;
  ret from.

(** Modelled from the spec: the library's check of the receiver hook
    [onERC721Received], consulted after the ownership was written.  Neither
    contract of the repository implements the hook, so neither can receive a
    token through a safe transfer.  Of the hook of any other account only
    the answer is represented. *)
Definition _checkOnERC721Received (operator from to : address) (tokenId : N) : M unit :=
  ok <- gets (fun s => bool_decide (to ≠ this E) && bool_decide (to ≠ nftContract E)
                       && accepts_token E s operator from to tokenId) ;;
  if ok then ret tt else revert (ERC721InvalidReceiver to).

(** Modelled from the spec: the library's [transferFrom] (section 4.1,
    transfer: [from] must be the current owner, the caller must be the
    owner, the approved transferer or an operator of the owner). *)
Definition transferFrom (msg_sender from to : address) (tokenId : N) : M unit :=
  if decide (to = address0) then revert (ERC721InvalidReceiver address0)
  else
    previousOwner <- _update to tokenId msg_sender ;;
    if decide (previousOwner = from) then ret tt
    else revert (ERC721IncorrectOwner from tokenId previousOwner).

Definition safeTransferFrom (msg_sender from to : address) (tokenId : N) : M unit :=
  transferFrom msg_sender from to tokenId ;;
  _checkOnERC721Received msg_sender from to tokenId.

(** Modelled from the spec: the library's [_mint] and [_safeMint] (section
    4.1, mint: the new asset gets its owner, with no approval). *)
Definition _mint (to : address) (tokenId : N) : M unit :=
  if decide (to = address0) then revert (ERC721InvalidReceiver address0)
  else
    previousOwner <- _update to tokenId address0 ;;
    if decide (previousOwner = address0) then ret tt
    else revert (ERC721InvalidSender address0).

Definition _safeMint (msg_sender to : address) (tokenId : N) : M unit :=
  _mint to tokenId ;;
  _checkOnERC721Received msg_sender address0 to tokenId.

(** Modelled from the spec: the library's [approve] (section 4.1, approve:
    a single approved transferer per asset, overwritten). *)
Definition approve (msg_sender to : address) (tokenId : N) : M unit :=
  owner <- _requireOwned tokenId ;;
  allowed <- gets (fun s => bool_decide (msg_sender = address0)
                            || bool_decide (owner = msg_sender)
                            || _isApprovedForAll s owner msg_sender) ;;
  if allowed then modify (write_approval tokenId to)
  else revert (ERC721InvalidApprover msg_sender).

(** Modelled from the spec: the library's [setApprovalForAll] (section 4.1:
    owner-scoped blanket approval). *)
Definition setApprovalForAll (msg_sender operator : address) (approved : bool) : M unit :=
  if decide (operator = address0) then revert (ERC721InvalidOperator operator)
  else modify (write_operator msg_sender operator approved).

Definition _setTokenURI (tokenId : N) (_tokenURI : string) : M unit :=
  modify (fun s => with_nft (set_tokenURIs (<[tokenId := _tokenURI]> (_tokenURIs (nft s)))
                               (nft s)) s).

End WithEnv.
End ERC721.

(** ** The NFT contract (contracts/src/NFT.sol) *)

Module NFT.
Section WithEnv.
Context (E : Env).

(** The [nonReentrant] modifier of the library's [ReentrancyGuard], on the
    guard of the NFT contract. *)
Definition nonReentrant {A : Type} (body : M A) : M A :=
  entered <- gets (fun s => nft_entered (nft s)) ;;
  if entered then revert ReentrancyGuardReentrantCall
  else
    modify (fun s => with_nft (set_nft_entered true (nft s)) s) ;;
    r <- body ;;
    modify (fun s => with_nft (set_nft_entered false (nft s)) s) ;;
    ret r.

(** [msg.sender != marketplaceAddress && msg.sender != owner()] *)
Definition not_authorized_to_mint (s : State) (msg_sender : address) : bool :=
  bool_decide (msg_sender ≠ marketplaceAddress (nft s))
  && bool_decide (msg_sender ≠ nft_owner (nft s)).

(** [uint256 tokenId = _tokenIdCounter; _tokenIdCounter++;] *)
Definition next_token_id : M N :=
  tokenId <- gets (fun s => _tokenIdCounter (nft s)) ;;
  next <- checked_add tokenId 1 ;;
  modify (fun s => with_nft (set_tokenIdCounter next (nft s)) s) ;;
  ret tokenId.

(** [mint(_tokenURI)]: the token goes to [tx.origin]. *)
Definition mint (tx_origin msg_sender : address) (_tokenURI : string) : M N :=
  nonReentrant (
    unauthorized <- gets (fun s => not_authorized_to_mint s msg_sender) ;;
    revert_if unauthorized NotAuthorizedToMint ;;
    tokenId <- next_token_id ;;
    ERC721._safeMint E msg_sender tx_origin tokenId ;;
    ERC721._setTokenURI tokenId _tokenURI ;;
    ret tokenId).

(** [mintTo(_to, _tokenURI)]: the token goes to [_to]. *)
Definition mintTo (msg_sender _to : address) (_tokenURI : string) : M N :=
  nonReentrant (
    unauthorized <- gets (fun s => not_authorized_to_mint s msg_sender) ;;
    revert_if unauthorized NotAuthorizedToMint ;;
    tokenId <- next_token_id ;;
    ERC721._safeMint E msg_sender _to tokenId ;;
    ERC721._setTokenURI tokenId _tokenURI ;;
    ret tokenId).

Definition totalSupply : M N := gets (fun s => _tokenIdCounter (nft s)).

Definition exists_ (tokenId : N) : M bool :=
  gets (fun s => bool_decide (ERC721._ownerOf s tokenId ≠ address0)).

Definition currentTokenId : M N := gets (fun s => _tokenIdCounter (nft s)).

(** The [onlyOwner] modifier of the library's [Ownable], on the NFT
    contract. *)
Definition onlyOwner {A : Type} (msg_sender : address) (body : M A) : M A :=
  owner <- gets (fun s => nft_owner (nft s)) ;;
  if decide (owner = msg_sender) then body
  else revert (OwnableUnauthorizedAccount msg_sender).

Definition setMarketplaceAddress (msg_sender _newMarketplace : address) : M unit :=
  onlyOwner msg_sender (
    revert_if (bool_decide (_newMarketplace = address0)) InvalidMarketplaceAddress ;;
    modify (fun s => with_nft (set_marketplaceAddress _newMarketplace (nft s)) s)).

End WithEnv.
End NFT.

(** ** The marketplace contract (contracts/src/Marketplace.sol) *)

Module NFTMarketplace.
Section WithEnv.
Context (E : Env).

Definition MAX_FEE : N := 1000.
Definition FEE_DENOMINATOR : N := 10000.

(** The [nonReentrant] modifier of the library's [ReentrancyGuard], on the
    guard of the marketplace. *)
Definition nonReentrant {A : Type} (body : M A) : M A :=
  entered <- gets (fun s => mkt_entered (market s)) ;;
  if entered then revert ReentrancyGuardReentrantCall
  else
    modify (fun s => with_market (set_mkt_entered true (market s)) s) ;;
    r <- body ;;
    modify (fun s => with_market (set_mkt_entered false (market s)) s) ;;
    ret r.

(** The [onlyOwner] modifier of the library's [Ownable]. *)
Definition onlyOwner {A : Type} (msg_sender : address) (body : M A) : M A :=
  owner <- gets (fun s => mkt_owner (market s)) ;;
  if decide (owner = msg_sender) then body
  else revert (OwnableUnauthorizedAccount msg_sender).

(** [listings[_tokenId]] *)
Definition listing_of (s : State) (tokenId : N) : Listing :=
  sload zero_listing (listings (market s)) tokenId.

Definition write_listing (tokenId : N) (l : Listing) (s : State) : State :=
  with_market (set_listings (<[tokenId := l]> (listings (market s))) (market s)) s.

Definition has_been_listed (s : State) (tokenId : N) : bool :=
  sload false (_hasBeenListed (market s)) tokenId.

(** [_listedTokenIndex[tokenId] = listedTokenIds.length;
     listedTokenIds.push(tokenId); _hasBeenListed[tokenId] = true;] *)
Definition track_listed (tokenId : N) (s : State) : State :=
  let m := market s in
  let m1 := set_listedTokenIndex
              (<[tokenId := N.of_nat (length (listedTokenIds m))]> (_listedTokenIndex m)) m in
  let m2 := set_listedTokenIds (listedTokenIds m1 ++ [tokenId]) m1 in
  let m3 := set_hasBeenListed (<[tokenId := true]> (_hasBeenListed m2)) m2 in
  with_market m3 s.

(** [mintNFT(_tokenURI)]: forwards to [NFT.mint]; in that call the
    marketplace is [msg.sender]. *)
Definition mintNFT (tx_origin msg_sender : address) (_tokenURI : string) : M N :=
  nonReentrant (NFT.mint E tx_origin (this E) _tokenURI).

Definition mintAndList (msg_sender : address) (_tokenURI : string) (_price : N) : M N :=
  nonReentrant (
    revert_if (bool_decide (_price = 0)) PriceMustBeGreaterThanZero ;;
    tokenId <- NFT.mintTo E (this E) msg_sender _tokenURI ;;
    modify (write_listing tokenId (mkListing msg_sender _price true)) ;;
    modify (track_listed tokenId) ;;
    ret tokenId).

Definition listNFT (msg_sender : address) (_tokenId _price : N) : M unit :=
  nonReentrant (
    revert_if (bool_decide (_price = 0)) PriceMustBeGreaterThanZero ;;
    owner <- ERC721.ownerOf _tokenId ;;
    revert_if (bool_decide (owner ≠ msg_sender)) NotTokenOwner ;;
    approved <- ERC721.getApproved _tokenId ;;
    notApproved <- (if decide (approved ≠ this E)
                    then (forAll <- ERC721.isApprovedForAll msg_sender (this E) ;;
                          ret (negb forAll))
                    else ret false) ;;
    revert_if notApproved NotApprovedForMarketplace ;;
    modify (write_listing _tokenId (mkListing msg_sender _price true)) ;;
    tracked <- gets (fun s => has_been_listed s _tokenId) ;;
    (if tracked then ret tt else modify (track_listed _tokenId))).

(** [listing.isActive = false] through the storage pointer. *)
Definition deactivate (tokenId : N) (s : State) : State :=
  let l := listing_of s tokenId in
  write_listing tokenId (mkListing (seller l) (price l) false) s.

(** [listing.price = _newPrice] through the storage pointer. *)
Definition reprice (tokenId newPrice : N) (s : State) : State :=
  let l := listing_of s tokenId in
  write_listing tokenId (mkListing (seller l) newPrice (isActive l)) s.

(** The body of [buyNFT], run once the payment has arrived and the guard is
    taken. *)
Definition buyNFT_body (msg_sender : address) (msg_value : N) (_tokenId : N) : M unit :=
  active <- gets (fun s => isActive (listing_of s _tokenId)) ;;
  revert_if (negb active) ListingNotActive ;;
  who <- gets (fun s => seller (listing_of s _tokenId)) ;;
  revert_if (bool_decide (msg_sender = who)) CannotBuyOwnNFT ;;
  asked <- gets (fun s => price (listing_of s _tokenId)) ;;
  revert_if (bool_decide (msg_value ≠ asked)) IncorrectPaymentAmount ;;
  (* Mark as inactive before transfers *)
  modify (deactivate _tokenId) ;;
  (* Calculate fee and seller proceeds *)
  listingPrice <- gets (fun s => price (listing_of s _tokenId)) ;;
  rate <- gets (fun s => marketplaceFee (market s)) ;;
  product <- checked_mul listingPrice rate ;;
  sellerProceeds <- checked_sub listingPrice (product / FEE_DENOMINATOR) ;;
  (* Transfer NFT to buyer *)
  from <- gets (fun s => seller (listing_of s _tokenId)) ;;
  ERC721.safeTransferFrom E (this E) from msg_sender _tokenId ;;
  (* Transfer payment to seller *)
  payee <- gets (fun s => seller (listing_of s _tokenId)) ;;
  success <- call_value E payee sellerProceeds ;;
  revert_if (negb success) TransferFailed.

Definition buyNFT (msg_sender : address) (msg_value : N) (_tokenId : N) : M unit :=
  payable E msg_sender msg_value (nonReentrant (buyNFT_body msg_sender msg_value _tokenId)).

Definition delistNFT (msg_sender : address) (_tokenId : N) : M unit :=
  nonReentrant (
    active <- gets (fun s => isActive (listing_of s _tokenId)) ;;
    revert_if (negb active) ListingNotActive ;;
    who <- gets (fun s => seller (listing_of s _tokenId)) ;;
    revert_if (bool_decide (who ≠ msg_sender)) NotTokenOwner ;;
    modify (deactivate _tokenId)).

Definition updateListingPrice (msg_sender : address) (_tokenId _newPrice : N) : M unit :=
  nonReentrant (
    revert_if (bool_decide (_newPrice = 0)) PriceMustBeGreaterThanZero ;;
    active <- gets (fun s => isActive (listing_of s _tokenId)) ;;
    revert_if (negb active) ListingNotActive ;;
    who <- gets (fun s => seller (listing_of s _tokenId)) ;;
    revert_if (bool_decide (who ≠ msg_sender)) NotTokenOwner ;;
    modify (reprice _tokenId _newPrice)).

Definition getListing (_tokenId : N) : M (address * N * bool) :=
  gets (fun s => let l := listing_of s _tokenId in (seller l, price l, isActive l)).

(** The counting loop
    [for (i = 0; i < listedTokenIds.length; i++)
       if (listings[listedTokenIds[i]].isActive) activeCount++;]
    run on the entries [ids] still to visit.  The counter never exceeds the
    length of the array, so its increment cannot overflow. *)
Fixpoint count_loop (s : State) (ids : list N) (activeCount : N) : N :=
  match ids with
  | [] => activeCount
  | tokenId :: rest =>
      if isActive (listing_of s tokenId)
      then count_loop s rest (activeCount + 1)
      else count_loop s rest activeCount
  end.

(** The three result arrays. *)
Record Page : Type := mkPage {
  page_tokenIds : list N;
  page_sellers : list N;
  page_prices : list N
}.

(** [new uint256[](resultSize)], three times. *)
Definition new_page (resultSize : N) : Page :=
  let zeros := replicate (N.to_nat resultSize) 0 in
  mkPage zeros zeros zeros.

(** The three assignments at [resultIndex]. *)
Definition store_entry (s : State) (resultIndex tokenId : N) (p : Page) : Page :=
  let i := N.to_nat resultIndex in
  mkPage (<[i := tokenId]> (page_tokenIds p))
         (<[i := seller (listing_of s tokenId)]> (page_sellers p))
         (<[i := price (listing_of s tokenId)]> (page_prices p)).

(** The populating loop, run on the entries [ids] still to visit; it stops
    when the array is exhausted or [resultIndex] reaches [resultSize]. *)
Fixpoint populate_loop (s : State) (ids : list N) (startIndex resultSize : N)
    (currentIndex resultIndex : N) (p : Page) : Page :=
  match ids with
  | [] => p
  | tokenId :: rest =>
      if decide (resultIndex < resultSize) then
        if isActive (listing_of s tokenId) then
          if decide (startIndex ≤ currentIndex)
          then populate_loop s rest startIndex resultSize
                 (currentIndex + 1) (resultIndex + 1) (store_entry s resultIndex tokenId p)
          else populate_loop s rest startIndex resultSize
                 (currentIndex + 1) resultIndex p
        else populate_loop s rest startIndex resultSize currentIndex resultIndex p
      else p
  end.

Definition getActiveListings (_offset _limit : N) : M Page :=
  (* Count active listings *)
  activeCount <- gets (fun s => count_loop s (listedTokenIds (market s)) 0) ;;
  (* Calculate actual return size *)
  let startIndex := _offset in
  sum <- checked_add _offset _limit ;;
  let endIndex := if decide (activeCount < sum) then activeCount else sum in
  let resultSize := if decide (startIndex < endIndex) then endIndex - startIndex else 0 in
  (* Initialize and populate the return arrays *)
  gets (fun s => populate_loop s (listedTokenIds (market s)) startIndex resultSize 0 0
                   (new_page resultSize)).

Definition getTotalListedCount : M N :=
  gets (fun s => N.of_nat (length (listedTokenIds (market s)))).

Definition getActiveListingCount : M N :=
  gets (fun s => count_loop s (listedTokenIds (market s)) 0).

Definition setMarketplaceFee (msg_sender : address) (_newFee : N) : M unit :=
  onlyOwner msg_sender (
    revert_if (bool_decide (MAX_FEE < _newFee)) FeeExceedsMaximum ;;
    modify (fun s => with_market (set_marketplaceFee _newFee (market s)) s)).

Definition withdrawFees (msg_sender _to : address) : M unit :=
  onlyOwner msg_sender (nonReentrant (
    balance_ <- gets (fun s => balance s (this E)) ;;
    revert_if (bool_decide (balance_ = 0)) TransferFailed ;;
    success <- call_value E _to balance_ ;;
    revert_if (negb success) TransferFailed)).

(** [receive() external payable {}]: a plain ether transfer to the
    marketplace. *)
Definition receive (msg_sender : address) (msg_value : N) : M unit :=
  payable E msg_sender msg_value (ret tt).

Definition getNFTContractAddress : M address := ret (nftContract E).

End WithEnv.
End NFTMarketplace.

(** ** Deployment and transactions *)

(** The state right after [new NFTMarketplace()] sent by [deployer]: the
    marketplace constructor deploys the NFT contract, which makes the
    marketplace both the owner of the NFT contract and its authorised
    minter.  [b0] holds the ether balances at that moment. *)
Definition initial_state (E : Env) (deployer : address) (b0 : gmap N N) : State :=
  mkState b0
    (mkMarketStorage deployer false 250 ∅ [] ∅ ∅)
    (mkNFTStorage (this E) false 0 (this E) ∅ ∅ ∅ ∅).

(** The calls an account can send to the two contracts. *)
Inductive Call : Type :=
  | MintNFT (_tokenURI : string)
  | MintAndList (_tokenURI : string) (_price : N)
  | ListNFT (_tokenId _price : N)
  | BuyNFT (_tokenId : N) (msg_value : N)
  | DelistNFT (_tokenId : N)
  | UpdateListingPrice (_tokenId _newPrice : N)
  | SetMarketplaceFee (_newFee : N)
  | WithdrawFees (_to : address)
  | Deposit (msg_value : N)
  | Approve (to : address) (tokenId : N)
  | SetApprovalForAll (operator : address) (approved : bool)
  | TransferFrom (from to : address) (tokenId : N)
  | SafeTransferFrom (from to : address) (tokenId : N)
  | NftMint (_tokenURI : string)
  | NftMintTo (_to : address) (_tokenURI : string).

Record Tx : Type := mkTx {
  tx_origin : address;
  msg_sender : address;
  tx_call : Call
}.

Definition run_call (E : Env) (origin sender : address) (c : Call) : M unit :=
  match c with
  | MintNFT uri => NFTMarketplace.mintNFT E origin sender uri ;; ret tt
  | MintAndList uri p => NFTMarketplace.mintAndList E sender uri p ;; ret tt
  | ListNFT t p => NFTMarketplace.listNFT E sender t p
  | BuyNFT t v => NFTMarketplace.buyNFT E sender v t
  | DelistNFT t => NFTMarketplace.delistNFT sender t
  | UpdateListingPrice t p => NFTMarketplace.updateListingPrice sender t p
  | SetMarketplaceFee f => NFTMarketplace.setMarketplaceFee sender f
  | WithdrawFees to => NFTMarketplace.withdrawFees E sender to
  | Deposit v => NFTMarketplace.receive E sender v
  | Approve to t => ERC721.approve sender to t
  | SetApprovalForAll o b => ERC721.setApprovalForAll sender o b
  | TransferFrom f to t => ERC721.transferFrom sender f to t
  | SafeTransferFrom f to t => ERC721.safeTransferFrom E sender f to t
  | NftMint uri => NFT.mint E origin sender uri ;; ret tt
  | NftMintTo to uri => NFT.mintTo E sender to uri ;; ret tt
  end.

(** A transaction applied to a state: a reverted transaction changes nothing. *)
Definition apply_tx (E : Env) (tx : Tx) (s : State) : State :=
  fst (transact (run_call E (tx_origin tx) (msg_sender tx) (tx_call tx)) s).

Definition apply_txs (E : Env) (txs : list Tx) (s : State) : State :=
  fold_left (fun acc tx => apply_tx E tx acc) txs s.

(** A message is never sent by [address(0)], and never by the marketplace,
    whose code makes no call on its own behalf. *)
Definition valid_tx (E : Env) (tx : Tx) : Prop :=
  msg_sender tx ≠ address0 /\ msg_sender tx ≠ this E.

(** The two contracts are deployed at different addresses, neither of which
    is [address(0)]. *)
Definition valid_env (E : Env) : Prop :=
  this E ≠ address0 ∧ nftContract E ≠ address0 ∧ this E ≠ nftContract E.

(** States reachable from a deployment by valid transactions. *)
Inductive reachable (E : Env) : State -> Prop :=
  | reachable_init deployer b0 :
      reachable E (initial_state E deployer b0)
  | reachable_step s tx :
      reachable E s -> valid_tx E tx -> reachable E (apply_tx E tx s).

(** ** Notions used in the statements *)

(** The state with the marketplace guard taken, and released. *)
Definition enter (s : State) : State := with_market (set_mkt_entered true (market s)) s.
Definition leave (s : State) : State := with_market (set_mkt_entered false (market s)) s.

(** Two states with the same balances and the same marketplace storage: the
    ERC-721 operations write the storage of the NFT contract only. *)
Definition same_ledger (s s' : State) : Prop :=
  balances s' = balances s /\ market s' = market s.

(** [floor(p * r / 10000)], the protocol fee on a price [p] at a rate of [r]
    basis points. *)
Definition fee_on (p r : N) : N := p * r / NFTMarketplace.FEE_DENOMINATOR.

(** Two environments that have the same contract addresses and answer alike
    in every state in which the listing of [t] is inactive. *)
Definition agree_once_inactive (t : N) (E E' : Env) : Prop :=
  this E' = this E /\ nftContract E' = nftContract E /\
  (forall s a v, isActive (NFTMarketplace.listing_of s t) = false ->
     accepts_ether E' s a v = accepts_ether E s a v) /\
  (forall s o f to id, isActive (NFTMarketplace.listing_of s t) = false ->
     accepts_token E' s o f to id = accepts_token E s o f to id).

(** [s'] is [s] after token [tokenId] was minted to [to]: the counter moved
    past [tokenId], which had no owner and now belongs to [to]; approvals,
    balances and the marketplace storage are as before. *)
Definition minted (s s' : State) (tokenId : N) (to : address) : Prop :=
  tokenId = _tokenIdCounter (nft s) /\
  _tokenIdCounter (nft s') = tokenId + 1 /\
  to ≠ address0 /\
  ERC721._ownerOf s tokenId = address0 /\
  _owners (nft s') = <[tokenId := to]> (_owners (nft s)) /\
  _tokenApprovals (nft s') = _tokenApprovals (nft s) /\
  _operatorApprovals (nft s') = _operatorApprovals (nft s) /\
  nft_entered (nft s) = false /\ nft_entered (nft s') = false /\
  same_ledger s s'.

(** The specification's reading of the enumeration: the entries of the
    listing index whose listing is active, in the order of the index. *)
Definition active_ids (s : State) : list N :=
  List.filter (fun t => isActive (NFTMarketplace.listing_of s t)) (listedTokenIds (market s)).

(** The specification's page: skip the first [offset] active entries, keep
    at most [limit], and report token id, seller and price of each. *)
Definition page_spec (offset limit : N) (s : State) : NFTMarketplace.Page :=
  let window := take (N.to_nat limit) (drop (N.to_nat offset) (active_ids s)) in
  NFTMarketplace.mkPage window
    (map (fun t => seller (NFTMarketplace.listing_of s t)) window)
    (map (fun t => price (NFTMarketplace.listing_of s t)) window).

(** [w] written into [l] from position [r] on. *)
Definition overwrite {X : Type} (l : list X) (r : nat) (w : list X) : list X :=
  take r l ++ w ++ drop (r + length w) l.

(** Consistency of the listing index with the rest of the storage: the
    index has no duplicates; it holds exactly the tokens flagged in
    [_hasBeenListed]; a token with an active listing is in it; its entries
    and the tokens that have an owner are below the token counter; a token
    without owner has no approved account; [address(0)] has no operators. *)
Record ledger_inv (s : State) : Prop := mk_ledger_inv {
  inv_nodup : NoDup (listedTokenIds (market s));
  inv_tracked : forall t,
    NFTMarketplace.has_been_listed s t = true <-> t ∈ listedTokenIds (market s);
  inv_active : forall t,
    isActive (NFTMarketplace.listing_of s t) = true -> t ∈ listedTokenIds (market s);
  inv_indexed_minted : forall t,
    t ∈ listedTokenIds (market s) -> t < _tokenIdCounter (nft s);
  inv_owned_minted : forall t,
    ERC721._ownerOf s t ≠ address0 -> t < _tokenIdCounter (nft s);
  inv_unowned : forall t,
    ERC721._ownerOf s t = address0 -> ERC721._getApproved s t = address0;
  inv_zero_operator : forall o, ERC721._isApprovedForAll s address0 o = false
}.

(** No call is in progress in either contract. *)
Definition idle (s : State) : Prop :=
  mkt_entered (market s) = false /\ nft_entered (nft s) = false.

(** The listing index of [s'] keeps every entry of the index of [s]. *)
Definition index_grows (s s' : State) : Prop :=
  forall t, t ∈ listedTokenIds (market s) -> t ∈ listedTokenIds (market s').

(** What a successful call leaves behind: the invariant, both guards
    released, and an index that kept its entries. *)
Definition good_step (s s' : State) : Prop :=
  ledger_inv s' /\ idle s' /\ index_grows s s'.

(** What a call by [sender] may do to the listings: a listing that is
    active afterwards is in the name of [sender], or was active before in
    the name of the same seller. *)
Definition listing_changes (sender : address) (s s' : State) : Prop :=
  forall t,
    isActive (NFTMarketplace.listing_of s' t) = true ->
    seller (NFTMarketplace.listing_of s' t) = sender \/
    (isActive (NFTMarketplace.listing_of s t) = true /\
     seller (NFTMarketplace.listing_of s' t) = seller (NFTMarketplace.listing_of s t)).

(** No active listing is in the name of the marketplace itself. *)
Definition sellers_external (E : Env) (s : State) : Prop :=
  forall t,
    isActive (NFTMarketplace.listing_of s t) = true ->
    seller (NFTMarketplace.listing_of s t) ≠ this E.

(** The state after the NFT contract minted its next token to [to] with
    the metadata URI [uri]: the counter moved on, the token has its owner
    and its URI, the guard of the NFT contract is released. *)
Definition mint_state (to : address) (uri : string) (s : State) : State :=
  let tokenId := _tokenIdCounter (nft s) in
  let s1 := with_nft (set_nft_entered true (nft s)) s in
  let s2 := with_nft (set_tokenIdCounter (tokenId + 1) (nft s1)) s1 in
  let s3 := ERC721.write_owner tokenId to s2 in
  let s4 := with_nft (set_tokenURIs (<[tokenId := uri]> (_tokenURIs (nft s3))) (nft s3)) s3 in
  with_nft (set_nft_entered false (nft s4)) s4.

(** The state after a transfer of token [t], owned by an account other than
    [address(0)], to [to]: the approval of the token is cleared. *)
Definition transfer_state (t : N) (to : address) (s : State) : State :=
  ERC721.write_owner t to (ERC721.write_approval t address0 s).

(** What a successful call may do to the listing index: nothing, or append
    one token and record its position. *)
Definition index_step (s s' : State) : Prop :=
  (listedTokenIds (market s') = listedTokenIds (market s) /\
   _listedTokenIndex (market s') = _listedTokenIndex (market s) /\
   _hasBeenListed (market s') = _hasBeenListed (market s)) \/
  (exists t,
     listedTokenIds (market s') = listedTokenIds (market s) ++ [t] /\
     _listedTokenIndex (market s')
       = <[t := N.of_nat (length (listedTokenIds (market s)))]> (_listedTokenIndex (market s)) /\
     _hasBeenListed (market s') = <[t := true]> (_hasBeenListed (market s))).

(** What a successful call may do to the token registry: the owner of the
    NFT contract and its authorised minter stay, the counter does not go
    back, a token that has an owner keeps having one, and every token id
    the counter passed got an owner. *)
Definition registry_step (s s' : State) : Prop :=
  nft_owner (nft s') = nft_owner (nft s) /\
  marketplaceAddress (nft s') = marketplaceAddress (nft s) /\
  _tokenIdCounter (nft s) ≤ _tokenIdCounter (nft s') /\
  (forall t, ERC721._ownerOf s t ≠ address0 -> ERC721._ownerOf s' t ≠ address0) /\
  (forall t, _tokenIdCounter (nft s) ≤ t -> t < _tokenIdCounter (nft s') ->
             ERC721._ownerOf s' t ≠ address0).

(** The reverse map of the listing index: [_listedTokenIndex] gives, for
    every token of the index, a position at which the index holds it. *)
Definition index_positions (s : State) : Prop :=
  forall t,
    t ∈ listedTokenIds (market s) ->
    listedTokenIds (market s) !! N.to_nat (sload 0 (_listedTokenIndex (market s)) t) = Some t.

(** All the ether there is: the sum of the balances of all accounts. *)
Definition total_ether (s : State) : N :=
  map_fold (fun _ v acc => v + acc) 0 (balances s).

(** Every active listing has a price other than zero and a seller other
    than [address(0)]. *)
Definition listings_priced (s : State) : Prop :=
  forall t,
    isActive (NFTMarketplace.listing_of s t) = true ->
    price (NFTMarketplace.listing_of s t) ≠ 0 /\
    seller (NFTMarketplace.listing_of s t) ≠ address0.

(** The [listings] slot of a token outside the listing index was never
    written. *)
Definition unlisted_blank (s : State) : Prop :=
  forall t, t ∉ listedTokenIds (market s) -> listings (market s) !! t = None.

(** Exactly the tokens below the counter have a metadata URI. *)
Definition uris_minted (s : State) : Prop :=
  forall t, t < _tokenIdCounter (nft s) <-> is_Some (_tokenURIs (nft s) !! t).

(** The state in which the NFT contract calls the receiver hook of a mint
    of its next token to [to], for a mint entered in [s]: the guard of the
    NFT contract is taken, the counter has moved on and the token has its
    owner; its URI is not set yet. *)
Definition mint_hook (to : address) (s : State) : State :=
  let tokenId := _tokenIdCounter (nft s) in
  let s1 := with_nft (set_nft_entered true (nft s)) s in
  let s2 := with_nft (set_tokenIdCounter (tokenId + 1) (nft s1)) s1 in
  ERC721.write_owner tokenId to s2.

(** The calls in which no account outside the two contracts is called: they
    send no ether and reach no receiver hook. *)
Definition runs_no_foreign_code (c : Call) : bool :=
  match c with
  | ListNFT _ _ | DelistNFT _ | UpdateListingPrice _ _ | SetMarketplaceFee _
  | Deposit _ | Approve _ _ | SetApprovalForAll _ _ | TransferFrom _ _ _ => true
  | _ => false
  end.

(** *** A concrete deployment *)

Module Scenario.

Definition marketplace : address := 100.
Definition nftAddress : address := 101.
Definition deployer : address := 9.
Definition alice : address := 1.
Definition bob : address := 2.
Definition carol : address := 3.

(** Every account accepts ether and tokens. *)
Definition friendly : Env :=
  mkEnv marketplace nftAddress (fun _ _ _ => true) (fun _ _ _ _ _ => true).

(** As [friendly], but alice rejects every ether transfer. *)
Definition alice_rejects : Env :=
  mkEnv marketplace nftAddress (fun _ a _ => negb (a =? alice)) (fun _ _ _ _ _ => true).

(** Every account rejects ether and tokens for as long as the listing of
    token 0 is active, and accepts them once it is inactive. *)
Definition refuses_while_listed : Env :=
  mkEnv marketplace nftAddress
    (fun s _ _ => negb (isActive (NFTMarketplace.listing_of s 0)))
    (fun s _ _ _ _ => negb (isActive (NFTMarketplace.listing_of s 0))).

Definition funds : gmap N N := <[carol := 7000]> (<[bob := 5000]> (<[alice := 10]> ∅)).

Definition deployed : State := Eval vm_compute in initial_state friendly deployer funds.

(** Alice mints token 0, lists it for 1000 and approves the marketplace. *)
Definition listing_txs : list Tx :=
  [ mkTx alice alice (MintAndList "ipfs://QmSampleNFT1" 1000);
    mkTx alice alice (Approve marketplace 0) ].

Definition listed : State := Eval vm_compute in apply_txs friendly listing_txs deployed.

(** Bob buys token 0. *)
Definition sold : State :=
  Eval vm_compute in apply_tx friendly (mkTx bob bob (BuyNFT 0 1000)) listed.

(** Alice lists token 0, then gives it to carol outside the marketplace. *)
Definition given_away : State :=
  Eval vm_compute in apply_tx friendly (mkTx alice alice (TransferFrom alice carol 0)) listed.

(** Seven listings by alice (tokens 0 to 6, prices 1000 to 7000), of which
    she delists tokens 1 and 4: five active listings remain. *)
Definition five_active_txs : list Tx :=
  [ mkTx alice alice (MintAndList "ipfs://QmSampleNFT1" 1000);
    mkTx alice alice (MintAndList "ipfs://QmSampleNFT2" 2000);
    mkTx alice alice (MintAndList "ipfs://QmSampleNFT3" 3000);
    mkTx alice alice (MintAndList "ipfs://QmSampleNFT4" 4000);
    mkTx alice alice (MintAndList "ipfs://QmSampleNFT5" 5000);
    mkTx alice alice (MintAndList "ipfs://QmSampleNFT6" 6000);
    mkTx alice alice (MintAndList "ipfs://QmSampleNFT7" 7000);
    mkTx alice alice (DelistNFT 1);
    mkTx alice alice (DelistNFT 4) ].

Definition five_active : State :=
  Eval vm_compute in apply_txs friendly five_active_txs deployed.

(** After the sale of token 0 to bob: bob approves the marketplace and lists
    the token again, at 2000. *)
Definition relisting_txs : list Tx :=
  [ mkTx bob bob (BuyNFT 0 1000);
    mkTx bob bob (Approve marketplace 0);
    mkTx bob bob (ListNFT 0 2000) ].

(** Alice mints and lists token 0 for 1000; she has not approved the
    marketplace. *)
Definition minted_once : State :=
  Eval vm_compute in
    apply_tx friendly (mkTx alice alice (MintAndList "ipfs://QmSampleNFT1" 1000)) deployed.

(** Then bob mints token 1 for himself through the marketplace. *)
Definition minted_twice : State :=
  Eval vm_compute in
    apply_tx friendly (mkTx bob bob (MintNFT "ipfs://QmSampleNFT2")) minted_once.

End Scenario.

(** * Properties *)

Import NFTMarketplace.

(** ** Reasoning about storage reads and the monad *)

Section Basics.

Lemma sload_insert_eq {K V : Type} `{Countable K} (d v : V) (m : gmap K V) (k : K) :
  sload d (<[k := v]> m) k = v.
Proof. unfold sload. by rewrite lookup_insert_eq. Qed.

Lemma sload_insert_ne {K V : Type} `{Countable K} (d v : V) (m : gmap K V) (k k' : K) :
  k ≠ k' -> sload d (<[k := v]> m) k' = sload d m k'.
Proof. intros Hne. unfold sload. by rewrite lookup_insert_ne. Qed.

Lemma sload_empty {K V : Type} `{Countable K} (d : V) (k : K) :
  sload d (∅ : gmap K V) k = d.
Proof. unfold sload. by rewrite lookup_empty. Qed.

Lemma bind_ok_inv {A B : Type} (m : M A) (k : A -> M B) s b s' :
  bind m k s = Ok b s' -> exists a s1, m s = Ok a s1 /\ k a s1 = Ok b s'.
Proof.
  unfold bind. destruct (m s) as [a s1|e]; [eauto | discriminate].
Qed.

Lemma bind_ok {A B : Type} (m : M A) (k : A -> M B) s a s1 :
  m s = Ok a s1 -> bind m k s = k a s1.
Proof. unfold bind. by intros ->. Qed.

Lemma bind_congr {A B : Type} (m m' : M A) (k k' : A -> M B) s :
  m s = m' s ->
  (forall a s1, m' s = Ok a s1 -> k a s1 = k' a s1) ->
  bind m k s = bind m' k' s.
Proof.
  intros Hm Hk. unfold bind. rewrite Hm.
  destruct (m' s) as [a s1|e]; [by apply Hk | reflexivity].
Qed.

(** A reverted call leaves the state it was made in. *)
Lemma transact_failure {A : Type} (m : M A) s s' e :
  transact m s = (s', inl e) -> s' = s.
Proof. unfold transact. destruct (m s); intros [= <-]; reflexivity. Qed.

Lemma transact_ok {A : Type} (m : M A) s a s' :
  m s = Ok a s' -> transact m s = (s', inr a).
Proof. unfold transact. by intros ->. Qed.

Lemma transact_revert {A : Type} (m : M A) s e :
  m s = Revert e -> transact m s = (s, inl e).
Proof. unfold transact. by intros ->. Qed.

Lemma transact_success_inv {A : Type} (m : M A) s a s' :
  transact m s = (s', inr a) -> m s = Ok a s'.
Proof. unfold transact. destruct (m s); intros [= <- <-]; reflexivity. Qed.

(** *** Balances after a transfer *)

Lemma balance_move_other from to v s a :
  a ≠ from -> a ≠ to -> balance (move_ether from to v s) a = balance s a.
Proof.
  intros Hf Ht. unfold balance, move_ether. cbn.
  rewrite sload_insert_ne by done. by rewrite sload_insert_ne.
Qed.

Lemma balance_move_to from to v s :
  from ≠ to -> balance (move_ether from to v s) to = balance s to + v.
Proof.
  intros Hne. unfold balance, move_ether. cbn.
  rewrite sload_insert_eq. by rewrite sload_insert_ne.
Qed.


(** *** One step of a computation *)

Lemma bind_gets {A B : Type} (f : State -> A) (k : A -> M B) s :
  bind (gets f) k s = k (f s) s.
Proof. reflexivity. Qed.

Lemma bind_modify {B : Type} (f : State -> State) (k : unit -> M B) s :
  bind (modify f) k s = k tt (f s).
Proof. reflexivity. Qed.

Lemma bind_ret {A B : Type} (a : A) (k : A -> M B) s :
  bind (ret a) k s = k a s.
Proof. reflexivity. Qed.

Lemma bind_revert_if {B : Type} (c : bool) (e : Error) (k : unit -> M B) s :
  bind (revert_if c e) k s = if c then Revert e else k tt s.
Proof. by destruct c. Qed.

Lemma run_revert_if (c : bool) (e : Error) s :
  revert_if c e s = if c then Revert e else Ok tt s.
Proof. by destruct c. Qed.

Lemma bind_checked_add {B : Type} (a b : N) (k : N -> M B) s :
  bind (checked_add a b) k s =
  if decide (a + b ≤ MAX_UINT256) then k (a + b) s else Revert (Panic ARITHMETIC_OVERFLOW).
Proof. unfold checked_add. by case_decide. Qed.

Lemma bind_checked_mul {B : Type} (a b : N) (k : N -> M B) s :
  bind (checked_mul a b) k s =
  if decide (a * b ≤ MAX_UINT256) then k (a * b) s else Revert (Panic ARITHMETIC_OVERFLOW).
Proof. unfold checked_mul. by case_decide. Qed.

Lemma bind_checked_sub {B : Type} (a b : N) (k : N -> M B) s :
  bind (checked_sub a b) k s =
  if decide (b ≤ a) then k (a - b) s else Revert (Panic ARITHMETIC_OVERFLOW).
Proof. unfold checked_sub. by case_decide. Qed.

Lemma Ok_inv {A : Type} (a b : A) s s' : Ok a s = Ok b s' -> a = b /\ s = s'.
Proof. by intros [= -> ->]. Qed.

Lemma ret_ok_inv {A : Type} (a b : A) s s' : ret a s = Ok b s' -> b = a /\ s' = s.
Proof. unfold ret. by intros [= -> ->]. Qed.

Lemma gets_ok_inv {A : Type} (f : State -> A) b s s' :
  gets f s = Ok b s' -> b = f s /\ s' = s.
Proof. unfold gets. by intros [= <- <-]. Qed.

Lemma modify_ok_inv (f : State -> State) u s s' : modify f s = Ok u s' -> s' = f s.
Proof. unfold modify. by intros [= <-]. Qed.

(** *** The modifiers *)

Lemma nonReentrant_run {A : Type} (body : M A) s :
  mkt_entered (market s) = false ->
  nonReentrant body s =
  match body (enter s) with
  | Ok a s' => Ok a (leave s')
  | Revert e => Revert e
  end.
Proof.
  intros Hq. unfold nonReentrant. rewrite bind_gets, Hq, bind_modify.
  fold (enter s). unfold bind. by destruct (body (enter s)).
Qed.

(** A call that re-enters the marketplace while its guard is taken is
    refused. *)
Lemma nonReentrant_entered {A : Type} (body : M A) s :
  mkt_entered (market s) = true ->
  nonReentrant body s = Revert ReentrancyGuardReentrantCall.
Proof. intros Hq. unfold nonReentrant. by rewrite bind_gets, Hq. Qed.

Lemma payable_run {A : Type} E sender v (body : M A) s :
  v ≤ balance s sender ->
  payable E sender v body s = body (move_ether sender (this E) v s).
Proof. intros Hle. unfold payable. by rewrite decide_True. Qed.

Lemma onlyOwner_run {A : Type} sender (body : M A) s :
  onlyOwner sender body s =
  if decide (mkt_owner (market s) = sender) then body s
  else Revert (OwnableUnauthorizedAccount sender).
Proof. unfold onlyOwner. rewrite bind_gets. by case_decide. Qed.

(** Reads through states that differ in fields the read does not look at. *)
Lemma listing_of_enter s t : listing_of (enter s) t = listing_of s t.
Proof. reflexivity. Qed.
Lemma listing_of_leave s t : listing_of (leave s) t = listing_of s t.
Proof. reflexivity. Qed.
Lemma listing_of_move_ether f to v s t : listing_of (move_ether f to v s) t = listing_of s t.
Proof. reflexivity. Qed.
Lemma balance_enter s a : balance (enter s) a = balance s a.
Proof. reflexivity. Qed.
Lemma balance_leave s a : balance (leave s) a = balance s a.
Proof. reflexivity. Qed.

Lemma listing_of_deactivate_eq s t :
  listing_of (deactivate t s) t =
  mkListing (seller (listing_of s t)) (price (listing_of s t)) false.
Proof. unfold deactivate, listing_of at 1, write_listing. cbn. by rewrite sload_insert_eq. Qed.

End Basics.

(** Runs the leading steps of a computation in the goal. *)
Ltac mstep :=
  repeat first
    [ rewrite bind_gets | rewrite bind_modify | rewrite bind_ret
    | rewrite bind_revert_if | rewrite run_revert_if
    | rewrite bind_checked_add | rewrite bind_checked_mul | rewrite bind_checked_sub ];
  cbn beta.

(** Takes apart a hypothesis [H : m s = Ok a s'] along the steps of [m];
    calls of contract functions are left as they are. *)
Ltac minv H :=
  cbn beta iota in H;
  lazymatch type of H with
  | bind (gets _) _ _ = Ok _ _ => rewrite bind_gets in H; minv H
  | bind (modify _) _ _ = Ok _ _ => rewrite bind_modify in H; minv H
  | bind (ret _) _ _ = Ok _ _ => rewrite bind_ret in H; minv H
  | bind (revert_if _ _) _ _ = Ok _ _ => rewrite bind_revert_if in H; minv H
  | revert_if _ _ _ = Ok _ _ => rewrite run_revert_if in H; minv H
  | bind (checked_add _ _) _ _ = Ok _ _ => rewrite bind_checked_add in H; minv H
  | bind (checked_mul _ _) _ _ = Ok _ _ => rewrite bind_checked_mul in H; minv H
  | bind (checked_sub _ _) _ _ = Ok _ _ => rewrite bind_checked_sub in H; minv H
  | bind (if decide ?P then _ else _) _ _ = Ok _ _ => destruct (decide P); minv H
  | (if decide ?P then _ else _) _ = Ok _ _ => destruct (decide P); minv H
  | (if decide ?P then _ else _) = Ok _ _ => destruct (decide P); minv H
  | bind (if ?c then _ else _) _ _ = Ok _ _ => destruct c eqn:?; minv H
  | (if ?c then _ else _) _ = Ok _ _ => destruct c eqn:?; minv H
  | (if ?c then _ else _) = Ok _ _ => destruct c eqn:?; minv H
  | bind _ _ _ = Ok _ _ =>
      let a := fresh "a" in let s1 := fresh "s" in let H1 := fresh "Hstep" in
      apply bind_ok_inv in H as (a & s1 & H1 & H); minv H1; minv H
  | revert _ _ = Ok _ _ => discriminate H
  | Revert _ = Ok _ _ => discriminate H
  | Ok _ _ = Ok _ _ => apply Ok_inv in H; destruct H as [? ?]
  | ret _ _ = Ok _ _ => apply ret_ok_inv in H; destruct H as [? ?]
  | gets _ _ = Ok _ _ => apply gets_ok_inv in H; destruct H as [? ?]
  | modify _ _ = Ok _ _ => apply modify_ok_inv in H
  | _ => idtac
  end.

(** ** Facts about the ERC-721 operations *)

Section ERC721Facts.

Context (E : Env).

Lemma _requireOwned_ok tokenId s a s' :
  ERC721._requireOwned tokenId s = Ok a s' ->
  s' = s /\ a = ERC721._ownerOf s tokenId /\ a ≠ address0.
Proof. unfold ERC721._requireOwned. intros H. minv H. by simplify_eq. Qed.

Lemma _checkAuthorized_ok owner spender tokenId s u s' :
  ERC721._checkAuthorized owner spender tokenId s = Ok u s' ->
  s' = s /\ ERC721._isAuthorized s owner spender tokenId = true.
Proof. unfold ERC721._checkAuthorized. intros H. minv H. by simplify_eq. Qed.

(** What a successful [_update] did. *)
Lemma _update_ok to tokenId auth s from s' :
  ERC721._update to tokenId auth s = Ok from s' ->
  from = ERC721._ownerOf s tokenId /\
  (auth ≠ address0 -> ERC721._isAuthorized s from auth tokenId = true) /\
  s' = ERC721.write_owner tokenId to
         (if decide (from = address0) then s
          else ERC721.write_approval tokenId address0 s).
Proof.
  unfold ERC721._update. intros H. minv H; simplify_eq.
  - by rewrite decide_True.
  - by rewrite decide_False.
  - apply _checkAuthorized_ok in Hstep as [-> Hauth]. by rewrite decide_True.
  - apply _checkAuthorized_ok in Hstep as [-> Hauth]. by rewrite decide_False.
Qed.

Lemma _checkOnERC721Received_ok operator from to tokenId s u s' :
  ERC721._checkOnERC721Received E operator from to tokenId s = Ok u s' ->
  s' = s /\ to ≠ this E /\ to ≠ nftContract E /\
  accepts_token E s operator from to tokenId = true.
Proof.
  unfold ERC721._checkOnERC721Received. intros H. minv H. simplify_eq.
  repeat match goal with
         | H : _ && _ = true |- _ => apply andb_true_iff in H as [? ?]
         | H : bool_decide _ = true |- _ => apply bool_decide_eq_true_1 in H
         end.
  done.
Qed.

Lemma transferFrom_ok sender from to tokenId s u s' :
  ERC721.transferFrom sender from to tokenId s = Ok u s' ->
  to ≠ address0 /\ from = ERC721._ownerOf s tokenId /\
  (sender ≠ address0 -> ERC721._isAuthorized s from sender tokenId = true) /\
  s' = ERC721.write_owner tokenId to
         (if decide (from = address0) then s
          else ERC721.write_approval tokenId address0 s).
Proof.
  unfold ERC721.transferFrom. intros H. minv H.
  apply _update_ok in Hstep as (Hfrom & Hauth & Hs). by simplify_eq.
Qed.

Lemma safeTransferFrom_ok sender from to tokenId s u s' :
  ERC721.safeTransferFrom E sender from to tokenId s = Ok u s' ->
  to ≠ address0 /\ from = ERC721._ownerOf s tokenId /\
  (sender ≠ address0 -> ERC721._isAuthorized s from sender tokenId = true) /\
  s' = ERC721.write_owner tokenId to
         (if decide (from = address0) then s
          else ERC721.write_approval tokenId address0 s) /\
  accepts_token E s' sender from to tokenId = true.
Proof.
  unfold ERC721.safeTransferFrom. intros H. minv H.
  apply transferFrom_ok in Hstep as (Hto & Hfrom & Hauth & Hs).
  apply _checkOnERC721Received_ok in H as (-> & _ & _ & Hacc). done.
Qed.

Lemma safeTransferFrom_same_ledger sender from to tokenId s u s' :
  ERC721.safeTransferFrom E sender from to tokenId s = Ok u s' -> same_ledger s s'.
Proof.
  intros H. apply safeTransferFrom_ok in H as (_ & _ & _ & -> & _).
  by case_decide.
Qed.

Lemma _safeMint_ok sender to tokenId s u s' :
  ERC721._safeMint E sender to tokenId s = Ok u s' ->
  to ≠ address0 /\ ERC721._ownerOf s tokenId = address0 /\
  s' = ERC721.write_owner tokenId to s.
Proof.
  unfold ERC721._safeMint, ERC721._mint. intros H. minv H.
  lazymatch goal with
  | Hu : ERC721._update _ _ _ _ = _ |- _ => apply _update_ok in Hu as (Hfrom & _ & Hs)
  end.
  simplify_eq.
  apply _checkOnERC721Received_ok in H as (-> & _).
  rewrite decide_True by done. done.
Qed.

Lemma next_token_id_ok s tokenId s' :
  NFT.next_token_id s = Ok tokenId s' ->
  tokenId = _tokenIdCounter (nft s) /\
  s' = with_nft (set_tokenIdCounter (tokenId + 1) (nft s)) s.
Proof. unfold NFT.next_token_id. intros H. minv H. by simplify_eq. Qed.

(** Names the steps of a successful mint. *)
Ltac mint_steps :=
  repeat lazymatch goal with
  | Hn : NFT.next_token_id _ = Ok _ _ |- _ => apply next_token_id_ok in Hn as [-> ->]
  | Hm : ERC721._safeMint _ _ _ _ _ = Ok _ _ |- _ =>
      apply _safeMint_ok in Hm as (? & ? & ->)
  | Hu : ERC721._setTokenURI _ _ _ = Ok _ _ |- _ =>
      unfold ERC721._setTokenURI in Hu; apply modify_ok_inv in Hu
  end.

Lemma mint_ok origin sender uri s tokenId s' :
  NFT.mint E origin sender uri s = Ok tokenId s' -> minted s s' tokenId origin.
Proof.
  unfold NFT.mint, NFT.nonReentrant. intros H. minv H. mint_steps. simplify_eq.
  repeat split; try done.
Qed.

Lemma mintTo_ok sender to uri s tokenId s' :
  NFT.mintTo E sender to uri s = Ok tokenId s' -> minted s s' tokenId to.
Proof.
  unfold NFT.mintTo, NFT.nonReentrant. intros H. minv H. mint_steps. simplify_eq.
  repeat split; try done.
Qed.

Lemma minted_owner s s' tokenId to :
  minted s s' tokenId to -> ERC721._ownerOf s' tokenId = to.
Proof.
  intros (_ & _ & _ & _ & Ho & _). unfold ERC721._ownerOf.
  by rewrite Ho, sload_insert_eq.
Qed.

End ERC721Facts.

(** ** Facts about buyNFT *)

Section BuyFacts.

Context (E : Env).

Lemma call_value_ok to v s s' :
  call_value E to v s = Ok true s' ->
  v ≤ balance s (this E) /\
  ((to = this E /\ s' = s) \/
   (to ≠ this E /\ to ≠ nftContract E /\ accepts_ether E s to v = true /\
    s' = move_ether (this E) to v s)).
Proof.
  unfold call_value. intros H.
  repeat case_decide; try discriminate H; simplify_eq; split; auto.
  destruct (accepts_ether E s to v) eqn:Hacc; simplify_eq. right. done.
Qed.

Lemma call_value_market to v s b s' :
  call_value E to v s = Ok b s' -> market s' = market s /\ nft s' = nft s.
Proof.
  unfold call_value. intros H.
  repeat case_decide; simplify_eq; auto.
  destruct (accepts_ether E s to v); simplify_eq; auto.
Qed.

(** Everything a successful [buyNFT] went through. *)
Lemma buyNFT_ok caller v t s u s' :
  mkt_entered (market s) = false ->
  buyNFT E caller v t s = Ok u s' ->
  let l := listing_of s t in
  let fee := fee_on (price l) (marketplaceFee (market s)) in
  v ≤ balance s caller /\ isActive l = true /\ caller ≠ seller l /\ v = price l /\
  price l * marketplaceFee (market s) ≤ MAX_UINT256 /\ fee ≤ price l /\
  exists s_t s_p,
    ERC721.safeTransferFrom E (this E) (seller l) caller t
      (deactivate t (enter (move_ether caller (this E) v s))) = Ok tt s_t /\
    call_value E (seller l) (price l - fee) s_t = Ok true s_p /\
    s' = leave s_p.
Proof.
  intros Hq H. unfold buyNFT, payable in H.
  case_decide as Hfund; [|discriminate H].
  rewrite nonReentrant_run in H by done.
  destruct (buyNFT_body _ _ _ _ _) as [[] s2|] eqn:Hbody; [|discriminate H].
  destruct u. injection H as <-. unfold buyNFT_body in Hbody. minv Hbody.
  rewrite !listing_of_deactivate_eq in *. cbn [seller price] in *.
  rewrite !listing_of_enter, !listing_of_move_ether in *.
  pose proof (safeTransferFrom_same_ledger _ _ _ _ _ _ _ _ Hstep) as [_ Hm].
  assert (Hl : listing_of s0 t = listing_of (deactivate t (enter (move_ether caller (this E) v s))) t).
  { unfold listing_of. by rewrite Hm. }
  rewrite Hl, listing_of_deactivate_eq in Hstep0. cbn [seller] in Hstep0.
  rewrite listing_of_enter, listing_of_move_ether in Hstep0.
  destruct a, a0; [|discriminate]. simplify_eq.
  change (marketplaceFee (market (deactivate t (enter (move_ether caller (this E) v s)))))
    with (marketplaceFee (market s)) in *.
  repeat match goal with
         | H : negb _ = false |- _ => apply negb_false_iff in H
         | H : bool_decide _ = false |- _ => apply bool_decide_eq_false_1 in H
         end.
  cbn zeta. unfold fee_on.
  repeat split; try done.
  - by destruct (decide (v = price (listing_of s t))); [|exfalso; auto].
  - eexists _, _. repeat split; eauto.
Qed.

Lemma buyNFT_run caller v t s :
  mkt_entered (market s) = false ->
  v ≤ balance s caller ->
  buyNFT E caller v t s =
  match buyNFT_body E caller v t (enter (move_ether caller (this E) v s)) with
  | Ok a s' => Ok a (leave s')
  | Revert e => Revert e
  end.
Proof.
  intros Hq Hfund. unfold buyNFT. rewrite payable_run by done.
  by rewrite nonReentrant_run.
Qed.

Lemma buyNFT_inactive caller v t s :
  mkt_entered (market s) = false ->
  v ≤ balance s caller ->
  isActive (listing_of s t) = false ->
  buyNFT E caller v t s = Revert ListingNotActive.
Proof.
  intros Hq Hfund Hact. rewrite buyNFT_run by done.
  unfold buyNFT_body. mstep.
  rewrite listing_of_enter, listing_of_move_ether, Hact. reflexivity.
Qed.

(** After a successful purchase the listing is inactive and the guard is
    released. *)
Lemma buyNFT_ok_deactivated caller v t s u s' :
  mkt_entered (market s) = false ->
  buyNFT E caller v t s = Ok u s' ->
  isActive (listing_of s' t) = false /\ mkt_entered (market s') = false.
Proof.
  intros Hq H.
  apply buyNFT_ok in H as (_ & _ & _ & _ & _ & _ & s_t & s_p & Ht & Hp & ->); [|done].
  split; [|reflexivity].
  rewrite listing_of_leave.
  apply call_value_market in Hp as [Hm _].
  apply safeTransferFrom_same_ledger in Ht as [_ Hm'].
  unfold listing_of. rewrite Hm, Hm'.
  fold (listing_of (deactivate t (enter (move_ether caller (this E) v s))) t).
  by rewrite listing_of_deactivate_eq.
Qed.

(** A purchase whose payment to the seller is rejected: when the payment
    is attempted the listing is already inactive and the token is already
    with the buyer, and the revert takes all of it back. *)
Lemma buyNFT_rejected_payout caller v t s s_t s_p :
  mkt_entered (market s) = false ->
  v ≤ balance s caller ->
  isActive (listing_of s t) = true ->
  caller ≠ seller (listing_of s t) ->
  v = price (listing_of s t) ->
  price (listing_of s t) * marketplaceFee (market s) ≤ MAX_UINT256 ->
  fee_on (price (listing_of s t)) (marketplaceFee (market s)) ≤ price (listing_of s t) ->
  ERC721.safeTransferFrom E (this E) (seller (listing_of s t)) caller t
    (deactivate t (enter (move_ether caller (this E) v s))) = Ok tt s_t ->
  call_value E (seller (listing_of s t))
    (price (listing_of s t) - fee_on (price (listing_of s t)) (marketplaceFee (market s)))
    s_t = Ok false s_p ->
  isActive (listing_of s_t t) = false /\
  ERC721._ownerOf s_t t = caller /\
  transact (buyNFT E caller v t) s = (s, inl TransferFailed).
Proof.
  intros Hq Hfund Hact Hself Hpay Hmul Hfee Hsafe Hcall.
  pose proof (safeTransferFrom_same_ledger _ _ _ _ _ _ _ _ Hsafe) as [_ Hm].
  assert (Hl : listing_of s_t t
               = mkListing (seller (listing_of s t)) (price (listing_of s t)) false).
  { unfold listing_of at 1. rewrite Hm.
    fold (listing_of (deactivate t (enter (move_ether caller (this E) v s))) t).
    by rewrite listing_of_deactivate_eq. }
  split; [by rewrite Hl|]. split.
  - apply safeTransferFrom_ok in Hsafe as (_ & _ & _ & -> & _).
    unfold ERC721._ownerOf, ERC721.write_owner. cbn. by rewrite sload_insert_eq.
  - apply transact_revert. rewrite buyNFT_run by done.
    unfold buyNFT_body. mstep.
    rewrite !listing_of_deactivate_eq. cbn [seller price].
    rewrite !listing_of_enter, !listing_of_move_ether, Hact. cbn [negb].
    rewrite bool_decide_eq_false_2 by done.
    rewrite bool_decide_eq_false_2 by (intros Hne; by apply Hne).
    change (marketplaceFee (market (deactivate t (enter (move_ether caller (this E) v s)))))
      with (marketplaceFee (market s)).
    rewrite decide_True by done. rewrite decide_True by done.
    rewrite (bind_ok _ _ _ _ _ Hsafe). mstep.
    rewrite Hl. cbn [seller].
    unfold fee_on in Hcall. by rewrite (bind_ok _ _ _ _ _ Hcall).
Qed.

(** A purchase whose token transfer reverts, after the listing was marked
    inactive: the purchase reverts with the same error. *)
Lemma buyNFT_failed_transfer caller v t s e :
  mkt_entered (market s) = false ->
  v ≤ balance s caller ->
  isActive (listing_of s t) = true ->
  caller ≠ seller (listing_of s t) ->
  v = price (listing_of s t) ->
  price (listing_of s t) * marketplaceFee (market s) ≤ MAX_UINT256 ->
  fee_on (price (listing_of s t)) (marketplaceFee (market s)) ≤ price (listing_of s t) ->
  ERC721.safeTransferFrom E (this E) (seller (listing_of s t)) caller t
    (deactivate t (enter (move_ether caller (this E) v s))) = Revert e ->
  isActive (listing_of (deactivate t (enter (move_ether caller (this E) v s))) t) = false /\
  transact (buyNFT E caller v t) s = (s, inl e).
Proof.
  intros Hq Hfund Hact Hself Hpay Hmul Hfee Hsafe.
  split; [by rewrite listing_of_deactivate_eq|].
  apply transact_revert. rewrite buyNFT_run by done.
  unfold buyNFT_body. mstep.
  rewrite !listing_of_deactivate_eq. cbn [seller price].
  rewrite !listing_of_enter, !listing_of_move_ether, Hact. cbn [negb].
  rewrite bool_decide_eq_false_2 by done.
  rewrite bool_decide_eq_false_2 by (intros Hne; by apply Hne).
  change (marketplaceFee (market (deactivate t (enter (move_ether caller (this E) v s)))))
    with (marketplaceFee (market s)).
  rewrite decide_True by done. rewrite decide_True by done.
  unfold bind at 1. by rewrite Hsafe.
Qed.

End BuyFacts.

Section EnvIndependence.

Context (t : N) (E E' : Env) (Hagree : agree_once_inactive t E E').

Lemma call_value_env to v s :
  isActive (listing_of s t) = false ->
  call_value E' to v s = call_value E to v s.
Proof.
  destruct Hagree as (Hthis & Hnft & Hether & _).
  intros Hin. unfold call_value. rewrite Hthis, Hnft.
  by rewrite (Hether s to v Hin).
Qed.

Lemma safeTransferFrom_env sender from to id s :
  isActive (listing_of s t) = false ->
  ERC721.safeTransferFrom E' sender from to id s
  = ERC721.safeTransferFrom E sender from to id s.
Proof.
  destruct Hagree as (Hthis & Hnft & _ & Htoken).
  intros Hin. unfold ERC721.safeTransferFrom, bind.
  destruct (ERC721.transferFrom sender from to id s) as [[] s1|] eqn:Ht; [|done].
  apply transferFrom_ok in Ht as (_ & _ & _ & Hs).
  assert (Hin1 : isActive (listing_of s1 t) = false).
  { rewrite Hs. by case_decide. }
  unfold ERC721._checkOnERC721Received, bind, gets.
  by rewrite Hthis, Hnft, (Htoken s1 sender from to id Hin1).
Qed.

Lemma buyNFT_body_env caller v s :
  buyNFT_body E' caller v t s = buyNFT_body E caller v t s.
Proof.
  unfold buyNFT_body. mstep.
  repeat case_match; try reflexivity.
  set (x := deactivate t s).
  assert (Hx : isActive (listing_of x t) = false).
  { unfold x. by rewrite listing_of_deactivate_eq. }
  destruct Hagree as (Hthis & _). rewrite Hthis.
  apply bind_congr; [by apply safeTransferFrom_env|].
  intros [] s1 Ht.
  apply safeTransferFrom_same_ledger in Ht as [_ Hm].
  assert (Hs1 : isActive (listing_of s1 t) = false).
  { unfold listing_of. rewrite Hm. exact Hx. }
  mstep. apply bind_congr; [by apply call_value_env | reflexivity].
Qed.

Lemma buyNFT_env caller v s :
  buyNFT E' caller v t s = buyNFT E caller v t s.
Proof.
  unfold buyNFT, payable. destruct Hagree as (Hthis & _). rewrite Hthis.
  case_decide; [|done].
  unfold nonReentrant, bind, gets, modify.
  destruct (mkt_entered _); [done|].
  by rewrite buyNFT_body_env.
Qed.

End EnvIndependence.

(** ** C3: the three rejections of buyNFT *)

(** C3.  A call of [buyNFT] by a caller holding the attached payment, made
    while no marketplace call is in progress, is rejected with
    [ListingNotActive] when the token was never listed or its listing is
    inactive, with [CannotBuyOwnNFT] (the specification's SelfPurchase) when
    the caller is the recorded seller, and with [IncorrectPaymentAmount]
    (WrongPaymentAmount) when the payment differs from the price, be it lower
    or higher; in each case the state, balances included, stays as it was, so
    an overpayment is not accepted and refunded. *)
Theorem buyNFT_rejections (E : Env) (caller : address) (assetId paymentAmount : N)
    (s : State) :
  mkt_entered (market s) = false ->
  paymentAmount ≤ balance s caller ->
  (listings (market s) !! assetId = None ->
     transact (buyNFT E caller paymentAmount assetId) s = (s, inl ListingNotActive)) /\
  (isActive (listing_of s assetId) = false ->
     transact (buyNFT E caller paymentAmount assetId) s = (s, inl ListingNotActive)) /\
  (isActive (listing_of s assetId) = true ->
   caller = seller (listing_of s assetId) ->
     transact (buyNFT E caller paymentAmount assetId) s = (s, inl CannotBuyOwnNFT)) /\
  (isActive (listing_of s assetId) = true ->
   caller ≠ seller (listing_of s assetId) ->
   paymentAmount ≠ price (listing_of s assetId) ->
     transact (buyNFT E caller paymentAmount assetId) s = (s, inl IncorrectPaymentAmount)).
Proof.
  intros Hq Hfund.
  pose proof (buyNFT_run E caller paymentAmount assetId s Hq Hfund) as Hrun.
  repeat split.
  - intros Hnone. apply transact_revert, buyNFT_inactive; [done..|].
    unfold listing_of, sload. by rewrite Hnone.
  - intros Hact. by apply transact_revert, buyNFT_inactive.
  - intros Hact Hself. apply transact_revert. rewrite Hrun.
    unfold buyNFT_body. mstep.
    rewrite !listing_of_enter, !listing_of_move_ether, Hact. cbn [negb].
    by rewrite bool_decide_eq_true_2.
  - intros Hact Hother Hpay. apply transact_revert. rewrite Hrun.
    unfold buyNFT_body. mstep.
    rewrite !listing_of_enter, !listing_of_move_ether, Hact. cbn [negb].
    rewrite bool_decide_eq_false_2 by done.
    by rewrite bool_decide_eq_true_2.
Qed.

(** The theorem at a token that was never listed, at a sold token, at alice
    buying her own token, and at an underpayment and an overpayment by bob. *)
Lemma buyNFT_rejections_witness :
  transact (buyNFT Scenario.friendly Scenario.bob 1000 5) Scenario.listed
    = (Scenario.listed, inl ListingNotActive) /\
  transact (buyNFT Scenario.friendly Scenario.carol 1000 0) Scenario.sold
    = (Scenario.sold, inl ListingNotActive) /\
  transact (buyNFT Scenario.friendly Scenario.alice 10 0) Scenario.listed
    = (Scenario.listed, inl CannotBuyOwnNFT) /\
  transact (buyNFT Scenario.friendly Scenario.bob 999 0) Scenario.listed
    = (Scenario.listed, inl IncorrectPaymentAmount) /\
  transact (buyNFT Scenario.friendly Scenario.bob 1001 0) Scenario.listed
    = (Scenario.listed, inl IncorrectPaymentAmount).
Proof.
  split; [|split; [|split; [|split]]].
  - apply (buyNFT_rejections Scenario.friendly Scenario.bob 5 1000 Scenario.listed);
      vm_compute; congruence.
  - apply (buyNFT_rejections Scenario.friendly Scenario.carol 0 1000 Scenario.sold);
      vm_compute; congruence.
  - apply (buyNFT_rejections Scenario.friendly Scenario.alice 0 10 Scenario.listed);
      vm_compute; congruence.
  - apply (buyNFT_rejections Scenario.friendly Scenario.bob 0 999 Scenario.listed);
      vm_compute; congruence.
  - apply (buyNFT_rejections Scenario.friendly Scenario.bob 0 1001 Scenario.listed);
      vm_compute; congruence.
Defined.

(** ** C1: a failed buyNFT changes nothing *)

(** C1.  Whatever makes a call of [buyNFT] fail, the state after the call is
    the state before it: the listing of the token (seller, price and
    [isActive]), the owner of the token, the listing index and every balance
    are as they were.  This covers the failures that come after the listing
    was marked inactive: when the token transfer reverts, the purchase
    reverts with its error; when the seller's account rejects the payment,
    the purchase reverts with [TransferFailed], although at that moment the
    listing was inactive and the token already belonged to the buyer. *)
Theorem buyNFT_failure_atomic (E : Env) (caller : address) (paymentAmount assetId : N)
    (s : State) :
  (forall s' e,
     transact (buyNFT E caller paymentAmount assetId) s = (s', inl e) ->
     s' = s /\
     listing_of s' assetId = listing_of s assetId /\
     ERC721._ownerOf s' assetId = ERC721._ownerOf s assetId /\
     listedTokenIds (market s') = listedTokenIds (market s) /\
     (forall a, balance s' a = balance s a)) /\
  (mkt_entered (market s) = false ->
   paymentAmount ≤ balance s caller ->
   isActive (listing_of s assetId) = true ->
   caller ≠ seller (listing_of s assetId) ->
   paymentAmount = price (listing_of s assetId) ->
   price (listing_of s assetId) * marketplaceFee (market s) ≤ MAX_UINT256 ->
   fee_on (price (listing_of s assetId)) (marketplaceFee (market s))
     ≤ price (listing_of s assetId) ->
   let mid := deactivate assetId (enter (move_ether caller (this E) paymentAmount s)) in
   let who := seller (listing_of s assetId) in
   let proceeds :=
     price (listing_of s assetId)
     - fee_on (price (listing_of s assetId)) (marketplaceFee (market s)) in
   (forall e,
      ERC721.safeTransferFrom E (this E) who caller assetId mid = Revert e ->
      isActive (listing_of mid assetId) = false /\
      transact (buyNFT E caller paymentAmount assetId) s = (s, inl e)) /\
   (forall s_t s_p,
      ERC721.safeTransferFrom E (this E) who caller assetId mid = Ok tt s_t ->
      call_value E who proceeds s_t = Ok false s_p ->
      isActive (listing_of s_t assetId) = false /\
      ERC721._ownerOf s_t assetId = caller /\
      transact (buyNFT E caller paymentAmount assetId) s = (s, inl TransferFailed))).
Proof.
  split.
  - intros s' e H. apply transact_failure in H. subst s'. repeat split.
  - intros Hq Hfund Hact Hself Hpay Hmul Hfee. cbn zeta. split.
    + intros e Hsafe. by apply buyNFT_failed_transfer.
    + intros s_t s_p Hsafe Hcall. by eapply buyNFT_rejected_payout.
Qed.

(** The theorem at two failures that happen after the listing was marked
    inactive: alice's account rejects the payment to the seller, and the
    token can no longer be moved because alice gave it away. *)
Lemma buyNFT_failure_atomic_witness :
  (snd (transact (buyNFT Scenario.alice_rejects Scenario.bob 1000 0) Scenario.listed)
     = inl TransferFailed /\
   fst (transact (buyNFT Scenario.alice_rejects Scenario.bob 1000 0) Scenario.listed)
     = Scenario.listed) /\
  (transact (buyNFT Scenario.friendly Scenario.bob 1000 0) Scenario.given_away
     = (Scenario.given_away, inl (ERC721InsufficientApproval Scenario.marketplace 0))).
Proof.
  split.
  - split; [vm_compute; reflexivity|].
    destruct (buyNFT_failure_atomic Scenario.alice_rejects Scenario.bob 1000 0
                Scenario.listed) as [Hany _].
    apply (Hany _ TransferFailed). vm_compute; reflexivity.
  - destruct (buyNFT_failure_atomic Scenario.friendly Scenario.bob 1000 0
                Scenario.given_away) as [_ Hlate].
    destruct Hlate as [Htransfer _];
      [reflexivity | vm_compute; discriminate | vm_compute; reflexivity
      | vm_compute; discriminate | vm_compute; reflexivity | vm_compute; discriminate
      | vm_compute; discriminate |].
    apply Htransfer. vm_compute; reflexivity.
Defined.

(** ** C4: a sold token cannot be bought again *)

(** C4.  After a successful [buyNFT] on a token its listing is inactive, and
    a second [buyNFT] on the same token, by any caller holding whatever
    payment is attached, fails with the explicit error [ListingNotActive]
    and changes nothing.  The listing is deactivated before the purchase
    makes any call to the outside: the run is the same in every environment
    that answers alike from the moment the listing is inactive. *)
Theorem buyNFT_twice (E : Env) (caller : address) (paymentAmount assetId : N)
    (s s1 : State) :
  mkt_entered (market s) = false ->
  transact (buyNFT E caller paymentAmount assetId) s = (s1, inr tt) ->
  isActive (listing_of s1 assetId) = false /\
  (forall caller' payment',
     payment' ≤ balance s1 caller' ->
     transact (buyNFT E caller' payment' assetId) s1 = (s1, inl ListingNotActive)) /\
  (forall E', agree_once_inactive assetId E E' ->
     transact (buyNFT E' caller paymentAmount assetId) s = (s1, inr tt)).
Proof.
  intros Hq H.
  pose proof (transact_success_inv _ _ _ _ H) as Hok.
  destruct (buyNFT_ok_deactivated E _ _ _ _ _ _ Hq Hok) as [Hin Hq1].
  split; [exact Hin|]. split.
  - intros caller' payment' Hfund.
    by apply transact_revert, buyNFT_inactive.
  - intros E' Hagree. apply transact_ok.
    by rewrite (buyNFT_env assetId E E' Hagree).
Qed.

(** The theorem at bob's purchase of token 0 followed by an attempt of carol,
    and at accounts that would refuse any transfer made while the listing is
    still active. *)
Lemma buyNFT_twice_witness :
  transact (buyNFT Scenario.friendly Scenario.bob 1000 0) Scenario.listed
    = (Scenario.sold, inr tt) /\
  isActive (listing_of Scenario.sold 0) = false /\
  transact (buyNFT Scenario.friendly Scenario.carol 1000 0) Scenario.sold
    = (Scenario.sold, inl ListingNotActive) /\
  transact (buyNFT Scenario.refuses_while_listed Scenario.bob 1000 0) Scenario.listed
    = (Scenario.sold, inr tt).
Proof.
  assert (Hq : mkt_entered (market Scenario.listed) = false) by reflexivity.
  assert (Hrun : transact (buyNFT Scenario.friendly Scenario.bob 1000 0) Scenario.listed
                 = (Scenario.sold, inr tt)) by (vm_compute; reflexivity).
  destruct (buyNFT_twice _ _ _ _ _ _ Hq Hrun) as (Hin & Hagain & Henv).
  split; [exact Hrun|]. split; [exact Hin|]. split.
  - apply Hagain. vm_compute; congruence.
  - apply Henv. repeat split.
    + intros s a v Hs. cbn. by rewrite Hs.
    + intros s o f to id Hs. cbn. by rewrite Hs.
Defined.

(** ** C9: mintNFT mints to the transaction originator *)

(** C9.  A successful [mintNFT] mints the next token id and makes the
    originator of the transaction ([tx.origin]) its owner, whoever the
    immediate caller is: when the call was routed through another contract,
    the token belongs to the originating account and not to that contract. *)
Theorem mintNFT_mints_to_origin (E : Env) (origin caller : address) (uri : string)
    (s s' : State) (tokenId : N) :
  transact (mintNFT E origin caller uri) s = (s', inr tokenId) ->
  tokenId = _tokenIdCounter (nft s) /\
  ERC721._ownerOf s tokenId = address0 /\
  ERC721._ownerOf s' tokenId = origin /\
  (caller ≠ origin -> ERC721._ownerOf s' tokenId ≠ caller).
Proof.
  intros H. apply transact_success_inv in H.
  unfold mintNFT, nonReentrant in H. minv H. simplify_eq.
  lazymatch goal with
  | Hm : NFT.mint _ _ _ _ _ = Ok _ _ |- _ =>
      apply mint_ok in Hm; pose proof (minted_owner _ _ _ _ Hm) as Ho;
      destruct Hm as (Hid & _ & _ & Hnone & _)
  end.
  split; [exact Hid|]. split; [exact Hnone|]. split; [exact Ho|].
  intros Hne Hc. apply Hne. etransitivity; [symmetry; exact Hc | exact Ho].
Qed.

(** The theorem at a mint that alice starts and routes through carol's
    contract: the new token 1 is alice's. *)
Lemma mintNFT_mints_to_origin_witness :
  snd (transact (mintNFT Scenario.friendly Scenario.alice Scenario.carol "ipfs://QmTest123")
         Scenario.listed) = inr 1 /\
  ERC721._ownerOf
    (fst (transact (mintNFT Scenario.friendly Scenario.alice Scenario.carol "ipfs://QmTest123")
            Scenario.listed)) 1 = Scenario.alice.
Proof.
  split; [vm_compute; reflexivity|].
  apply (mintNFT_mints_to_origin Scenario.friendly Scenario.alice Scenario.carol
           "ipfs://QmTest123" Scenario.listed _ 1).
  vm_compute; reflexivity.
Defined.

(** ** C8: only the recorded seller manages a listing *)

Section ManageFacts.

Lemma delistNFT_run caller t s :
  mkt_entered (market s) = false ->
  isActive (listing_of s t) = true ->
  delistNFT caller t s =
  if decide (seller (listing_of s t) = caller)
  then Ok tt (leave (deactivate t (enter s)))
  else Revert NotTokenOwner.
Proof.
  intros Hq Hact. unfold delistNFT. rewrite nonReentrant_run by done. mstep.
  rewrite !listing_of_enter, Hact. cbn [negb].
  case_decide.
  - by rewrite bool_decide_eq_false_2 by auto.
  - by rewrite bool_decide_eq_true_2 by auto.
Qed.

Lemma updateListingPrice_run caller t p s :
  mkt_entered (market s) = false ->
  isActive (listing_of s t) = true ->
  updateListingPrice caller t p s =
  if decide (p = 0) then Revert PriceMustBeGreaterThanZero
  else if decide (seller (listing_of s t) = caller)
       then Ok tt (leave (reprice t p (enter s)))
       else Revert NotTokenOwner.
Proof.
  intros Hq Hact. unfold updateListingPrice. rewrite nonReentrant_run by done. mstep.
  case_decide.
  - by rewrite bool_decide_eq_true_2.
  - rewrite bool_decide_eq_false_2 by done.
    rewrite !listing_of_enter, Hact. cbn [negb].
    case_decide.
    + by rewrite bool_decide_eq_false_2 by auto.
    + by rewrite bool_decide_eq_true_2 by auto.
Qed.

End ManageFacts.

(** C8, as stated, fails: alice is the recorded seller of the active listing
    of token 0, yet her [updateListingPrice] to the price 0 does not
    succeed. *)
Lemma seller_reprice_to_zero_rejected :
  mkt_entered (market Scenario.listed) = false /\
  isActive (listing_of Scenario.listed 0) = true /\
  seller (listing_of Scenario.listed 0) = Scenario.alice /\
  transact (updateListingPrice Scenario.alice 0 0) Scenario.listed
    = (Scenario.listed, inl PriceMustBeGreaterThanZero) /\
  ~ (exists s', transact (updateListingPrice Scenario.alice 0 0) Scenario.listed
                = (s', inr tt)).
Proof.
  assert (Hrun : transact (updateListingPrice Scenario.alice 0 0) Scenario.listed
                 = (Scenario.listed, inl PriceMustBeGreaterThanZero))
    by (vm_compute; reflexivity).
  split; [reflexivity|]. split; [vm_compute; reflexivity|].
  split; [vm_compute; reflexivity|]. split; [exact Hrun|].
  intros [s' Hs']. rewrite Hrun in Hs'. apply (f_equal snd) in Hs'.
  cbn [snd] in Hs'. discriminate Hs'.
Qed.

(** C8, amended.  On an active listing, [delistNFT] succeeds exactly when
    the caller is the seller recorded in the listing, and so does
    [updateListingPrice] with a non-zero new price; any other caller is
    rejected with [NotTokenOwner].  Neither function looks at who owns the
    token now: the current owner is rejected when he is not the recorded
    seller, and the recorded seller is served after the token has left him.
    With the new price 0, [updateListingPrice] is rejected with
    [PriceMustBeGreaterThanZero] for every caller. *)
Theorem listing_managed_by_recorded_seller (caller : address) (assetId newPrice : N)
    (s : State) :
  mkt_entered (market s) = false ->
  isActive (listing_of s assetId) = true ->
  (caller = seller (listing_of s assetId) ->
     transact (delistNFT caller assetId) s
       = (leave (deactivate assetId (enter s)), inr tt) /\
     (newPrice ≠ 0 ->
        transact (updateListingPrice caller assetId newPrice) s
          = (leave (reprice assetId newPrice (enter s)), inr tt))) /\
  (caller ≠ seller (listing_of s assetId) ->
     transact (delistNFT caller assetId) s = (s, inl NotTokenOwner) /\
     (newPrice ≠ 0 ->
        transact (updateListingPrice caller assetId newPrice) s
          = (s, inl NotTokenOwner))) /\
  transact (updateListingPrice caller assetId 0) s
    = (s, inl PriceMustBeGreaterThanZero).
Proof.
  intros Hq Hact. split; [|split].
  - intros Hc. split.
    + apply transact_ok. rewrite delistNFT_run by done. by rewrite decide_True.
    + intros Hp. apply transact_ok. rewrite updateListingPrice_run by done.
      rewrite decide_False by done. by rewrite decide_True.
  - intros Hc. split.
    + apply transact_revert. rewrite delistNFT_run by done.
      by rewrite decide_False by auto.
    + intros Hp. apply transact_revert. rewrite updateListingPrice_run by done.
      rewrite decide_False by done. by rewrite decide_False by auto.
  - apply transact_revert. rewrite updateListingPrice_run by done.
    by rewrite decide_True.
Qed.

(** The theorem after alice gave the listed token 0 to carol: carol, the
    owner, can neither delist nor reprice; alice, the recorded seller, can
    do both. *)
Lemma listing_managed_by_recorded_seller_witness :
  ERC721._ownerOf Scenario.given_away 0 = Scenario.carol /\
  seller (listing_of Scenario.given_away 0) = Scenario.alice /\
  transact (delistNFT Scenario.carol 0) Scenario.given_away
    = (Scenario.given_away, inl NotTokenOwner) /\
  transact (updateListingPrice Scenario.carol 0 2000) Scenario.given_away
    = (Scenario.given_away, inl NotTokenOwner) /\
  snd (transact (delistNFT Scenario.alice 0) Scenario.given_away) = inr tt /\
  snd (transact (updateListingPrice Scenario.alice 0 2000) Scenario.given_away) = inr tt.
Proof.
  assert (Hq : mkt_entered (market Scenario.given_away) = false) by reflexivity.
  assert (Hact : isActive (listing_of Scenario.given_away 0) = true)
    by (vm_compute; reflexivity).
  split; [vm_compute; reflexivity|]. split; [vm_compute; reflexivity|].
  destruct (listing_managed_by_recorded_seller Scenario.carol 0 2000 _ Hq Hact)
    as (_ & Hother & _).
  destruct (listing_managed_by_recorded_seller Scenario.alice 0 2000 _ Hq Hact)
    as (Hseller & _ & _).
  destruct Hother as [Hd Hu]; [vm_compute; discriminate|].
  destruct Hseller as [Hd' Hu']; [vm_compute; reflexivity|].
  split; [exact Hd|]. split; [apply Hu; discriminate|].
  split; [by rewrite Hd'|]. rewrite Hu' by discriminate. reflexivity.
Defined.

(** ** C7: withdrawing the fees *)

Section WithdrawFacts.

Context (E : Env).

Lemma withdrawFees_run caller to s :
  mkt_entered (market s) = false ->
  withdrawFees E caller to s =
  if decide (mkt_owner (market s) = caller) then
    if decide (balance s (this E) = 0) then Revert TransferFailed
    else match call_value E to (balance s (this E)) (enter s) with
         | Ok true s' => Ok tt (leave s')
         | Ok false _ => Revert TransferFailed
         | Revert e => Revert e
         end
  else Revert (OwnableUnauthorizedAccount caller).
Proof.
  intros Hq. unfold withdrawFees. rewrite onlyOwner_run.
  case_decide; [|done].
  rewrite nonReentrant_run by done. mstep. rewrite balance_enter.
  case_decide.
  - by rewrite bool_decide_eq_true_2.
  - rewrite bool_decide_eq_false_2 by done. unfold bind.
    destruct (call_value E to (balance s (this E)) (enter s)) as [[] s'|]; done.
Qed.

End WithdrawFacts.




(** ** C6 and C10: enumeration of the active listings *)

Section Enumeration.

Lemma overwrite_nil {X : Type} (l : list X) r : overwrite l r [] = l.
Proof. unfold overwrite. cbn. rewrite Nat.add_0_r. apply take_drop. Qed.

Lemma overwrite_cons {X : Type} (l : list X) r x w :
  (r < length l)%nat -> overwrite (<[r := x]> l) (S r) w = overwrite l r (x :: w).
Proof.
  intros Hr. unfold overwrite.
  rewrite (take_S_r _ r x) by (by apply list_lookup_insert_eq).
  rewrite take_insert_ge by lia.
  rewrite drop_insert_lt by lia.
  replace (S r + length w)%nat with (r + length (x :: w))%nat by (cbn; lia).
  by rewrite <- app_assoc.
Qed.

Lemma overwrite_all {X : Type} (l w : list X) :
  length w = length l -> overwrite l 0 w = w.
Proof.
  intros Hlen. unfold overwrite. cbn. rewrite Hlen, drop_all. apply app_nil_r.
Qed.

(** The counting loop counts the active entries. *)
Lemma count_loop_spec s ids acc :
  count_loop s ids acc
  = acc + N.of_nat (length (List.filter (fun t => isActive (listing_of s t)) ids)).
Proof.
  revert acc. induction ids as [|t ids IH]; intros acc; cbn.
  - lia.
  - destruct (isActive (listing_of s t)); rewrite IH; cbn; lia.
Qed.

Lemma count_loop_active_ids s :
  count_loop s (listedTokenIds (market s)) 0 = N.of_nat (length (active_ids s)).
Proof. rewrite count_loop_spec. unfold active_ids. lia. Qed.

(** The counter stays within the length of the index. *)
Lemma count_loop_bound s :
  count_loop s (listedTokenIds (market s)) 0
  ≤ N.of_nat (length (listedTokenIds (market s))).
Proof.
  rewrite count_loop_active_ids. unfold active_ids.
  pose proof (List.filter_length_le (fun t => isActive (listing_of s t))
                (listedTokenIds (market s))).
  lia.
Qed.

(** The populating loop writes, from [resultIndex] on, the active entries
    that remain after skipping up to [startIndex], as long as there is
    room. *)
Lemma populate_loop_spec s ids startIndex resultSize :
  forall currentIndex resultIndex p,
    length (page_tokenIds p) = N.to_nat resultSize ->
    length (page_sellers p) = N.to_nat resultSize ->
    length (page_prices p) = N.to_nat resultSize ->
    let w := take (N.to_nat (resultSize - resultIndex))
               (drop (N.to_nat (startIndex - currentIndex))
                  (List.filter (fun t => isActive (listing_of s t)) ids)) in
    populate_loop s ids startIndex resultSize currentIndex resultIndex p
    = mkPage (overwrite (page_tokenIds p) (N.to_nat resultIndex) w)
        (overwrite (page_sellers p) (N.to_nat resultIndex)
           (map (fun t => seller (listing_of s t)) w))
        (overwrite (page_prices p) (N.to_nat resultIndex)
           (map (fun t => price (listing_of s t)) w)).
Proof.
  induction ids as [|t ids IH]; intros c r p Hl1 Hl2 Hl3; cbn zeta.
  - cbn. rewrite drop_nil, take_nil. cbn. rewrite !overwrite_nil. by destruct p.
  - cbn [populate_loop List.filter].
    case_decide as Hroom.
    + destruct (isActive (listing_of s t)) eqn:Hact.
      * case_decide as Hskip.
        -- rewrite IH by (cbn; by rewrite length_insert).
           cbn zeta. cbn [store_entry page_tokenIds page_sellers page_prices].
           replace (N.to_nat (startIndex - c)) with 0%nat by lia.
           replace (N.to_nat (startIndex - (c + 1))) with 0%nat by lia.
           replace (N.to_nat (resultSize - r)) with (S (N.to_nat (resultSize - (r + 1))))
             by lia.
           replace (N.to_nat (r + 1)) with (S (N.to_nat r)) by lia.
           rewrite !drop_0. cbn [take map].
           rewrite !overwrite_cons by lia. reflexivity.
        -- rewrite IH by done. cbn zeta.
           replace (N.to_nat (startIndex - c)) with (S (N.to_nat (startIndex - (c + 1))))
             by lia.
           reflexivity.
      * by rewrite IH.
    + replace (N.to_nat (resultSize - r)) with 0%nat by lia.
      rewrite take_0. cbn. rewrite !overwrite_nil. by destruct p.
Qed.

(** [getActiveListings] returns the specification's page whenever
    [_offset + _limit] does not overflow. *)
Lemma getActiveListings_run offset limit s :
  offset + limit ≤ MAX_UINT256 ->
  getActiveListings offset limit s = Ok (page_spec offset limit s) s.
Proof.
  intros Hsum. unfold getActiveListings. mstep.
  rewrite decide_True by done. unfold gets. f_equal.
  rewrite count_loop_active_ids.
  set (A := active_ids s).
  set (endIndex := if decide (N.of_nat (length A) < offset + limit)
                   then N.of_nat (length A) else offset + limit).
  set (resultSize := if decide (offset < endIndex) then endIndex - offset else 0).
  set (w := take (N.to_nat limit) (drop (N.to_nat offset) A)).
  assert (Hsize : N.to_nat resultSize = length w).
  { unfold w, resultSize, endIndex. rewrite length_take, length_drop.
    repeat case_decide; lia. }
  rewrite populate_loop_spec
    by (unfold new_page; cbn; by rewrite length_replicate).
  cbn zeta. rewrite !N.sub_0_r.
  change (List.filter _ (listedTokenIds (market s))) with A.
  assert (Hw : take (N.to_nat resultSize) (drop (N.to_nat offset) A) = w).
  { rewrite Hsize. unfold w. rewrite length_take, length_drop.
    rewrite <- take_take. f_equal. apply take_ge. rewrite length_drop. lia. }
  rewrite Hw. unfold page_spec. fold A. fold w.
  unfold new_page. cbn [page_tokenIds page_sellers page_prices].
  change (N.to_nat 0) with 0%nat.
  rewrite !overwrite_all; [done|..];
    rewrite ?length_map, length_replicate; by rewrite Hsize.
Qed.

End Enumeration.

(** C6, as stated, fails: with five active listings, [getActiveListings]
    with offset 1 and the largest limit reverts with an arithmetic panic
    instead of returning the four listings after the first, and with the
    largest offset and limit 1 it reverts instead of returning empty
    arrays. *)
Lemma getActiveListings_overflow_reverts :
  active_ids Scenario.five_active = [0; 2; 3; 5; 6] /\
  transact (getActiveListings 1 MAX_UINT256) Scenario.five_active
    = (Scenario.five_active, inl (Panic ARITHMETIC_OVERFLOW)) /\
  drop 1 (active_ids Scenario.five_active) = [2; 3; 5; 6] /\
  transact (getActiveListings MAX_UINT256 1) Scenario.five_active
    = (Scenario.five_active, inl (Panic ARITHMETIC_OVERFLOW)) /\
  ~ (exists p, transact (getActiveListings MAX_UINT256 1) Scenario.five_active
               = (Scenario.five_active, inr p)).
Proof.
  assert (Hrun : transact (getActiveListings MAX_UINT256 1) Scenario.five_active
                 = (Scenario.five_active, inl (Panic ARITHMETIC_OVERFLOW)))
    by (vm_compute; reflexivity).
  split; [vm_compute; reflexivity|]. split; [vm_compute; reflexivity|].
  split; [vm_compute; reflexivity|]. split; [exact Hrun|].
  intros [p Hp]. rewrite Hrun in Hp. apply (f_equal snd) in Hp.
  cbn [snd] in Hp. discriminate Hp.
Qed.

(** C6, amended.  Whenever [_offset + _limit] stays within [uint256],
    [getActiveListings] returns exactly the active listings in the order of
    the listing index, without the first [_offset] of them and at most
    [_limit] of them, each with its seller and price; the arrays are empty
    when [_offset] is at least the number of active listings and when
    [_limit] is 0. *)
Theorem getActiveListings_page (offset limit : N) (s : State) :
  offset + limit ≤ MAX_UINT256 ->
  transact (getActiveListings offset limit) s = (s, inr (page_spec offset limit s)) /\
  (length (page_tokenIds (page_spec offset limit s)) ≤ N.to_nat limit)%nat /\
  (N.of_nat (length (active_ids s)) ≤ offset ->
     page_spec offset limit s = mkPage [] [] []) /\
  (limit = 0 -> page_spec offset limit s = mkPage [] [] []).
Proof.
  intros Hsum. split; [|split; [|split]].
  - apply transact_ok. by apply getActiveListings_run.
  - unfold page_spec. cbn. rewrite length_take. lia.
  - intros Hoff. unfold page_spec.
    rewrite (drop_ge (active_ids s)) by lia. by rewrite take_nil.
  - intros ->. unfold page_spec. reflexivity.
Qed.

(** The theorem at five active listings (tokens 0, 2, 3, 5 and 6 of seven
    listed): the page at offset 2 with limit 2 holds the third and the
    fourth active listing, tokens 3 and 5. *)
Lemma getActiveListings_page_witness :
  active_ids Scenario.five_active = [0; 2; 3; 5; 6] /\
  transact (getActiveListings 2 2) Scenario.five_active
    = (Scenario.five_active,
       inr (mkPage [3; 5] [Scenario.alice; Scenario.alice] [4000; 6000])) /\
  transact (getActiveListings 5 2) Scenario.five_active
    = (Scenario.five_active, inr (mkPage [] [] [])) /\
  transact (getActiveListings 2 0) Scenario.five_active
    = (Scenario.five_active, inr (mkPage [] [] [])).
Proof.
  split; [vm_compute; reflexivity|].
  assert (H22 : 2 + 2 ≤ MAX_UINT256) by (vm_compute; discriminate).
  assert (H52 : 5 + 2 ≤ MAX_UINT256) by (vm_compute; discriminate).
  assert (H20 : 2 + 0 ≤ MAX_UINT256) by (vm_compute; discriminate).
  destruct (getActiveListings_page 2 2 Scenario.five_active H22) as (Hrun & _).
  destruct (getActiveListings_page 5 2 Scenario.five_active H52) as (Hrun5 & _ & Hempty & _).
  destruct (getActiveListings_page 2 0 Scenario.five_active H20) as (Hrun0 & _ & _ & Hzero).
  split; [exact Hrun|]. split.
  - rewrite Hrun5, Hempty; [reflexivity | vm_compute; discriminate].
  - rewrite Hrun0, Hzero; reflexivity.
Defined.

(** C10.  In every state, reachable or not, [getActiveListingCount] returns
    the number of entries of the listing index whose listing is active, and
    for every [n] of type [uint256] that is at least that number the three
    arrays returned by [getActiveListings(0, n)] all have that length. *)
Theorem getActiveListingCount_agrees (n : N) (s : State) :
  n ≤ MAX_UINT256 ->
  transact getActiveListingCount s = (s, inr (N.of_nat (length (active_ids s)))) /\
  (N.of_nat (length (active_ids s)) ≤ n ->
     exists p,
       transact (getActiveListings 0 n) s = (s, inr p) /\
       length (page_tokenIds p) = length (active_ids s) /\
       length (page_sellers p) = length (active_ids s) /\
       length (page_prices p) = length (active_ids s)).
Proof.
  intros Hn. split.
  - apply transact_ok. unfold getActiveListingCount, gets.
    by rewrite count_loop_active_ids.
  - intros Hcount. exists (page_spec 0 n s). split.
    + apply transact_ok. apply getActiveListings_run. lia.
    + unfold page_spec. cbn [page_tokenIds page_sellers page_prices].
      rewrite !length_map. change (N.to_nat 0) with 0%nat.
      rewrite drop_0, length_take. lia.
Qed.

(** The theorem at five active listings among seven indexed ones and
    [n = 10]. *)
Lemma getActiveListingCount_agrees_witness :
  length (listedTokenIds (market Scenario.five_active)) = 7%nat /\
  transact getActiveListingCount Scenario.five_active = (Scenario.five_active, inr 5) /\
  exists p,
    transact (getActiveListings 0 10) Scenario.five_active = (Scenario.five_active, inr p) /\
    length (page_tokenIds p) = 5%nat /\
    length (page_sellers p) = 5%nat /\
    length (page_prices p) = 5%nat.
Proof.
  assert (Hn : 10 ≤ MAX_UINT256) by (vm_compute; discriminate).
  destruct (getActiveListingCount_agrees 10 Scenario.five_active Hn) as [Hcount Hpage].
  split; [vm_compute; reflexivity|]. split; [exact Hcount|].
  destruct Hpage as (p & Hrun & H1 & H2 & H3); [vm_compute; discriminate|].
  exists p. split; [exact Hrun|]. split; [exact H1|]. split; [exact H2 | exact H3].
Defined.

(** ** C5: the listing index has no duplicates *)

Section Invariant.

Context (E : Env) (Henv : valid_env E).

(** The invariant looks at nine fields only. *)
Lemma ledger_inv_frame s s' :
  listings (market s') = listings (market s) ->
  listedTokenIds (market s') = listedTokenIds (market s) ->
  _hasBeenListed (market s') = _hasBeenListed (market s) ->
  _tokenIdCounter (nft s') = _tokenIdCounter (nft s) ->
  _owners (nft s') = _owners (nft s) ->
  _tokenApprovals (nft s') = _tokenApprovals (nft s) ->
  _operatorApprovals (nft s') = _operatorApprovals (nft s) ->
  ledger_inv s -> ledger_inv s'.
Proof.
  intros H1 H2 H3 H4 H5 H6 H7 [I1 I2 I3 I4 I5 I6 I7].
  split; unfold has_been_listed, listing_of, ERC721._ownerOf, ERC721._getApproved,
    ERC721._isApprovedForAll in *; rewrite ?H1, ?H2, ?H3, ?H4, ?H5, ?H6, ?H7;
    assumption.
Qed.

Lemma ledger_inv_initial deployer b0 : ledger_inv (initial_state E deployer b0).
Proof.
  split; unfold has_been_listed, listing_of, ERC721._ownerOf, ERC721._getApproved,
    ERC721._isApprovedForAll; cbn.
  - apply NoDup_nil_2.
  - intros t. rewrite sload_empty. split; [discriminate|]. by intros ?%elem_of_nil.
  - intros t. rewrite sload_empty. discriminate.
  - by intros t ?%elem_of_nil.
  - intros t. by rewrite sload_empty.
  - intros t _. by rewrite sload_empty.
  - intros o. by rewrite sload_empty.
Qed.

(** Writing a listing that is inactive, or one of a token already in the
    index. *)
Lemma ledger_inv_write_listing s t l :
  (isActive l = true -> t ∈ listedTokenIds (market s)) ->
  ledger_inv s -> ledger_inv (write_listing t l s).
Proof.
  intros Hl [I1 I2 I3 I4 I5 I6 I7]. split; try done.
  intros t' Hact. destruct (decide (t = t')) as [<-|Hne].
  - unfold listing_of, write_listing in Hact. cbn in Hact.
    rewrite sload_insert_eq in Hact. by apply Hl.
  - unfold listing_of, write_listing in Hact. cbn in Hact.
    rewrite sload_insert_ne in Hact by done. by apply I3.
Qed.

Lemma ledger_inv_deactivate s t : ledger_inv s -> ledger_inv (deactivate t s).
Proof. intros HI. unfold deactivate. by apply ledger_inv_write_listing. Qed.

Lemma ledger_inv_reprice s t p : ledger_inv s -> ledger_inv (reprice t p s).
Proof.
  intros HI. unfold reprice. apply ledger_inv_write_listing; [|done].
  cbn. apply (inv_active _ HI).
Qed.

(** Creating a listing for a minted token, the way [listNFT] and
    [mintAndList] do: the index gets the token only if it is not there. *)
Lemma ledger_inv_list s t l :
  t < _tokenIdCounter (nft s) ->
  ledger_inv s ->
  ledger_inv (if has_been_listed s t then write_listing t l s
              else track_listed t (write_listing t l s)).
Proof.
  intros Hminted HI. destruct (has_been_listed s t) eqn:Htracked.
  - apply ledger_inv_write_listing; [|done].
    intros _. by apply (inv_tracked _ HI).
  - destruct HI as [I1 I2 I3 I4 I5 I6 I7].
    assert (Hfresh : t ∉ listedTokenIds (market s)).
    { intros Hin. apply I2 in Hin. congruence. }
    split; try done; cbn.
    + apply NoDup_app. split; [done|]. split; [|apply NoDup_singleton].
      intros x Hx ->%list_elem_of_singleton. done.
    + intros t'. unfold has_been_listed, track_listed. cbn.
      rewrite elem_of_app, list_elem_of_singleton.
      destruct (decide (t = t')) as [<-|Hne].
      * rewrite sload_insert_eq. split; auto.
      * rewrite sload_insert_ne by done.
        fold (has_been_listed s t'). rewrite I2.
        split; [auto | intros [Hin|Heq]; [done | congruence]].
    + intros t' Hact. rewrite elem_of_app, list_elem_of_singleton.
      unfold listing_of, track_listed, write_listing in Hact. cbn in Hact.
      destruct (decide (t = t')) as [<-|Hne]; [by right|].
      rewrite sload_insert_ne in Hact by done. left. by apply I3.
    + intros t' [Hin| ->%list_elem_of_singleton]%elem_of_app; [by apply I4 | done].
Qed.

(** A transfer of a token that has an owner to an account other than
    [address(0)]. *)
Lemma ledger_inv_transfer s t to :
  ERC721._ownerOf s t ≠ address0 -> to ≠ address0 ->
  ledger_inv s ->
  ledger_inv (ERC721.write_owner t to (ERC721.write_approval t address0 s)).
Proof.
  intros Howned Hto [I1 I2 I3 I4 I5 I6 I7]. split; try done.
  - intros t' Ho. destruct (decide (t = t')) as [<-|Hne]; [by apply I5|].
    apply I5. unfold ERC721._ownerOf, ERC721.write_owner in Ho. cbn in Ho.
    by rewrite sload_insert_ne in Ho.
  - intros t' Ho. unfold ERC721._ownerOf, ERC721._getApproved, ERC721.write_owner,
      ERC721.write_approval in *. cbn in *.
    destruct (decide (t = t')) as [<-|Hne].
    + by rewrite sload_insert_eq in Ho.
    + rewrite sload_insert_ne in Ho by done. rewrite sload_insert_ne by done.
      by apply I6.
Qed.

Lemma ledger_inv_approve s t to :
  ERC721._ownerOf s t ≠ address0 ->
  ledger_inv s -> ledger_inv (ERC721.write_approval t to s).
Proof.
  intros Howned [I1 I2 I3 I4 I5 I6 I7]. split; try done.
  intros t' Ho. unfold ERC721._getApproved, ERC721.write_approval. cbn.
  destruct (decide (t = t')) as [<-|Hne]; [done|].
  rewrite sload_insert_ne by done. by apply I6.
Qed.

Lemma ledger_inv_operator s owner operator approved :
  owner ≠ address0 ->
  ledger_inv s -> ledger_inv (ERC721.write_operator owner operator approved s).
Proof.
  intros Howner [I1 I2 I3 I4 I5 I6 I7]. split; try done.
  intros o. unfold ERC721._isApprovedForAll, ERC721.write_operator. cbn.
  rewrite sload_insert_ne by congruence. apply I7.
Qed.

Lemma ledger_inv_minted s s' tokenId to :
  minted s s' tokenId to -> ledger_inv s -> ledger_inv s'.
Proof.
  intros (Hid & Hnext & Hto & Hnone & Ho & Ha & Hop & _ & _ & Hb & Hm)
    [I1 I2 I3 I4 I5 I6 I7].
  split; unfold has_been_listed, listing_of, ERC721._ownerOf, ERC721._getApproved,
    ERC721._isApprovedForAll in *; rewrite ?Hm, ?Hnext, ?Ho, ?Ha, ?Hop; try done.
  - intros t Hin. apply I4 in Hin. lia.
  - intros t Howned. destruct (decide (tokenId = t)) as [<-|Hne]; [lia|].
    rewrite sload_insert_ne in Howned by done. apply I5 in Howned. lia.
  - intros t Howned. destruct (decide (tokenId = t)) as [<-|Hne].
    + by rewrite sload_insert_eq in Howned.
    + rewrite sload_insert_ne in Howned by done. by apply I6.
Qed.

(** Under the invariant, an account other than [address(0)] is authorised
    only for tokens that have an owner. *)
Lemma authorized_owned s owner spender t :
  ledger_inv s -> spender ≠ address0 ->
  owner = ERC721._ownerOf s t ->
  ERC721._isAuthorized s owner spender t = true ->
  ERC721._ownerOf s t ≠ address0.
Proof.
  intros HI Hspender -> Hauth Hnone.
  unfold ERC721._isAuthorized in Hauth. rewrite Hnone in Hauth.
  rewrite (inv_zero_operator _ HI), (inv_unowned _ HI t Hnone) in Hauth.
  rewrite bool_decide_eq_true_2 in Hauth by done.
  rewrite !bool_decide_eq_false_2 in Hauth by congruence. discriminate Hauth.
Qed.

Lemma ledger_inv_enter s : ledger_inv s -> ledger_inv (enter s).
Proof. by apply ledger_inv_frame. Qed.

Lemma ledger_inv_leave s : ledger_inv s -> ledger_inv (leave s).
Proof. by apply ledger_inv_frame. Qed.

Lemma ledger_inv_move_ether from to v s :
  ledger_inv s -> ledger_inv (move_ether from to v s).
Proof. by apply ledger_inv_frame. Qed.

Lemma ledger_inv_same_storage s s' :
  market s' = market s -> nft s' = nft s -> ledger_inv s -> ledger_inv s'.
Proof. intros Hm Hn. apply ledger_inv_frame; by rewrite ?Hm, ?Hn. Qed.

Lemma index_grows_eq s s' :
  listedTokenIds (market s') = listedTokenIds (market s) -> index_grows s s'.
Proof. intros Heq t. by rewrite Heq. Qed.

Lemma index_grows_snoc s s' t :
  listedTokenIds (market s') = listedTokenIds (market s) ++ [t] -> index_grows s s'.
Proof. intros Heq t' Hin. rewrite Heq. apply elem_of_app. by left. Qed.

(** *** The ERC-721 calls *)

Lemma transfer_preserves sender from to t s s' :
  sender ≠ address0 -> ledger_inv s ->
  to ≠ address0 -> from = ERC721._ownerOf s t ->
  (sender ≠ address0 -> ERC721._isAuthorized s from sender t = true) ->
  s' = ERC721.write_owner t to
         (if decide (from = address0) then s
          else ERC721.write_approval t address0 s) ->
  ledger_inv s' /\ market s' = market s /\ nft_entered (nft s') = nft_entered (nft s).
Proof.
  intros Hsender HI Hto Hfrom Hauth ->.
  pose proof (authorized_owned s from sender t HI Hsender Hfrom (Hauth Hsender)) as Howned.
  rewrite decide_False by congruence.
  split; [by apply ledger_inv_transfer|]. by split.
Qed.

Lemma good_step_nft_only s s' :
  idle s -> ledger_inv s' -> market s' = market s ->
  nft_entered (nft s') = nft_entered (nft s) -> good_step s s'.
Proof.
  intros [Hq Hn] HI Hm Hn'. split; [exact HI|]. split.
  - split; [by rewrite Hm | by rewrite Hn'].
  - apply index_grows_eq. by rewrite Hm.
Qed.

Lemma transferFrom_preserves sender from to t s u s' :
  sender ≠ address0 -> ledger_inv s -> idle s ->
  ERC721.transferFrom sender from to t s = Ok u s' -> good_step s s'.
Proof.
  intros Hsender HI Hidle H.
  apply transferFrom_ok in H as (Hto & Hfrom & Hauth & Hs).
  destruct (transfer_preserves sender from to t s s' Hsender HI Hto Hfrom Hauth Hs)
    as (HI' & Hm & Hn).
  by apply good_step_nft_only.
Qed.

Lemma safeTransferFrom_inv sender from to t s u s' :
  sender ≠ address0 -> ledger_inv s ->
  ERC721.safeTransferFrom E sender from to t s = Ok u s' ->
  ledger_inv s' /\ market s' = market s /\ nft_entered (nft s') = nft_entered (nft s).
Proof.
  intros Hsender HI H.
  apply safeTransferFrom_ok in H as (Hto & Hfrom & Hauth & Hs & _).
  exact (transfer_preserves sender from to t s s' Hsender HI Hto Hfrom Hauth Hs).
Qed.

Lemma safeTransferFrom_preserves sender from to t s u s' :
  sender ≠ address0 -> ledger_inv s -> idle s ->
  ERC721.safeTransferFrom E sender from to t s = Ok u s' -> good_step s s'.
Proof.
  intros Hsender HI Hidle H.
  destruct (safeTransferFrom_inv _ _ _ _ _ _ _ Hsender HI H) as (HI' & Hm & Hn).
  by apply good_step_nft_only.
Qed.

Lemma approve_preserves sender to t s u s' :
  ledger_inv s -> idle s ->
  ERC721.approve sender to t s = Ok u s' -> good_step s s'.
Proof.
  intros HI Hidle H. unfold ERC721.approve in H. minv H.
  lazymatch goal with
  | Hr : ERC721._requireOwned _ _ = Ok _ _ |- _ =>
      apply _requireOwned_ok in Hr as (-> & -> & Howned)
  end.
  subst. split; [by apply ledger_inv_approve|]. split; [exact Hidle|].
  by apply index_grows_eq.
Qed.

Lemma setApprovalForAll_preserves sender operator approved s u s' :
  sender ≠ address0 -> ledger_inv s -> idle s ->
  ERC721.setApprovalForAll sender operator approved s = Ok u s' -> good_step s s'.
Proof.
  intros Hsender HI Hidle H. unfold ERC721.setApprovalForAll in H. minv H.
  subst. split; [by apply ledger_inv_operator|]. split; [exact Hidle|].
  by apply index_grows_eq.
Qed.

Lemma minted_preserves s s' tokenId to :
  ledger_inv s -> minted s s' tokenId to ->
  ledger_inv s' /\ nft_entered (nft s') = false /\ market s' = market s.
Proof.
  intros HI Hm. split; [by eapply ledger_inv_minted|].
  by destruct Hm as (_ & _ & _ & _ & _ & _ & _ & _ & Hn & _ & Hmkt).
Qed.

Lemma NFT_mint_preserves origin sender uri s tokenId s' :
  ledger_inv s -> idle s ->
  NFT.mint E origin sender uri s = Ok tokenId s' -> good_step s s'.
Proof.
  intros HI [Hq Hn] H. apply mint_ok in H.
  destruct (minted_preserves _ _ _ _ HI H) as (HI' & Hn' & Hm).
  split; [exact HI'|]. split; [split; [by rewrite Hm | exact Hn']|].
  apply index_grows_eq. by rewrite Hm.
Qed.

Lemma NFT_mintTo_preserves sender to uri s tokenId s' :
  ledger_inv s -> idle s ->
  NFT.mintTo E sender to uri s = Ok tokenId s' -> good_step s s'.
Proof.
  intros HI [Hq Hn] H. apply mintTo_ok in H.
  destruct (minted_preserves _ _ _ _ HI H) as (HI' & Hn' & Hm).
  split; [exact HI'|]. split; [split; [by rewrite Hm | exact Hn']|].
  apply index_grows_eq. by rewrite Hm.
Qed.

(** *** The marketplace calls *)

Lemma mintNFT_preserves origin sender uri s tokenId s' :
  ledger_inv s -> idle s ->
  mintNFT E origin sender uri s = Ok tokenId s' -> good_step s s'.
Proof.
  intros HI [Hq Hn] H. unfold mintNFT, nonReentrant in H. minv H. subst.
  lazymatch goal with
  | Hm : NFT.mint _ _ _ _ _ = Ok _ _ |- _ =>
      apply mint_ok in Hm;
      destruct (minted_preserves _ _ _ _ (ledger_inv_enter s HI) Hm)
        as (HI' & Hn' & Hmkt)
  end.
  split; [by apply ledger_inv_leave|]. split; [by split|].
  apply index_grows_eq. cbn. by rewrite Hmkt.
Qed.

Lemma mintAndList_preserves sender uri p s tokenId s' :
  ledger_inv s -> idle s ->
  mintAndList E sender uri p s = Ok tokenId s' -> good_step s s'.
Proof.
  intros HI [Hq Hn] H. unfold mintAndList, nonReentrant in H. minv H. subst.
  lazymatch goal with
  | Hm : NFT.mintTo _ _ _ _ _ = Ok _ _ |- _ =>
      apply mintTo_ok in Hm;
      destruct (minted_preserves _ _ _ _ (ledger_inv_enter s HI) Hm)
        as (HI' & Hn' & Hmkt);
      destruct Hm as (Hid & Hnext & _)
  end.
  lazymatch goal with
  | |- good_step _ (with_market _ (track_listed ?id (write_listing _ ?l ?x))) =>
      assert (Hfresh : has_been_listed x id = false);
      [ destruct (has_been_listed x id) eqn:Ht; [|done];
        unfold has_been_listed in Ht; rewrite Hmkt in Ht;
        apply (inv_tracked _ HI) in Ht; apply (inv_indexed_minted _ HI) in Ht;
        cbn in Hid; lia
      | pose proof (ledger_inv_list x id l ltac:(lia) HI') as HI'';
        rewrite Hfresh in HI'' ]
  end.
  split; [by apply ledger_inv_leave|]. split; [by split|].
  eapply index_grows_snoc. cbn. by rewrite Hmkt.
Qed.

Lemma listNFT_ok sender t p s u s' :
  listNFT E sender t p s = Ok u s' ->
  mkt_entered (market s) = false /\
  ERC721._ownerOf s t = sender /\ sender ≠ address0 /\
  s' = leave (if has_been_listed s t
              then write_listing t (mkListing sender p true) (enter s)
              else track_listed t (write_listing t (mkListing sender p true) (enter s))).
Proof.
  intros H. unfold listNFT, nonReentrant in H.
  unfold ERC721.ownerOf, ERC721.getApproved, ERC721.isApprovedForAll in H.
  minv H;
    repeat lazymatch goal with
    | Hr : ERC721._requireOwned _ _ = Ok _ _ |- _ =>
        apply _requireOwned_ok in Hr as (-> & ? & ?)
    end;
    subst;
    lazymatch goal with
    | Ho : bool_decide (_ ≠ sender) = false |- _ =>
        apply bool_decide_eq_false_1 in Ho;
        assert (Hown : ERC721._ownerOf s t = sender)
          by (destruct (decide (ERC721._ownerOf s t = sender)); [done|by destruct Ho])
    end;
    lazymatch goal with
    | Ht : has_been_listed _ t = ?b |- _ =>
        change (has_been_listed s t = b) in Ht; rewrite Ht
    end;
    (split; [done|]; split; [done|]; split; [|reflexivity]);
    rewrite <- Hown; done.
Qed.

Lemma listNFT_preserves sender t p s u s' :
  ledger_inv s -> idle s ->
  listNFT E sender t p s = Ok u s' -> good_step s s'.
Proof.
  intros HI [Hq Hn] H. apply listNFT_ok in H as (_ & Hown & Hsender & ->).
  assert (Hminted : t < _tokenIdCounter (nft (enter s))).
  { apply (inv_owned_minted _ (ledger_inv_enter s HI)).
    change (ERC721._ownerOf s t ≠ address0). congruence. }
  pose proof (ledger_inv_list (enter s) t (mkListing sender p true) Hminted
                (ledger_inv_enter s HI)) as HI'.
  change (has_been_listed (enter s) t) with (has_been_listed s t) in HI'.
  destruct (has_been_listed s t);
    (split; [by apply ledger_inv_leave|]; split; [by split|]).
  - by apply index_grows_eq.
  - by eapply index_grows_snoc.
Qed.

Lemma buyNFT_preserves sender v t s u s' :
  ledger_inv s -> idle s ->
  buyNFT E sender v t s = Ok u s' -> good_step s s'.
Proof.
  intros HI [Hq Hn] H.
  apply buyNFT_ok in H as (_ & _ & _ & _ & _ & _ & s_t & s_p & Ht & Hp & ->); [|done].
  destruct Henv as (Hthis & _).
  apply safeTransferFrom_inv in Ht as (HI' & Hm' & Hn'); [|done|].
  2:{ by apply ledger_inv_deactivate, ledger_inv_enter, ledger_inv_move_ether. }
  apply call_value_market in Hp as [Hm Hnft].
  split; [|split; [split|]].
  - apply ledger_inv_leave. by apply (ledger_inv_same_storage s_t).
  - reflexivity.
  - cbn. by rewrite Hnft, Hn'.
  - apply index_grows_eq. cbn. by rewrite Hm, Hm'.
Qed.

Lemma delistNFT_preserves sender t s u s' :
  ledger_inv s -> idle s ->
  delistNFT sender t s = Ok u s' -> good_step s s'.
Proof.
  intros HI [Hq Hn] H. unfold delistNFT, nonReentrant in H. minv H. subst.
  split; [|split; [by split|by apply index_grows_eq]].
  by apply ledger_inv_leave, ledger_inv_deactivate, ledger_inv_enter.
Qed.

Lemma updateListingPrice_preserves sender t p s u s' :
  ledger_inv s -> idle s ->
  updateListingPrice sender t p s = Ok u s' -> good_step s s'.
Proof.
  intros HI [Hq Hn] H. unfold updateListingPrice, nonReentrant in H. minv H. subst.
  split; [|split; [by split|by apply index_grows_eq]].
  by apply ledger_inv_leave, ledger_inv_reprice, ledger_inv_enter.
Qed.

Lemma setMarketplaceFee_preserves sender fee s u s' :
  ledger_inv s -> idle s ->
  setMarketplaceFee sender fee s = Ok u s' -> good_step s s'.
Proof.
  intros HI [Hq Hn] H. unfold setMarketplaceFee, onlyOwner in H. minv H. subst.
  split; [|split; [by split|by apply index_grows_eq]].
  by apply (ledger_inv_frame s).
Qed.

Lemma withdrawFees_preserves sender to s u s' :
  ledger_inv s -> idle s ->
  withdrawFees E sender to s = Ok u s' -> good_step s s'.
Proof.
  intros HI [Hq Hn] H. unfold withdrawFees, onlyOwner, nonReentrant in H. minv H.
  subst.
  lazymatch goal with
  | Hc : call_value _ _ _ _ = Ok _ _ |- _ => apply call_value_market in Hc as [Hm Hnft]
  end.
  split; [|split; [split|]].
  - apply ledger_inv_leave. eapply ledger_inv_same_storage; [exact Hm|exact Hnft|].
    by apply ledger_inv_enter.
  - reflexivity.
  - cbn. by rewrite Hnft.
  - apply index_grows_eq. cbn. by rewrite Hm.
Qed.

Lemma receive_preserves sender v s u s' :
  ledger_inv s -> idle s ->
  receive E sender v s = Ok u s' -> good_step s s'.
Proof.
  intros HI [Hq Hn] H. unfold receive, payable in H.
  case_decide; [|discriminate H]. minv H. subst.
  split; [|split; [by split|by apply index_grows_eq]].
  by apply ledger_inv_move_ether.
Qed.

(** *** Transactions *)

Lemma good_step_refl s : ledger_inv s -> idle s -> good_step s s.
Proof. intros HI Hidle. split; [done|]. split; [done|]. by intros t. Qed.

Lemma run_call_preserves origin sender c s u s' :
  sender ≠ address0 -> ledger_inv s -> idle s ->
  run_call E origin sender c s = Ok u s' -> good_step s s'.
Proof.
  intros Hsender HI Hidle H. destruct c; cbn [run_call] in H.
  - minv H. subst. by eapply mintNFT_preserves.
  - minv H. subst. by eapply mintAndList_preserves.
  - by eapply listNFT_preserves.
  - by eapply buyNFT_preserves.
  - by eapply delistNFT_preserves.
  - by eapply updateListingPrice_preserves.
  - by eapply setMarketplaceFee_preserves.
  - by eapply withdrawFees_preserves.
  - by eapply receive_preserves.
  - by eapply approve_preserves.
  - by eapply setApprovalForAll_preserves.
  - by eapply transferFrom_preserves.
  - by eapply safeTransferFrom_preserves.
  - minv H. subst. by eapply NFT_mint_preserves.
  - minv H. subst. by eapply NFT_mintTo_preserves.
Qed.

Lemma apply_tx_preserves tx s :
  valid_tx E tx -> ledger_inv s -> idle s -> good_step s (apply_tx E tx s).
Proof.
  intros [Hsender _] HI Hidle. unfold apply_tx, transact.
  destruct (run_call E (tx_origin tx) (msg_sender tx) (tx_call tx) s) as [u s'|e] eqn:H.
  - by eapply run_call_preserves.
  - by apply good_step_refl.
Qed.

Lemma apply_txs_preserves txs s :
  Forall (valid_tx E) txs -> ledger_inv s -> idle s ->
  good_step s (apply_txs E txs s).
Proof.
  intros Hvalid. revert s. induction Hvalid as [|tx txs Htx _ IH]; intros s HI Hidle.
  - by apply good_step_refl.
  - cbn. destruct (apply_tx_preserves tx s Htx HI Hidle) as (HI1 & Hidle1 & Hgrow1).
    destruct (IH _ HI1 Hidle1) as (HI2 & Hidle2 & Hgrow2).
    split; [done|]. split; [done|]. intros t Hin. by apply Hgrow2, Hgrow1.
Qed.

Lemma reachable_inv s : reachable E s -> ledger_inv s /\ idle s.
Proof.
  induction 1 as [deployer b0|s tx _ [HI Hidle] Htx].
  - split; [apply ledger_inv_initial | by split].
  - destruct (apply_tx_preserves tx s Htx HI Hidle) as (HI' & Hidle' & _). by split.
Qed.

(** An entry of a duplicate-free index occurs in it once. *)
Lemma count_occ_indexed (l : list N) (t : N) :
  NoDup l -> t ∈ l -> count_occ N.eq_dec l t = 1%nat.
Proof.
  intros Hnd Hin. apply NoDup_ListNoDup in Hnd. apply list_elem_of_In in Hin.
  by apply List.NoDup_count_occ'.
Qed.

End Invariant.

(** C5.  In every state reached from a deployment by valid transactions
    (calls of [mintAndList] and [listNFT] among all the others of the two
    contracts, while the marketplace keeps the NFT contract it deployed),
    the listing index has no duplicate entry; a token whose listing is
    active occurs in it exactly once, and still does after any further
    transactions, whatever becomes of the listing; and [listNFT] on a token
    that is already in the index leaves the index as it is. *)
Theorem listing_index_exactly_once (E : Env) (s : State) :
  valid_env E ->
  reachable E s ->
  NoDup (listedTokenIds (market s)) /\
  (forall t txs,
     isActive (listing_of s t) = true ->
     Forall (valid_tx E) txs ->
     count_occ N.eq_dec (listedTokenIds (market (apply_txs E txs s))) t = 1%nat) /\
  (forall t origin sender p,
     t ∈ listedTokenIds (market s) ->
     listedTokenIds (market (apply_tx E (mkTx origin sender (ListNFT t p)) s))
       = listedTokenIds (market s)).
Proof.
  intros Henv Hreach.
  destruct (reachable_inv E Henv s Hreach) as [HI Hidle].
  split; [apply (inv_nodup _ HI)|]. split.
  - intros t txs Hact Hvalid.
    destruct (apply_txs_preserves E Henv txs s Hvalid HI Hidle) as (HI' & _ & Hgrow).
    apply count_occ_indexed; [apply (inv_nodup _ HI')|].
    apply Hgrow. by apply (inv_active _ HI).
  - intros t origin sender p Hin. unfold apply_tx, transact. cbn [tx_origin msg_sender tx_call run_call].
    destruct (listNFT E sender t p s) as [u s'|e] eqn:H; [|reflexivity].
    apply listNFT_ok in H as (_ & _ & _ & ->).
    apply (inv_tracked _ HI) in Hin. rewrite Hin. reflexivity.
Qed.

(** The theorem at token 0, listed by alice: after bob bought it and listed
    it again the index still holds it once, and a further [listNFT] by alice's
    successor leaves the index alone. *)


(** ** C2: the fee split of a successful buyNFT *)

Section SellerFacts.

Context (E : Env).

Lemma listing_changes_same sender s s' :
  (forall t, listing_of s' t = listing_of s t) -> listing_changes sender s s'.
Proof. intros Heq t Hact. right. rewrite Heq in *. by split. Qed.

Lemma listing_changes_listings sender s s' :
  listings (market s') = listings (market s) -> listing_changes sender s s'.
Proof.
  intros Hm. apply listing_changes_same. intros t. unfold listing_of. by rewrite Hm.
Qed.

Lemma listing_changes_market sender s s' :
  market s' = market s -> listing_changes sender s s'.
Proof. intros Hm. apply listing_changes_listings. by rewrite Hm. Qed.

Lemma listing_of_write_listing s t l t' :
  listing_of (write_listing t l s) t' = if decide (t = t') then l else listing_of s t'.
Proof.
  unfold listing_of, write_listing. cbn. case_decide as Ht.
  - subst. by rewrite sload_insert_eq.
  - by rewrite sload_insert_ne.
Qed.

(** Creating a listing in the name of [sender]. *)
Lemma listing_changes_list sender s x t p s' :
  listings (market x) = listings (market s) ->
  (forall t', listing_of s' t' = listing_of (write_listing t (mkListing sender p true) x) t') ->
  listing_changes sender s s'.
Proof.
  intros Hm Heq t' Hact. rewrite Heq in *. rewrite listing_of_write_listing in *.
  case_decide; [by left|]. right.
  assert (Hsame : listing_of x t' = listing_of s t').
  { unfold listing_of. by rewrite Hm. }
  rewrite Hsame in *. by split.
Qed.

(** Deactivating a listing. *)
Lemma listing_changes_deactivate sender s x t s' :
  listings (market x) = listings (market s) ->
  (forall t', listing_of s' t' = listing_of (deactivate t x) t') ->
  listing_changes sender s s'.
Proof.
  intros Hm Heq t' Hact. rewrite Heq in *. unfold deactivate in *.
  rewrite listing_of_write_listing in *.
  case_decide; [discriminate Hact|]. right.
  assert (Hsame : listing_of x t' = listing_of s t').
  { unfold listing_of. by rewrite Hm. }
  rewrite Hsame in *. by split.
Qed.

Lemma run_call_listing_changes origin sender c s u s' :
  mkt_entered (market s) = false ->
  run_call E origin sender c s = Ok u s' -> listing_changes sender s s'.
Proof.
  intros Hq H. destruct c; cbn [run_call] in H.
  - (* mintNFT *)
    unfold mintNFT, nonReentrant in H. minv H. subst.
    lazymatch goal with
    | Hx : NFT.mint _ _ _ _ _ = Ok _ _ |- _ =>
        apply mint_ok in Hx; destruct Hx as (_ & _ & _ & _ & _ & _ & _ & _ & _ & _ & Hm)
    end.
    apply listing_changes_listings. cbn. by rewrite Hm.
  - (* mintAndList *)
    unfold mintAndList, nonReentrant in H. minv H. subst.
    lazymatch goal with
    | Hx : NFT.mintTo _ _ _ _ _ = Ok _ _ |- _ =>
        apply mintTo_ok in Hx; destruct Hx as (_ & _ & _ & _ & _ & _ & _ & _ & _ & _ & Hm)
    end.
    eapply listing_changes_list; [by rewrite Hm|]. reflexivity.
  - (* listNFT *)
    apply listNFT_ok in H as (_ & _ & _ & ->).
    eapply (listing_changes_list sender s (enter s)); [reflexivity|].
    intros t'. by destruct (has_been_listed s _tokenId).
  - (* buyNFT *)
    apply buyNFT_ok in H as (_ & _ & _ & _ & _ & _ & s_t & s_p & Ht & Hp & ->); [|done].
    apply safeTransferFrom_same_ledger in Ht as [_ Hm].
    apply call_value_market in Hp as [Hm' _].
    eapply (listing_changes_deactivate sender s
              (enter (move_ether sender (this E) msg_value s))); [reflexivity|].
    intros t'. unfold listing_of. cbn. by rewrite Hm', Hm.
  - (* delistNFT *)
    unfold delistNFT, nonReentrant in H. minv H. subst.
    by eapply (listing_changes_deactivate sender s (enter s)).
  - (* updateListingPrice *)
    unfold updateListingPrice, nonReentrant in H. minv H. subst.
    intros t' Hact. right.
    change (listing_of (with_market _ (reprice _tokenId _newPrice ?x)) t')
      with (listing_of (reprice _tokenId _newPrice x) t') in *.
    unfold reprice in *. rewrite listing_of_write_listing in *.
    case_decide; [subst; cbn in *|]; by split.
  - (* setMarketplaceFee *)
    unfold setMarketplaceFee, onlyOwner in H. minv H. subst.
    by apply listing_changes_same.
  - (* withdrawFees *)
    unfold withdrawFees, onlyOwner, nonReentrant in H. minv H. subst.
    lazymatch goal with
    | Hx : call_value _ _ _ _ = Ok _ _ |- _ => apply call_value_market in Hx as [Hm _]
    end.
    apply listing_changes_same. intros t'. unfold listing_of. cbn. by rewrite Hm.
  - (* receive *)
    unfold receive, payable in H. case_decide; [|discriminate H]. minv H. subst.
    by apply listing_changes_same.
  - (* approve *)
    unfold ERC721.approve in H. minv H.
    lazymatch goal with
    | Hr : ERC721._requireOwned _ _ = Ok _ _ |- _ =>
        apply _requireOwned_ok in Hr as (-> & _)
    end.
    subst. by apply listing_changes_same.
  - (* setApprovalForAll *)
    unfold ERC721.setApprovalForAll in H. minv H. subst.
    by apply listing_changes_same.
  - (* transferFrom *)
    apply transferFrom_ok in H as (_ & _ & _ & ->).
    apply listing_changes_same. intros t'. by case_decide.
  - (* safeTransferFrom *)
    apply safeTransferFrom_same_ledger in H as [_ Hm].
    by apply listing_changes_market.
  - (* NFT.mint *)
    minv H. subst.
    lazymatch goal with
    | Hx : NFT.mint _ _ _ _ _ = Ok _ _ |- _ =>
        apply mint_ok in Hx; destruct Hx as (_ & _ & _ & _ & _ & _ & _ & _ & _ & _ & Hm)
    end.
    by apply listing_changes_market.
  - (* NFT.mintTo *)
    minv H. subst.
    lazymatch goal with
    | Hx : NFT.mintTo _ _ _ _ _ = Ok _ _ |- _ =>
        apply mintTo_ok in Hx; destruct Hx as (_ & _ & _ & _ & _ & _ & _ & _ & _ & _ & Hm)
    end.
    by apply listing_changes_market.
Qed.

(** In a reachable state no active listing is in the name of the
    marketplace. *)
Lemma reachable_sellers_external s :
  valid_env E -> reachable E s -> sellers_external E s.
Proof.
  intros Henv. induction 1 as [deployer b0|s tx Hreach IH [_ Hext]].
  - intros t Hact. unfold listing_of in Hact. cbn in Hact.
    rewrite sload_empty in Hact. discriminate Hact.
  - destruct (reachable_inv E Henv s Hreach) as [_ [Hq _]].
    unfold apply_tx, transact.
    destruct (run_call E (tx_origin tx) (msg_sender tx) (tx_call tx) s)
      as [u s'|e] eqn:Hrun; [|exact IH].
    intros t Hact. cbn [fst] in *.
    destruct (run_call_listing_changes _ _ _ _ _ _ Hq Hrun t Hact) as [Hs|[Hwas Hs]].
    + by rewrite Hs.
    + rewrite Hs. by apply IH.
Qed.

End SellerFacts.

Lemma scenario_listed_reachable : reachable Scenario.friendly Scenario.listed.
Proof.
  change Scenario.listed with
    (apply_tx Scenario.friendly (mkTx Scenario.alice Scenario.alice
                                   (Approve Scenario.marketplace 0))
       (apply_tx Scenario.friendly
          (mkTx Scenario.alice Scenario.alice (MintAndList "ipfs://QmSampleNFT1" 1000))
          (initial_state Scenario.friendly Scenario.deployer Scenario.funds))).
  apply reachable_step; [apply reachable_step; [apply reachable_init|]|];
    split; discriminate.
Qed.

Lemma scenario_env_valid : valid_env Scenario.friendly.
Proof. repeat split; discriminate. Qed.



(** The theorem of C5 at token 0, listed by alice: after bob bought it and
    listed it again the index still holds it once, and a further [listNFT]
    by alice leaves the index alone. *)
Lemma listing_index_exactly_once_witness :
  isActive (listing_of Scenario.listed 0) = true /\
  isActive (listing_of (apply_txs Scenario.friendly Scenario.relisting_txs Scenario.listed) 0)
    = true /\
  seller (listing_of (apply_txs Scenario.friendly Scenario.relisting_txs Scenario.listed) 0)
    = Scenario.bob /\
  count_occ N.eq_dec
    (listedTokenIds
       (market (apply_txs Scenario.friendly Scenario.relisting_txs Scenario.listed))) 0
    = 1%nat /\
  listedTokenIds
    (market (apply_tx Scenario.friendly
               (mkTx Scenario.alice Scenario.alice (ListNFT 0 5000)) Scenario.listed))
    = listedTokenIds (market Scenario.listed).
Proof.
  destruct (listing_index_exactly_once Scenario.friendly Scenario.listed
              scenario_env_valid scenario_listed_reachable)
    as (_ & Honce & Hrelist).
  split; [vm_compute; reflexivity|]. split; [vm_compute; reflexivity|].
  split; [vm_compute; reflexivity|]. split.
  - apply Honce; [vm_compute; reflexivity|].
    repeat constructor; vm_compute; discriminate.
  - apply Hrelist. vm_compute. apply list_elem_of_here.
Defined.

(** ** What each call does to the state *)

(** Names the steps of a successful mint. *)
Ltac mint_inv :=
  repeat lazymatch goal with
  | Hn : NFT.next_token_id _ = Ok _ _ |- _ => apply next_token_id_ok in Hn as [-> ->]
  | Hm : ERC721._safeMint _ _ _ _ _ = Ok _ _ |- _ =>
      apply _safeMint_ok in Hm as (? & ? & ->)
  | Hu : ERC721._setTokenURI _ _ _ = Ok _ _ |- _ =>
      unfold ERC721._setTokenURI in Hu; apply modify_ok_inv in Hu
  end.

Section Effects.

Context (E : Env).

Lemma nonReentrant_ok {A : Type} (body : M A) s a s' :
  nonReentrant body s = Ok a s' ->
  mkt_entered (market s) = false /\
  exists s1, body (enter s) = Ok a s1 /\ s' = leave s1.
Proof.
  intros H. destruct (mkt_entered (market s)) eqn:Hq.
  - by rewrite nonReentrant_entered in H.
  - split; [done|]. rewrite nonReentrant_run in H by done.
    destruct (body (enter s)) as [a1 s1|e]; [|discriminate H].
    apply Ok_inv in H as [-> <-]. by exists s1.
Qed.

Lemma payable_ok {A : Type} sender v (body : M A) s a s' :
  payable E sender v body s = Ok a s' ->
  v ≤ balance s sender /\ body (move_ether sender (this E) v s) = Ok a s'.
Proof. unfold payable. intros H. by case_decide. Qed.

Lemma onlyOwner_ok {A : Type} sender (body : M A) s a s' :
  onlyOwner sender body s = Ok a s' ->
  mkt_owner (market s) = sender /\ body s = Ok a s'.
Proof. rewrite onlyOwner_run. intros H. by case_decide. Qed.

Lemma NFT_nonReentrant_entered {A : Type} (body : M A) s :
  nft_entered (nft s) = true ->
  NFT.nonReentrant body s = Revert ReentrancyGuardReentrantCall.
Proof. intros Hq. unfold NFT.nonReentrant. by rewrite bind_gets, Hq. Qed.

Lemma NFT_nonReentrant_unauthorized {A : Type} (k : unit -> M A) sender s :
  nft_entered (nft s) = false ->
  NFT.not_authorized_to_mint s sender = true ->
  NFT.nonReentrant
    (unauthorized <- gets (fun s => NFT.not_authorized_to_mint s sender) ;;
     bind (revert_if unauthorized NotAuthorizedToMint) k) s
  = Revert NotAuthorizedToMint.
Proof.
  intros Hq Hun. unfold NFT.nonReentrant. rewrite bind_gets, Hq, bind_modify.
  unfold bind at 1. rewrite bind_gets.
  change (NFT.not_authorized_to_mint (with_nft (set_nft_entered true (nft s)) s) sender)
    with (NFT.not_authorized_to_mint s sender).
  by rewrite Hun, bind_revert_if.
Qed.

(** Everything a successful mint went through, and the state it leaves. *)
Lemma mint_explicit origin sender uri s tokenId s' :
  NFT.mint E origin sender uri s = Ok tokenId s' ->
  nft_entered (nft s) = false /\
  NFT.not_authorized_to_mint s sender = false /\
  tokenId = _tokenIdCounter (nft s) /\
  origin ≠ address0 /\ ERC721._ownerOf s tokenId = address0 /\
  s' = mint_state origin uri s.
Proof.
  unfold NFT.mint, NFT.nonReentrant. intros H. minv H. mint_inv. simplify_eq.
  repeat split; try done.
Qed.

Lemma mintTo_explicit sender to uri s tokenId s' :
  NFT.mintTo E sender to uri s = Ok tokenId s' ->
  nft_entered (nft s) = false /\
  NFT.not_authorized_to_mint s sender = false /\
  tokenId = _tokenIdCounter (nft s) /\
  to ≠ address0 /\ ERC721._ownerOf s tokenId = address0 /\
  s' = mint_state to uri s.
Proof.
  unfold NFT.mintTo, NFT.nonReentrant. intros H. minv H. mint_inv. simplify_eq.
  repeat split; try done.
Qed.

Lemma mintNFT_explicit origin sender uri s tokenId s' :
  mintNFT E origin sender uri s = Ok tokenId s' ->
  mkt_entered (market s) = false /\ nft_entered (nft s) = false /\
  tokenId = _tokenIdCounter (nft s) /\
  origin ≠ address0 /\ ERC721._ownerOf s tokenId = address0 /\
  s' = leave (mint_state origin uri (enter s)).
Proof.
  unfold mintNFT. intros H.
  apply nonReentrant_ok in H as (Hq & s1 & H & ->).
  apply mint_explicit in H as (Hn & _ & Hid & Ho & Hfree & ->). done.
Qed.

Lemma mintAndList_explicit sender uri p s tokenId s' :
  mintAndList E sender uri p s = Ok tokenId s' ->
  mkt_entered (market s) = false /\ nft_entered (nft s) = false /\
  p ≠ 0 /\ tokenId = _tokenIdCounter (nft s) /\
  sender ≠ address0 /\ ERC721._ownerOf s tokenId = address0 /\
  s' = leave (track_listed tokenId
                (write_listing tokenId (mkListing sender p true)
                   (mint_state sender uri (enter s)))).
Proof.
  unfold mintAndList. intros H.
  apply nonReentrant_ok in H as (Hq & s1 & H & ->).
  minv H.
  lazymatch goal with
  | Hm : NFT.mintTo _ _ _ _ _ = Ok _ _ |- _ =>
      apply mintTo_explicit in Hm as (Hn & _ & Hid & Ho & Hfree & ->)
  end.
  lazymatch goal with
  | Hp : bool_decide (p = 0) = false |- _ => apply bool_decide_eq_false_1 in Hp
  end.
  subst. done.
Qed.

Lemma delistNFT_explicit sender t s u s' :
  delistNFT sender t s = Ok u s' ->
  mkt_entered (market s) = false /\
  isActive (listing_of s t) = true /\ seller (listing_of s t) = sender /\
  s' = leave (deactivate t (enter s)).
Proof.
  intros H. destruct (nonReentrant_ok _ _ _ _ H) as (Hq & _).
  destruct (isActive (listing_of s t)) eqn:Hact.
  - rewrite delistNFT_run in H by done. case_decide; [|discriminate H].
    apply Ok_inv in H as [_ <-]. done.
  - unfold delistNFT in H. rewrite nonReentrant_run in H by done.
    revert H. mstep. by rewrite listing_of_enter, Hact.
Qed.

Lemma updateListingPrice_explicit sender t p s u s' :
  updateListingPrice sender t p s = Ok u s' ->
  mkt_entered (market s) = false /\ p ≠ 0 /\
  isActive (listing_of s t) = true /\ seller (listing_of s t) = sender /\
  s' = leave (reprice t p (enter s)).
Proof.
  intros H. destruct (nonReentrant_ok _ _ _ _ H) as (Hq & _).
  destruct (isActive (listing_of s t)) eqn:Hact.
  - rewrite updateListingPrice_run in H by done.
    case_decide; [discriminate H|]. case_decide; [|discriminate H].
    apply Ok_inv in H as [_ <-]. done.
  - unfold updateListingPrice in H. rewrite nonReentrant_run in H by done.
    revert H. mstep. rewrite listing_of_enter, Hact.
    by destruct (bool_decide (p = 0)).
Qed.

Lemma setMarketplaceFee_run sender fee s :
  setMarketplaceFee sender fee s =
  if decide (mkt_owner (market s) = sender) then
    if decide (MAX_FEE < fee) then Revert FeeExceedsMaximum
    else Ok tt (with_market (set_marketplaceFee fee (market s)) s)
  else Revert (OwnableUnauthorizedAccount sender).
Proof.
  unfold setMarketplaceFee. rewrite onlyOwner_run. case_decide; [|done]. mstep.
  case_decide.
  - by rewrite bool_decide_eq_true_2.
  - by rewrite bool_decide_eq_false_2.
Qed.

Lemma setMarketplaceFee_explicit sender fee s u s' :
  setMarketplaceFee sender fee s = Ok u s' ->
  mkt_owner (market s) = sender /\ fee ≤ MAX_FEE /\
  s' = with_market (set_marketplaceFee fee (market s)) s.
Proof.
  rewrite setMarketplaceFee_run. intros H.
  case_decide; [|discriminate H]. case_decide; [discriminate H|].
  apply Ok_inv in H as [_ <-]. split; [done|]. split; [lia|done].
Qed.

Lemma withdrawFees_explicit sender to s u s' :
  withdrawFees E sender to s = Ok u s' ->
  mkt_entered (market s) = false /\ mkt_owner (market s) = sender /\
  balance s (this E) ≠ 0 /\
  exists s_p, call_value E to (balance s (this E)) (enter s) = Ok true s_p /\ s' = leave s_p.
Proof.
  intros H. pose proof H as H0. unfold withdrawFees in H0.
  apply onlyOwner_ok in H0 as [_ H0]. apply nonReentrant_ok in H0 as [Hq _].
  rewrite withdrawFees_run in H by done.
  case_decide; [|discriminate H]. case_decide; [discriminate H|].
  destruct (call_value E to (balance s (this E)) (enter s)) as [[] s_p|e] eqn:Hc;
    try discriminate H.
  apply Ok_inv in H as [_ <-]. repeat split; try done. by exists s_p.
Qed.

Lemma receive_explicit sender v s u s' :
  receive E sender v s = Ok u s' ->
  v ≤ balance s sender /\ s' = move_ether sender (this E) v s.
Proof.
  unfold receive. intros H. apply payable_ok in H as [Hfund H].
  apply ret_ok_inv in H as [_ ->]. done.
Qed.

Lemma approve_explicit sender to t s u s' :
  ERC721.approve sender to t s = Ok u s' ->
  ERC721._ownerOf s t ≠ address0 /\ s' = ERC721.write_approval t to s.
Proof.
  unfold ERC721.approve. intros H. minv H.
  lazymatch goal with
  | Hr : ERC721._requireOwned _ _ = Ok _ _ |- _ =>
      apply _requireOwned_ok in Hr as (-> & -> & Howned)
  end.
  by subst.
Qed.

Lemma setApprovalForAll_explicit sender operator approved s u s' :
  ERC721.setApprovalForAll sender operator approved s = Ok u s' ->
  operator ≠ address0 /\ s' = ERC721.write_operator sender operator approved s.
Proof. unfold ERC721.setApprovalForAll. intros H. minv H. by subst. Qed.

End Effects.

(** ** What a call may change *)

Section Steps.

Context (E : Env).

(** The token and the marketplace storage after a successful purchase. *)
Lemma buyNFT_explicit caller v t s u s' :
  buyNFT E caller v t s = Ok u s' ->
  mkt_entered (market s) = false /\
  v ≤ balance s caller /\ isActive (listing_of s t) = true /\
  caller ≠ seller (listing_of s t) /\ v = price (listing_of s t) /\
  caller ≠ address0 /\ ERC721._ownerOf s t = seller (listing_of s t) /\
  (this E ≠ address0 ->
   ERC721._isAuthorized s (seller (listing_of s t)) (this E) t = true) /\
  market s' = market (leave (deactivate t (enter s))) /\
  nft s' = nft (ERC721.write_owner t caller
                  (if decide (seller (listing_of s t) = address0) then s
                   else ERC721.write_approval t address0 s)).
Proof.
  intros H. pose proof H as H0. unfold buyNFT in H0.
  apply payable_ok in H0 as [_ H0]. apply nonReentrant_ok in H0 as [Hq _].
  apply buyNFT_ok in H as (Hfund & Hact & Hself & Hv & _ & _ & s_t & s_p & Ht & Hp & ->);
    [|done].
  apply safeTransferFrom_ok in Ht as (Hto & Hfrom & Hauth & -> & _).
  apply call_value_market in Hp as [Hm Hn].
  repeat split; try done.
  - unfold leave. rewrite Hm. by case_decide.
  - unfold leave. cbn [nft with_market]. rewrite Hn. by case_decide.
Qed.

Lemma registry_step_refl s : registry_step s s.
Proof. repeat split; try done. lia. Qed.

Lemma registry_step_trans s1 s2 s3 :
  registry_step s1 s2 -> registry_step s2 s3 -> registry_step s1 s3.
Proof.
  intros (Ho1 & Hm1 & Hc1 & Hk1 & Hf1) (Ho2 & Hm2 & Hc2 & Hk2 & Hf2).
  split; [congruence|]. split; [congruence|]. split; [lia|]. split; [by auto|].
  intros t Hlo Hhi.
  destruct (decide (t < _tokenIdCounter (nft s2))); [by auto | apply Hf2; lia].
Qed.

(** The registry is read from the storage of the NFT contract only. *)
Lemma registry_step_nft s s1 s' :
  nft s' = nft s1 -> registry_step s s1 -> registry_step s s'.
Proof. unfold registry_step, ERC721._ownerOf. by intros ->. Qed.

Lemma registry_step_frame s s' :
  nft_owner (nft s') = nft_owner (nft s) ->
  marketplaceAddress (nft s') = marketplaceAddress (nft s) ->
  _tokenIdCounter (nft s') = _tokenIdCounter (nft s) ->
  _owners (nft s') = _owners (nft s) ->
  registry_step s s'.
Proof.
  intros Ho Hm Hc Hw. unfold registry_step, ERC721._ownerOf.
  rewrite Ho, Hm, Hc, Hw. repeat split; try done; lia.
Qed.

Lemma registry_step_write_owner s x t to :
  to ≠ address0 ->
  nft_owner (nft x) = nft_owner (nft s) ->
  marketplaceAddress (nft x) = marketplaceAddress (nft s) ->
  _tokenIdCounter (nft x) = _tokenIdCounter (nft s) ->
  _owners (nft x) = _owners (nft s) ->
  registry_step s (ERC721.write_owner t to x).
Proof.
  intros Hto Ho Hm Hc Hw. unfold registry_step, ERC721._ownerOf, ERC721.write_owner.
  cbn. rewrite Ho, Hm, Hc, Hw. repeat split; try done; try lia.
  intros t' Hk. destruct (decide (t = t')) as [<-|Hne].
  - by rewrite sload_insert_eq.
  - by rewrite sload_insert_ne.
Qed.

Lemma registry_step_mint s to uri :
  to ≠ address0 -> registry_step s (mint_state to uri s).
Proof.
  intros Hto. unfold registry_step, ERC721._ownerOf, mint_state. cbn.
  repeat split; try done; try lia.
  - intros t' Hk. destruct (decide (_tokenIdCounter (nft s) = t')) as [<-|Hne].
    + by rewrite sload_insert_eq.
    + by rewrite sload_insert_ne.
  - intros t' Hlo Hhi. assert (t' = _tokenIdCounter (nft s)) as -> by lia.
    by rewrite sload_insert_eq.
Qed.

Lemma index_step_refl s : index_step s s.
Proof. by left. Qed.

Lemma index_step_market s s1 s' :
  market s' = market s1 -> index_step s s1 -> index_step s s'.
Proof. unfold index_step. by intros ->. Qed.

(** Every successful call keeps to the registry and the index steps, and
    leaves a fee rate that is the previous one or within the cap. *)
Lemma run_call_steps origin sender c s u s' :
  run_call E origin sender c s = Ok u s' ->
  registry_step s s' /\ index_step s s' /\
  (marketplaceFee (market s') = marketplaceFee (market s) \/
   marketplaceFee (market s') ≤ MAX_FEE).
Proof.
  intros H. destruct c; cbn [run_call] in H.
  - minv H. subst.
    lazymatch goal with
    | Hx : mintNFT _ _ _ _ _ = Ok _ _ |- _ =>
        apply mintNFT_explicit in Hx as (_ & _ & _ & Ho & _ & ->)
    end.
    split; [exact (registry_step_mint s origin _tokenURI Ho)|].
    split; [by left | by left].
  - minv H. subst.
    lazymatch goal with
    | Hx : mintAndList _ _ _ _ _ = Ok _ _ |- _ =>
        apply mintAndList_explicit in Hx as (_ & _ & _ & -> & Ho & _ & ->)
    end.
    split; [exact (registry_step_mint s sender _tokenURI Ho)|].
    split; [|by left].
    right. by exists (_tokenIdCounter (nft s)).
  - apply listNFT_ok in H as (_ & _ & _ & ->).
    split; [by destruct (has_been_listed s _tokenId); apply registry_step_frame|].
    split; [|by destruct (has_been_listed s _tokenId); left].
    destruct (has_been_listed s _tokenId); [by left|].
    right. by exists _tokenId.
  - apply buyNFT_explicit in H as (_ & _ & _ & _ & _ & Hc & _ & _ & Hm & Hn).
    split; [|split].
    + eapply registry_step_nft; [exact Hn|].
      apply registry_step_write_owner; by try case_decide.
    + eapply index_step_market; [exact Hm|]. by left.
    + left. by rewrite Hm.
  - apply delistNFT_explicit in H as (_ & _ & _ & ->).
    split; [by apply registry_step_frame|]. split; by left.
  - apply updateListingPrice_explicit in H as (_ & _ & _ & _ & ->).
    split; [by apply registry_step_frame|]. split; by left.
  - apply setMarketplaceFee_explicit in H as (_ & Hcap & ->).
    split; [by apply registry_step_frame|]. split; [by left|by right].
  - apply withdrawFees_explicit in H as (_ & _ & _ & s_p & Hp & ->).
    apply call_value_market in Hp as [Hm Hn].
    split; [|split].
    + apply registry_step_frame; cbn; by rewrite Hn.
    + left. cbn. by rewrite Hm.
    + left. cbn. by rewrite Hm.
  - apply receive_explicit in H as (_ & ->).
    split; [by apply registry_step_frame|]. split; by left.
  - apply approve_explicit in H as (_ & ->).
    split; [by apply registry_step_frame|]. split; by left.
  - apply setApprovalForAll_explicit in H as (_ & ->).
    split; [by apply registry_step_frame|]. split; by left.
  - apply transferFrom_ok in H as (Hto & _ & _ & ->).
    split; [apply registry_step_write_owner; by try case_decide|].
    split; left; by case_decide.
  - apply safeTransferFrom_ok in H as (Hto & _ & _ & -> & _).
    split; [apply registry_step_write_owner; by try case_decide|].
    split; left; by case_decide.
  - minv H. subst.
    lazymatch goal with
    | Hx : NFT.mint _ _ _ _ _ = Ok _ _ |- _ =>
        apply mint_explicit in Hx as (_ & _ & _ & Ho & _ & ->)
    end.
    split; [by apply registry_step_mint|]. split; by left.
  - minv H. subst.
    lazymatch goal with
    | Hx : NFT.mintTo _ _ _ _ _ = Ok _ _ |- _ =>
        apply mintTo_explicit in Hx as (_ & _ & _ & Ho & _ & ->)
    end.
    split; [by apply registry_step_mint|]. split; by left.
Qed.

Lemma apply_tx_steps tx s :
  registry_step s (apply_tx E tx s) /\ index_step s (apply_tx E tx s) /\
  (marketplaceFee (market (apply_tx E tx s)) = marketplaceFee (market s) \/
   marketplaceFee (market (apply_tx E tx s)) ≤ MAX_FEE).
Proof.
  unfold apply_tx, transact.
  destruct (run_call E (tx_origin tx) (msg_sender tx) (tx_call tx) s) as [u s'|e] eqn:H.
  - by eapply run_call_steps.
  - cbn. split; [apply registry_step_refl|]. split; [apply index_step_refl|by left].
Qed.

Lemma apply_txs_registry txs s : registry_step s (apply_txs E txs s).
Proof.
  revert s. induction txs as [|tx txs IH]; intros s; cbn.
  - apply registry_step_refl.
  - eapply registry_step_trans; [|apply IH]. apply apply_tx_steps.
Qed.

Lemma index_step_prefix s s' :
  index_step s s' -> listedTokenIds (market s) `prefix_of` listedTokenIds (market s').
Proof.
  intros [(-> & _)|(t & -> & _)]; [done|]. by apply prefix_app_r.
Qed.

Lemma index_step_positions s s' :
  index_step s s' -> index_positions s -> index_positions s'.
Proof.
  unfold index_positions. intros [(-> & -> & _)|(t & -> & -> & _)] Hpos; [done|].
  intros t' Hin. destruct (decide (t = t')) as [<-|Hne].
  - rewrite sload_insert_eq, Nat2N.id. apply list_lookup_middle. done.
  - rewrite sload_insert_ne by done.
    apply elem_of_app in Hin as [Hin|Hin%list_elem_of_singleton]; [|congruence].
    apply lookup_app_l_Some. by apply Hpos.
Qed.

End Steps.

(** ** Invariants of the reachable states *)

Section ReachableFacts.

Context (E : Env).

Lemma reachable_fee s : reachable E s -> marketplaceFee (market s) ≤ MAX_FEE.
Proof.
  induction 1 as [deployer b0|s tx _ IH _].
  - cbn. unfold MAX_FEE. lia.
  - destruct (apply_tx_steps E tx s) as (_ & _ & [Hfee|Hfee]); [by rewrite Hfee|done].
Qed.

Lemma reachable_minter s :
  reachable E s -> nft_owner (nft s) = this E /\ marketplaceAddress (nft s) = this E.
Proof.
  induction 1 as [deployer b0|s tx _ [IHo IHm] _].
  - done.
  - destruct (apply_tx_steps E tx s) as ((Ho & Hm & _) & _). by rewrite Ho, Hm.
Qed.

Lemma reachable_minted_owned s :
  reachable E s ->
  forall t, t < _tokenIdCounter (nft s) -> ERC721._ownerOf s t ≠ address0.
Proof.
  induction 1 as [deployer b0|s tx _ IH _]; intros t Ht.
  - cbn in Ht. lia.
  - destruct (apply_tx_steps E tx s) as ((_ & _ & _ & Hkeep & Hfresh) & _).
    destruct (decide (t < _tokenIdCounter (nft s))) as [Hold|Hnew].
    + by apply Hkeep, IH.
    + apply Hfresh; [lia|done].
Qed.

Lemma reachable_positions s : reachable E s -> index_positions s.
Proof.
  induction 1 as [deployer b0|s tx _ IH _].
  - by intros t ?%elem_of_nil.
  - eapply index_step_positions; [|exact IH]. apply apply_tx_steps.
Qed.

Lemma apply_txs_prefix txs s :
  listedTokenIds (market s) `prefix_of` listedTokenIds (market (apply_txs E txs s)).
Proof.
  revert s. induction txs as [|tx txs IH]; intros s; cbn.
  - done.
  - etrans; [|apply IH]. apply index_step_prefix, apply_tx_steps.
Qed.

End ReachableFacts.



(** X2.  In every reachable state the marketplace is both the owner of the
    NFT contract and its authorised minter, as the constructors left it.
    So a direct call of [NFT.mint] or [NFT.mintTo] by any other account
    reverts with [NotAuthorizedToMint], and its [setMarketplaceAddress]
    reverts with [OwnableUnauthorizedAccount]: tokens are minted through
    the marketplace only.  (The owner-only functions of the NFT contract
    are not among the transactions that make up the reachable states: only
    the marketplace could call them, and its code never does.) *)
Theorem minting_reserved_to_marketplace (E : Env) (s : State)
    (origin sender to newMarketplace : address) (uri : string) :
  valid_env E ->
  reachable E s ->
  sender ≠ this E ->
  nft_owner (nft s) = this E /\ marketplaceAddress (nft s) = this E /\
  transact (NFT.mint E origin sender uri) s = (s, inl NotAuthorizedToMint) /\
  transact (NFT.mintTo E sender to uri) s = (s, inl NotAuthorizedToMint) /\
  transact (NFT.setMarketplaceAddress sender newMarketplace) s
    = (s, inl (OwnableUnauthorizedAccount sender)).
Proof.
  intros Henv Hreach Hsender.
  destruct (reachable_minter E s Hreach) as [Ho Hm].
  destruct (reachable_inv E Henv s Hreach) as [_ [_ Hn]].
  assert (Hun : NFT.not_authorized_to_mint s sender = true).
  { unfold NFT.not_authorized_to_mint. rewrite Ho, Hm.
    by rewrite bool_decide_eq_true_2. }
  split; [exact Ho|]. split; [exact Hm|]. split; [|split].
  - apply transact_revert. unfold NFT.mint.
    by apply NFT_nonReentrant_unauthorized.
  - apply transact_revert. unfold NFT.mintTo.
    by apply NFT_nonReentrant_unauthorized.
  - apply transact_revert. unfold NFT.setMarketplaceAddress, NFT.onlyOwner.
    rewrite bind_gets, Ho. by rewrite decide_False by congruence.
Qed.

Lemma minting_reserved_to_marketplace_witness :
  nft_owner (nft Scenario.listed) = Scenario.marketplace /\
  marketplaceAddress (nft Scenario.listed) = Scenario.marketplace /\
  transact (NFT.mint Scenario.friendly Scenario.bob Scenario.bob "ipfs://QmSampleNFT2")
    Scenario.listed = (Scenario.listed, inl NotAuthorizedToMint) /\
  transact (NFT.mintTo Scenario.friendly Scenario.bob Scenario.carol "ipfs://QmSampleNFT2")
    Scenario.listed = (Scenario.listed, inl NotAuthorizedToMint) /\
  transact (NFT.setMarketplaceAddress Scenario.bob Scenario.bob) Scenario.listed
    = (Scenario.listed, inl (OwnableUnauthorizedAccount Scenario.bob)).
Proof.
  apply (minting_reserved_to_marketplace Scenario.friendly Scenario.listed
           Scenario.bob Scenario.bob Scenario.carol Scenario.bob "ipfs://QmSampleNFT2"
           scenario_env_valid scenario_listed_reachable).
  discriminate.
Defined.

(** X3.  Tokens are never burnt and ids are never skipped: in every
    reachable state [exists(tokenId)] answers [true] exactly for the ids
    below [totalSupply()], which is also [currentTokenId()], the id the
    next mint will use. *)
Theorem token_exists_iff_below_supply (E : Env) (s : State) (tokenId : N) :
  valid_env E ->
  reachable E s ->
  exists supply,
    NFT.totalSupply s = Ok supply s /\
    NFT.currentTokenId s = Ok supply s /\
    NFT.exists_ tokenId s = Ok (bool_decide (tokenId < supply)) s.
Proof.
  intros Henv Hreach. exists (_tokenIdCounter (nft s)).
  split; [reflexivity|]. split; [reflexivity|].
  unfold NFT.exists_, gets. f_equal. apply bool_decide_ext. split.
  - apply (inv_owned_minted s). by apply (reachable_inv E Henv).
  - by apply (reachable_minted_owned E).
Qed.

Lemma token_exists_iff_below_supply_witness :
  exists supply,
    NFT.totalSupply Scenario.minted_twice = Ok supply Scenario.minted_twice /\
    NFT.currentTokenId Scenario.minted_twice = Ok supply Scenario.minted_twice /\
    NFT.exists_ 1 Scenario.minted_twice
      = Ok (bool_decide (1 < supply)) Scenario.minted_twice.
Proof.
  apply (token_exists_iff_below_supply Scenario.friendly Scenario.minted_twice 1
           scenario_env_valid).
  change Scenario.minted_twice with
    (apply_tx Scenario.friendly (mkTx Scenario.bob Scenario.bob (MintNFT "ipfs://QmSampleNFT2"))
       (apply_tx Scenario.friendly
          (mkTx Scenario.alice Scenario.alice (MintAndList "ipfs://QmSampleNFT1" 1000))
          (initial_state Scenario.friendly Scenario.deployer Scenario.funds))).
  apply reachable_step; [apply reachable_step; [apply reachable_init|]|];
    split; discriminate.
Defined.

(** X4.  The listing index is append-only: whatever transactions are
    applied, in whatever state, the index afterwards starts with the index
    before, so no entry is removed or moved and [getTotalListedCount()]
    never decreases. *)
Theorem listing_index_append_only (E : Env) (txs : list Tx) (s : State) :
  listedTokenIds (market s) `prefix_of` listedTokenIds (market (apply_txs E txs s)) /\
  exists n n',
    getTotalListedCount s = Ok n s /\
    getTotalListedCount (apply_txs E txs s) = Ok n' (apply_txs E txs s) /\
    n ≤ n'.
Proof.
  pose proof (apply_txs_prefix E txs s) as Hpre. split; [exact Hpre|].
  eexists _, _. split; [reflexivity|]. split; [reflexivity|].
  apply prefix_length in Hpre. lia.
Qed.

(** X5.  The position map of the listing index is right: in every reachable
    state the index holds token [t] at position [i] exactly when [t] is in
    the index and [_listedTokenIndex[t]] is [i]. *)
Theorem listed_token_index_is_position (E : Env) (s : State) (t : N) (i : nat) :
  valid_env E ->
  reachable E s ->
  listedTokenIds (market s) !! i = Some t <->
  t ∈ listedTokenIds (market s) /\
  N.to_nat (sload 0 (_listedTokenIndex (market s)) t) = i.
Proof.
  intros Henv Hreach.
  pose proof (reachable_positions E s Hreach) as Hpos.
  destruct (reachable_inv E Henv s Hreach) as [HI _].
  split.
  - intros Hi. assert (Hin : t ∈ listedTokenIds (market s))
      by (by eapply list_elem_of_lookup_2).
    split; [exact Hin|].
    eapply NoDup_lookup; [apply (inv_nodup s HI)|by apply Hpos|exact Hi].
  - intros [Hin <-]. by apply Hpos.
Qed.

Lemma listed_token_index_is_position_witness :
  listedTokenIds (market Scenario.five_active) !! 4%nat = Some 4 <->
  4 ∈ listedTokenIds (market Scenario.five_active) /\
  N.to_nat (sload 0 (_listedTokenIndex (market Scenario.five_active)) 4) = 4%nat.
Proof.
  apply (listed_token_index_is_position Scenario.friendly Scenario.five_active 4 4
           scenario_env_valid).
  change Scenario.five_active with
    (apply_txs Scenario.friendly Scenario.five_active_txs
       (initial_state Scenario.friendly Scenario.deployer Scenario.funds)).
  unfold Scenario.five_active_txs. cbn [apply_txs fold_left].
  repeat (apply reachable_step; [|split; discriminate]).
  apply reachable_init.
Defined.

(** X6.  Token ids are handed out in sequence: a successful [mintNFT] or
    [mintAndList] returns the total supply at the time of the call, and a
    mint made later, after any transactions, returns a larger id, the next
    one when nothing was minted in between. *)
Theorem token_ids_sequential (E : Env) (txs : list Tx) (s s1 s2 : State)
    (o a o' b : address) (uri uri' : string) (p p' id id' : N) :
  mintNFT E o a uri s = Ok id s1 \/ mintAndList E a uri p s = Ok id s1 ->
  mintNFT E o' b uri' (apply_txs E txs s1) = Ok id' s2 \/
    mintAndList E b uri' p' (apply_txs E txs s1) = Ok id' s2 ->
  NFT.totalSupply s = Ok id s /\ id < id' /\ (txs = [] -> id' = id + 1).
Proof.
  intros H1 H2.
  assert (Hid : id = _tokenIdCounter (nft s) /\ _tokenIdCounter (nft s1) = id + 1).
  { destruct H1 as [H1|H1].
    - apply mintNFT_explicit in H1 as (_ & _ & -> & _ & _ & ->). done.
    - apply mintAndList_explicit in H1 as (_ & _ & _ & -> & _ & _ & ->). done. }
  assert (Hid' : id' = _tokenIdCounter (nft (apply_txs E txs s1))).
  { destruct H2 as [H2|H2].
    - by apply mintNFT_explicit in H2 as (_ & _ & -> & _).
    - by apply mintAndList_explicit in H2 as (_ & _ & _ & -> & _). }
  destruct Hid as [Hid Hnext].
  destruct (apply_txs_registry E txs s1) as (_ & _ & Hmono & _).
  split; [by subst id|]. split; [lia|].
  intros ->. cbn in Hid'. lia.
Qed.

Lemma token_ids_sequential_witness :
  mintAndList Scenario.friendly Scenario.alice "ipfs://QmSampleNFT1" 1000 Scenario.deployed
    = Ok 0 Scenario.minted_once /\
  mintNFT Scenario.friendly Scenario.bob Scenario.bob "ipfs://QmSampleNFT2"
    (apply_txs Scenario.friendly [] Scenario.minted_once) = Ok 1 Scenario.minted_twice /\
  NFT.totalSupply Scenario.deployed = Ok 0 Scenario.deployed /\ 0 < 1 /\
  (@nil Tx = [] -> 1 = 0 + 1).
Proof.
  assert (H1 : mintAndList Scenario.friendly Scenario.alice "ipfs://QmSampleNFT1" 1000
                 Scenario.deployed = Ok 0 Scenario.minted_once)
    by (vm_compute; reflexivity).
  assert (H2 : mintNFT Scenario.friendly Scenario.bob Scenario.bob "ipfs://QmSampleNFT2"
                 (apply_txs Scenario.friendly [] Scenario.minted_once)
               = Ok 1 Scenario.minted_twice)
    by (vm_compute; reflexivity).
  split; [exact H1|]. split; [exact H2|].
  exact (token_ids_sequential Scenario.friendly [] Scenario.deployed Scenario.minted_once
           Scenario.minted_twice Scenario.alice Scenario.alice Scenario.bob Scenario.bob
           "ipfs://QmSampleNFT1" "ipfs://QmSampleNFT2" 1000 0 0 1
           (or_intror H1) (or_introl H2)).
Defined.

(** ** Listing a token *)

Section ListFacts.

Context (E : Env).

Lemma bind_assoc {A B C : Type} (m : M A) (f : A -> M B) (k : B -> M C) s :
  bind (bind m f) k s = bind m (fun a => bind (f a) k) s.
Proof. unfold bind. by destruct (m s). Qed.

Lemma bind_requireOwned {B : Type} t (k : address -> M B) s :
  bind (ERC721._requireOwned t) k s =
  if decide (ERC721._ownerOf s t = address0) then Revert (ERC721NonexistentToken t)
  else k (ERC721._ownerOf s t) s.
Proof.
  unfold ERC721._requireOwned. rewrite bind_assoc, bind_gets. by case_decide.
Qed.

Lemma bind_getApproved {B : Type} t (k : address -> M B) s :
  bind (ERC721.getApproved t) k s =
  if decide (ERC721._ownerOf s t = address0) then Revert (ERC721NonexistentToken t)
  else k (ERC721._getApproved s t) s.
Proof.
  unfold ERC721.getApproved. rewrite bind_assoc, bind_requireOwned. by case_decide.
Qed.

(** [listNFT] with the guard free, its checks in the order of the code. *)
Lemma listNFT_run sender t p s :
  mkt_entered (market s) = false ->
  listNFT E sender t p s =
  if decide (p = 0) then Revert PriceMustBeGreaterThanZero
  else if decide (ERC721._ownerOf s t = address0) then Revert (ERC721NonexistentToken t)
  else if decide (ERC721._ownerOf s t = sender) then
    if bool_decide (ERC721._getApproved s t = this E)
       || ERC721._isApprovedForAll s sender (this E)
    then Ok tt (leave (if has_been_listed s t
                       then write_listing t (mkListing sender p true) (enter s)
                       else track_listed t (write_listing t (mkListing sender p true) (enter s))))
    else Revert NotApprovedForMarketplace
  else Revert NotTokenOwner.
Proof.
  intros Hq. unfold listNFT. rewrite nonReentrant_run by done.
  rewrite bind_revert_if. case_decide as Hp.
  { by rewrite bool_decide_eq_true_2. }
  rewrite bool_decide_eq_false_2 by done.
  unfold ERC721.ownerOf. rewrite bind_requireOwned.
  change (ERC721._ownerOf (enter s) t) with (ERC721._ownerOf s t).
  case_decide as Hnone; [done|].
  rewrite bind_revert_if. case_decide as Hown.
  2:{ by rewrite bool_decide_eq_true_2. }
  rewrite bool_decide_eq_false_2 by (intros Hne; by apply Hne).
  rewrite bind_getApproved.
  change (ERC721._ownerOf (enter s) t) with (ERC721._ownerOf s t).
  rewrite decide_False by done.
  change (ERC721._getApproved (enter s) t) with (ERC721._getApproved s t).
  unfold ERC721.isApprovedForAll.
  destruct (decide (ERC721._getApproved s t ≠ this E)) as [Hne|Heq].
  - rewrite bool_decide_eq_false_2 by done. cbn [orb].
    rewrite bind_assoc, bind_gets, bind_ret.
    change (ERC721._isApprovedForAll (enter s) sender (this E))
      with (ERC721._isApprovedForAll s sender (this E)).
    destruct (ERC721._isApprovedForAll s sender (this E)); cbn [negb].
    + rewrite bind_revert_if, bind_modify, bind_gets.
      change (has_been_listed (write_listing t (mkListing sender p true) (enter s)) t)
        with (has_been_listed s t).
      by destruct (has_been_listed s t).
    + by rewrite bind_revert_if.
  - rewrite bool_decide_eq_true_2 by (by destruct (decide (ERC721._getApproved s t = this E));
                                       [|exfalso; auto]).
    cbn [orb]. rewrite bind_ret, bind_revert_if, bind_modify, bind_gets.
    change (has_been_listed (write_listing t (mkListing sender p true) (enter s)) t)
      with (has_been_listed s t).
    by destruct (has_been_listed s t).
Qed.

End ListFacts.

(** X7.  [listNFT], called while no marketplace call is in progress, checks
    in this order: a zero price reverts with [PriceMustBeGreaterThanZero];
    a token without owner with [ERC721NonexistentToken]; a caller who is
    not the owner with [NotTokenOwner]; a marketplace that is neither the
    approved account of the token nor an operator of the caller with
    [NotApprovedForMarketplace].  Otherwise the call succeeds: [getListing]
    then returns the caller, the price and [true]; the listings of the other
    tokens, the token registry and the balances are as before; the token is
    appended to the index unless it was listed before. *)
Theorem listNFT_checks_and_effect (E : Env) (sender : address) (t p : N) (s : State) :
  mkt_entered (market s) = false ->
  let owner := ERC721._ownerOf s t in
  let approved := bool_decide (ERC721._getApproved s t = this E)
                  || ERC721._isApprovedForAll s sender (this E) in
  (p = 0 ->
   transact (listNFT E sender t p) s = (s, inl PriceMustBeGreaterThanZero)) /\
  (p ≠ 0 -> owner = address0 ->
   transact (listNFT E sender t p) s = (s, inl (ERC721NonexistentToken t))) /\
  (p ≠ 0 -> owner ≠ address0 -> owner ≠ sender ->
   transact (listNFT E sender t p) s = (s, inl NotTokenOwner)) /\
  (p ≠ 0 -> owner ≠ address0 -> owner = sender -> approved = false ->
   transact (listNFT E sender t p) s = (s, inl NotApprovedForMarketplace)) /\
  (p ≠ 0 -> owner ≠ address0 -> owner = sender -> approved = true ->
   exists s',
     transact (listNFT E sender t p) s = (s', inr tt) /\
     getListing t s' = Ok (sender, p, true) s' /\
     (forall t', t' ≠ t -> listing_of s' t' = listing_of s t') /\
     listedTokenIds (market s')
       = (if has_been_listed s t then listedTokenIds (market s)
          else listedTokenIds (market s) ++ [t]) /\
     has_been_listed s' t = true /\
     nft s' = nft s /\ balances s' = balances s).
Proof.
  intros Hq owner approved. subst owner approved.
  split; [|split; [|split; [|split]]].
  - intros Hp. apply transact_revert. rewrite listNFT_run by done.
    by rewrite decide_True.
  - intros Hp Hnone. apply transact_revert. rewrite listNFT_run by done.
    rewrite decide_False by done. by rewrite decide_True.
  - intros Hp Hsome Hother. apply transact_revert. rewrite listNFT_run by done.
    rewrite decide_False by done. rewrite decide_False by done.
    by rewrite decide_False.
  - intros Hp Hsome Hown Happ. apply transact_revert. rewrite listNFT_run by done.
    rewrite decide_False by done. rewrite decide_False by done.
    rewrite decide_True by done. by rewrite Happ.
  - intros Hp Hsome Hown Happ. eexists. split.
    + apply transact_ok. rewrite listNFT_run by done.
      rewrite decide_False by done. rewrite decide_False by done.
      rewrite decide_True by done. rewrite Happ. reflexivity.
    + destruct (has_been_listed s t) eqn:Hbefore.
      * split; [unfold getListing, gets, listing_of; cbn; by rewrite sload_insert_eq|].
        split; [intros t' Hne; unfold listing_of; cbn; by rewrite sload_insert_ne|].
        split; [reflexivity|]. split; [exact Hbefore|]. split; reflexivity.
      * split; [unfold getListing, gets, listing_of; cbn; by rewrite sload_insert_eq|].
        split; [intros t' Hne; unfold listing_of; cbn; by rewrite sload_insert_ne|].
        split; [reflexivity|].
        split; [unfold has_been_listed; cbn; by rewrite sload_insert_eq|].
        split; reflexivity.
Qed.

Lemma listNFT_checks_and_effect_witness :
  mkt_entered (market Scenario.sold) = false /\
  transact (listNFT Scenario.friendly Scenario.bob 0 2000) Scenario.sold
    = (Scenario.sold, inl NotApprovedForMarketplace) /\
  transact (listNFT Scenario.friendly Scenario.alice 0 2000) Scenario.sold
    = (Scenario.sold, inl NotTokenOwner).
Proof.
  assert (Hq : mkt_entered (market Scenario.sold) = false) by reflexivity.
  split; [exact Hq|]. split.
  - destruct (listNFT_checks_and_effect Scenario.friendly Scenario.bob 0 2000
                Scenario.sold Hq) as (_ & _ & _ & H4 & _).
    apply H4; vm_compute; first [discriminate | reflexivity].
  - destruct (listNFT_checks_and_effect Scenario.friendly Scenario.alice 0 2000
                Scenario.sold Hq) as (_ & _ & H3 & _).
    apply H3; vm_compute; discriminate.
Defined.

(** ** Purchases and the token registry *)

Section SaleFacts.

Context (E : Env).

(** A transfer by a caller that is not authorised for a token that has an
    owner. *)
Lemma safeTransferFrom_unauthorized sender from to t s :
  to ≠ address0 -> sender ≠ address0 ->
  ERC721._ownerOf s t ≠ address0 ->
  ERC721._isAuthorized s (ERC721._ownerOf s t) sender t = false ->
  ERC721.safeTransferFrom E sender from to t s
  = Revert (ERC721InsufficientApproval sender t).
Proof.
  intros Hto Hsender Howned Hauth.
  unfold ERC721.safeTransferFrom, ERC721.transferFrom.
  rewrite decide_False by done.
  unfold ERC721._update. rewrite !bind_assoc, bind_gets.
  rewrite decide_False by done.
  unfold ERC721._checkAuthorized. rewrite !bind_assoc, bind_gets, Hauth.
  by rewrite decide_False.
Qed.

Lemma owner_after_transfer t to x t' :
  ERC721._ownerOf (ERC721.write_owner t to x) t'
  = if decide (t = t') then to else ERC721._ownerOf x t'.
Proof.
  unfold ERC721._ownerOf, ERC721.write_owner. cbn. case_decide as Heq.
  - subst. by rewrite sload_insert_eq.
  - by rewrite sload_insert_ne.
Qed.

Lemma approved_after_write t to x t' :
  ERC721._getApproved (ERC721.write_approval t to x) t'
  = if decide (t = t') then to else ERC721._getApproved x t'.
Proof.
  unfold ERC721._getApproved, ERC721.write_approval. cbn. case_decide as Heq.
  - subst. by rewrite sload_insert_eq.
  - by rewrite sload_insert_ne.
Qed.

Lemma listing_of_deactivate_ne s t t' :
  t ≠ t' -> listing_of (deactivate t s) t' = listing_of s t'.
Proof.
  intros Hne. unfold deactivate, listing_of at 1, write_listing. cbn.
  by rewrite sload_insert_ne.
Qed.

(** A successful purchase up to the moment the receiver hook of the buyer
    is consulted: the marketplace has taken the payment and its guard and
    has cleared the active flag, the registry has handed the token over,
    and the hook accepts in the state that this left. *)
Lemma buyNFT_hook caller v t s u s' :
  buyNFT E caller v t s = Ok u s' ->
  exists s_h,
    ERC721.transferFrom (this E) (seller (listing_of s t)) caller t
      (deactivate t (enter (move_ether caller (this E) v s))) = Ok tt s_h /\
    accepts_token E s_h (this E) (seller (listing_of s t)) caller t = true /\
    s_h = ERC721.write_owner t caller
            (if decide (seller (listing_of s t) = address0)
             then deactivate t (enter (move_ether caller (this E) v s))
             else ERC721.write_approval t address0
                    (deactivate t (enter (move_ether caller (this E) v s)))).
Proof.
  intros H. destruct (buyNFT_explicit E _ _ _ _ _ _ H) as (Hq & _).
  apply buyNFT_ok in H as (_ & _ & _ & _ & _ & _ & s_t & s_p & Ht & _); [|done].
  unfold ERC721.safeTransferFrom in Ht.
  apply bind_ok_inv in Ht as ([] & s_h & Htf & Hhook).
  apply _checkOnERC721Received_ok in Hhook as (-> & _ & _ & Hacc).
  exists s_h. split; [exact Htf|]. split; [exact Hacc|].
  by apply transferFrom_ok in Htf as (_ & _ & _ & ->).
Qed.

End SaleFacts.

(** X8.  A successful [buyNFT] moves the token.  Before the call the token
    belonged to the recorded seller.  At the moment the registry consults
    the receiver hook of the buyer, which accepts, the token belongs to the
    buyer, its listing is already inactive, and the owners and the approved
    accounts of all other tokens are as before the call.  After the call
    the listing keeps seller and price and is inactive, and the listings of
    all other tokens are as before. *)
Theorem buyNFT_transfers_token (E : Env) (caller : address) (v t : N) (s s' : State) :
  transact (buyNFT E caller v t) s = (s', inr tt) ->
  let who := seller (listing_of s t) in
  let mid := deactivate t (enter (move_ether caller (this E) v s)) in
  ERC721._ownerOf s t = who /\
  caller ≠ address0 /\
  (exists s_h,
     ERC721.transferFrom (this E) who caller t mid = Ok tt s_h /\
     accepts_token E s_h (this E) who caller t = true /\
     ERC721._ownerOf s_h t = caller /\
     isActive (listing_of s_h t) = false /\
     forall t', t' ≠ t ->
       ERC721._ownerOf s_h t' = ERC721._ownerOf s t' /\
       ERC721._getApproved s_h t' = ERC721._getApproved s t') /\
  getListing t s' = Ok (who, price (listing_of s t), false) s' /\
  (forall t', t' ≠ t -> listing_of s' t' = listing_of s t').
Proof.
  intros H. apply transact_success_inv in H.
  destruct (buyNFT_hook E _ _ _ _ _ _ H) as (s_h & Htf & Hacc & Hs).
  apply buyNFT_explicit in H as (_ & _ & _ & _ & _ & Hc & Hown & _ & Hm & _).
  cbn zeta. split; [exact Hown|]. split; [exact Hc|].
  assert (Hl : forall t', listing_of s' t' = listing_of (deactivate t s) t').
  { intros t'. unfold listing_of. by rewrite Hm. }
  split.
  { exists s_h. split; [exact Htf|]. split; [exact Hacc|]. subst s_h.
    split; [by rewrite owner_after_transfer, decide_True|].
    split.
    { transitivity (isActive (listing_of (deactivate t s) t));
        [by case_decide | by rewrite listing_of_deactivate_eq]. }
    intros t' Hne. split.
    - rewrite owner_after_transfer, decide_False by done. by case_decide.
    - transitivity
        (ERC721._getApproved
           (if decide (seller (listing_of s t) = address0)
            then deactivate t (enter (move_ether caller (this E) v s))
            else ERC721.write_approval t address0
                   (deactivate t (enter (move_ether caller (this E) v s)))) t');
        [reflexivity|].
      case_decide; [reflexivity|].
      by rewrite approved_after_write, decide_False. }
  split.
  { unfold getListing, gets. by rewrite Hl, listing_of_deactivate_eq. }
  intros t' Hne. rewrite Hl. by apply listing_of_deactivate_ne.
Qed.

(** The theorem at bob's purchase of token 0 from alice. *)
Lemma buyNFT_transfers_token_witness :
  transact (buyNFT Scenario.friendly Scenario.bob 1000 0) Scenario.listed
    = (Scenario.sold, inr tt) /\
  ERC721._ownerOf Scenario.listed 0 = Scenario.alice /\
  (exists s_h,
     accepts_token Scenario.friendly s_h Scenario.marketplace Scenario.alice Scenario.bob 0
       = true /\
     ERC721._ownerOf s_h 0 = Scenario.bob /\
     isActive (listing_of s_h 0) = false) /\
  getListing 0 Scenario.sold = Ok (Scenario.alice, 1000, false) Scenario.sold.
Proof.
  assert (H : transact (buyNFT Scenario.friendly Scenario.bob 1000 0) Scenario.listed
              = (Scenario.sold, inr tt)) by (vm_compute; reflexivity).
  split; [exact H|].
  destruct (buyNFT_transfers_token Scenario.friendly Scenario.bob 1000 0
              Scenario.listed Scenario.sold H)
    as (H1 & _ & (s_h & _ & Hacc & Ho & Hoff & _) & H4 & _).
  split; [exact H1|]. split; [|exact H4].
  exists s_h. split; [exact Hacc|]. split; [exact Ho|exact Hoff].
Defined.

(** X9.  A listing whose recorded seller no longer owns the token, because
    the token was transferred outside the marketplace, cannot be bought:
    [buyNFT] on it reverts, whoever calls and whatever is paid. *)
Theorem stale_listing_cannot_be_bought (E : Env) (caller : address) (v t : N) (s : State) :
  ERC721._ownerOf s t ≠ seller (listing_of s t) ->
  exists e, transact (buyNFT E caller v t) s = (s, inl e).
Proof.
  intros Hstale. unfold transact.
  destruct (buyNFT E caller v t s) as [[] s'|e] eqn:H; [|by exists e].
  apply buyNFT_explicit in H as (_ & _ & _ & _ & _ & _ & Hown & _). done.
Qed.

Lemma stale_listing_cannot_be_bought_witness :
  ERC721._ownerOf Scenario.given_away 0 ≠ seller (listing_of Scenario.given_away 0) /\
  isActive (listing_of Scenario.given_away 0) = true /\
  exists e, transact (buyNFT Scenario.friendly Scenario.bob 1000 0) Scenario.given_away
            = (Scenario.given_away, inl e).
Proof.
  assert (H : ERC721._ownerOf Scenario.given_away 0
              ≠ seller (listing_of Scenario.given_away 0))
    by (vm_compute; discriminate).
  split; [exact H|]. split; [vm_compute; reflexivity|].
  exact (stale_listing_cannot_be_bought Scenario.friendly Scenario.bob 1000 0
           Scenario.given_away H).
Defined.

(** X10.  A sale uses up the approval of the marketplace.  In a reachable
    state, at the moment a successful [buyNFT] has the receiver hook of the
    buyer consulted, the token belongs to the buyer and has no approved
    account.  So when the call has ended, as long as the token is still
    with the buyer, no account has been approved for it since and the
    marketplace is not an operator of the buyer, the buyer cannot list the
    token again: [listNFT] reverts with [NotApprovedForMarketplace]. *)
Theorem sale_consumes_approval (E : Env) (caller : address) (v t p : N) (s s' : State) :
  valid_env E ->
  reachable E s ->
  p ≠ 0 ->
  transact (buyNFT E caller v t) s = (s', inr tt) ->
  exists s_h,
    ERC721.transferFrom (this E) (seller (listing_of s t)) caller t
      (deactivate t (enter (move_ether caller (this E) v s))) = Ok tt s_h /\
    accepts_token E s_h (this E) (seller (listing_of s t)) caller t = true /\
    ERC721._ownerOf s_h t = caller /\
    ERC721._getApproved s_h t = address0 /\
    (ERC721._ownerOf s' t = ERC721._ownerOf s_h t ->
     ERC721._getApproved s' t = ERC721._getApproved s_h t ->
     ERC721._isApprovedForAll s' caller (this E) = false ->
     transact (listNFT E caller t p) s' = (s', inl NotApprovedForMarketplace)).
Proof.
  intros Henv Hreach Hp H. apply transact_success_inv in H.
  destruct (reachable_inv E Henv s Hreach) as [HI _].
  destruct Henv as (Hthis & _).
  destruct (buyNFT_hook E _ _ _ _ _ _ H) as (s_h & Htf & Hacc & Hs).
  apply buyNFT_explicit in H as (_ & _ & _ & _ & _ & Hc & Hown & Hauth & Hm & _).
  assert (Hsome : ERC721._ownerOf s t ≠ address0).
  { eapply (authorized_owned s _ (this E) t HI Hthis); [|exact (Hauth Hthis)]. done. }
  rewrite decide_False in Hs by congruence.
  assert (Ho : ERC721._ownerOf s_h t = caller).
  { subst s_h. by rewrite owner_after_transfer, decide_True. }
  assert (Ha : ERC721._getApproved s_h t = address0).
  { subst s_h. unfold ERC721._getApproved. cbn. by rewrite sload_insert_eq. }
  assert (Hq' : mkt_entered (market s') = false) by (by rewrite Hm).
  exists s_h. split; [exact Htf|]. split; [exact Hacc|].
  split; [exact Ho|]. split; [exact Ha|].
  intros Ho' Ha' Hop'. rewrite Ho in Ho'. rewrite Ha in Ha'.
  apply transact_revert. rewrite listNFT_run by done.
  rewrite decide_False by done. rewrite Ho', Ha', Hop'.
  rewrite decide_False by done. rewrite decide_True by done.
  by rewrite bool_decide_eq_false_2 by (unfold address0 in *; congruence).
Qed.

(** The theorem at bob's purchase of token 0: bob cannot list the token
    right away. *)
Lemma sale_consumes_approval_witness :
  transact (buyNFT Scenario.friendly Scenario.bob 1000 0) Scenario.listed
    = (Scenario.sold, inr tt) /\
  (exists s_h, ERC721._ownerOf s_h 0 = Scenario.bob /\
               ERC721._getApproved s_h 0 = address0) /\
  transact (listNFT Scenario.friendly Scenario.bob 0 2000) Scenario.sold
    = (Scenario.sold, inl NotApprovedForMarketplace).
Proof.
  assert (H : transact (buyNFT Scenario.friendly Scenario.bob 1000 0) Scenario.listed
              = (Scenario.sold, inr tt)) by (vm_compute; reflexivity).
  assert (Hp : (2000 : N) ≠ 0) by discriminate.
  split; [exact H|].
  destruct (sale_consumes_approval Scenario.friendly Scenario.bob 1000 0 2000
              Scenario.listed Scenario.sold scenario_env_valid scenario_listed_reachable
              Hp H) as (s_h & _ & _ & Ho & Ha & Hlist).
  split; [exists s_h; split; [exact Ho|exact Ha]|].
  apply Hlist.
  - rewrite Ho. vm_compute. reflexivity.
  - rewrite Ha. vm_compute. reflexivity.
  - vm_compute. reflexivity.
Defined.

(** ** Minting and listing in one call *)

Section MintAndListFacts.

Context (E : Env).

(** A successful [mintTo] had the receiver hook of the recipient consulted
    in the state [mint_hook], and the hook accepted. *)
Lemma mintTo_hook sender to uri s tokenId s' :
  NFT.mintTo E sender to uri s = Ok tokenId s' ->
  to ≠ this E /\ to ≠ nftContract E /\
  accepts_token E (mint_hook to s) sender address0 to tokenId = true.
Proof.
  unfold NFT.mintTo, NFT.nonReentrant. intros H. minv H.
  lazymatch goal with
  | Hn : NFT.next_token_id _ = Ok _ _ |- _ => apply next_token_id_ok in Hn as [-> ->]
  end.
  lazymatch goal with
  | Hm : ERC721._safeMint _ _ _ _ _ = Ok _ _ |- _ =>
      unfold ERC721._safeMint in Hm;
      apply bind_ok_inv in Hm as ([] & s_h & Hmint & Hhook)
  end.
  apply _checkOnERC721Received_ok in Hhook as (_ & Hthis & Hnft & Hacc).
  unfold ERC721._mint in Hmint. minv Hmint.
  lazymatch goal with
  | Hu : ERC721._update _ _ _ _ = _ |- _ => apply _update_ok in Hu as (Hfrom & _ & Hs)
  end.
  simplify_eq. rewrite decide_True in Hacc by done. done.
Qed.

(** The same for [mintAndList], whose mint is entered under the guard of
    the marketplace. *)
Lemma mintAndList_hook sender uri p s id s' :
  mintAndList E sender uri p s = Ok id s' ->
  sender ≠ this E /\ sender ≠ nftContract E /\
  accepts_token E (mint_hook sender (enter s)) (this E) address0 sender id = true.
Proof.
  unfold mintAndList. intros H.
  apply nonReentrant_ok in H as (Hq & s1 & H & ->).
  minv H.
  lazymatch goal with
  | Hm : NFT.mintTo _ _ _ _ _ = Ok _ _ |- _ => apply mintTo_hook in Hm as (H1 & H2 & H3)
  end.
  by subst.
Qed.

(** The state a successful [mintAndList] leaves. *)
Lemma mintAndList_facts sender uri p s id s' :
  mintAndList E sender uri p s = Ok id s' ->
  p ≠ 0 /\ sender ≠ address0 /\ id = _tokenIdCounter (nft s) /\
  ERC721._ownerOf s id = address0 /\
  mkt_entered (market s') = false /\
  _tokenIdCounter (nft s') = id + 1 /\
  _owners (nft s') = <[id := sender]> (_owners (nft s)) /\
  _tokenURIs (nft s') = <[id := uri]> (_tokenURIs (nft s)) /\
  _tokenApprovals (nft s') = _tokenApprovals (nft s) /\
  _operatorApprovals (nft s') = _operatorApprovals (nft s) /\
  listings (market s') = <[id := mkListing sender p true]> (listings (market s)) /\
  listedTokenIds (market s') = listedTokenIds (market s) ++ [id] /\
  marketplaceFee (market s') = marketplaceFee (market s) /\
  balances s' = balances s.
Proof.
  intros H. apply mintAndList_explicit in H as (_ & _ & Hp & -> & Ho & Hfree & ->).
  repeat split; try done.
Qed.

End MintAndListFacts.

(** X11.  A successful [mintAndList] returns the total supply at the time
    of the call as the id of the new token, and the price is not zero.  At
    the moment the registry consults the receiver hook of the caller, which
    accepts, the new token belongs to the caller, and the balances and the
    owners of all other tokens are as before the call.  After the call the
    supply is one more, the token carries the given URI, [getListing]
    returns the caller, the price and [true], the token is the last entry
    of the index, and the listings of all other tokens are as before. *)
Theorem mintAndList_effect (E : Env) (sender : address) (uri : string) (p id : N)
    (s s' : State) :
  transact (mintAndList E sender uri p) s = (s', inr id) ->
  let s_h := mint_hook sender (enter s) in
  p ≠ 0 /\
  NFT.totalSupply s = Ok id s /\ NFT.totalSupply s' = Ok (id + 1) s' /\
  accepts_token E s_h (this E) address0 sender id = true /\
  ERC721._ownerOf s_h id = sender /\
  balances s_h = balances s /\
  (forall t, t ≠ id -> ERC721._ownerOf s_h t = ERC721._ownerOf s t) /\
  _tokenURIs (nft s') !! id = Some uri /\
  getListing id s' = Ok (sender, p, true) s' /\
  listedTokenIds (market s') = listedTokenIds (market s) ++ [id] /\
  (forall t, t ≠ id -> listing_of s' t = listing_of s t).
Proof.
  intros H. apply transact_success_inv in H.
  destruct (mintAndList_hook E _ _ _ _ _ _ H) as (_ & _ & Hacc).
  apply mintAndList_facts in H
    as (Hp & _ & Hid & _ & _ & Hnext & _ & Hu & _ & _ & Hl & Hi & _ & _).
  cbn zeta.
  split; [exact Hp|].
  split; [unfold NFT.totalSupply, gets; by rewrite Hid|].
  split; [unfold NFT.totalSupply, gets; by rewrite Hnext|].
  split; [exact Hacc|].
  split.
  { unfold mint_hook. rewrite owner_after_transfer. by rewrite decide_True by done. }
  split; [reflexivity|].
  split.
  { intros t Hne. unfold mint_hook. rewrite owner_after_transfer.
    by rewrite decide_False by (subst id; cbn; congruence). }
  split; [by rewrite Hu, lookup_insert_eq|].
  split; [unfold getListing, gets, listing_of; by rewrite Hl, sload_insert_eq|].
  split; [exact Hi|].
  intros t Hne. unfold listing_of. rewrite Hl. by rewrite sload_insert_ne.
Qed.

(** The theorem at alice's [mintAndList] of the first token for 1000. *)
Lemma mintAndList_effect_witness :
  transact (mintAndList Scenario.friendly Scenario.alice "ipfs://QmSampleNFT1" 1000)
    Scenario.deployed = (Scenario.minted_once, inr 0) /\
  NFT.totalSupply Scenario.minted_once = Ok (0 + 1) Scenario.minted_once /\
  ERC721._ownerOf (mint_hook Scenario.alice (enter Scenario.deployed)) 0 = Scenario.alice /\
  getListing 0 Scenario.minted_once = Ok (Scenario.alice, 1000, true) Scenario.minted_once.
Proof.
  assert (H : transact (mintAndList Scenario.friendly Scenario.alice "ipfs://QmSampleNFT1" 1000)
                Scenario.deployed = (Scenario.minted_once, inr 0))
    by (vm_compute; reflexivity).
  split; [exact H|].
  destruct (mintAndList_effect Scenario.friendly Scenario.alice "ipfs://QmSampleNFT1" 1000 0
              Scenario.deployed Scenario.minted_once H)
    as (_ & _ & H3 & _ & H5 & _ & _ & _ & H9 & _).
  split; [exact H3|]. split; [exact H5|exact H9].
Defined.

(** X12.  [mintAndList] does not by itself put the token up for sale in a
    way that can be bought.  In a reachable state, when the marketplace is
    not already an operator of the caller, at the moment the receiver hook
    of the caller is consulted the new token belongs to the caller, has no
    approved account, and the marketplace is still no operator of the
    caller; after the call the token is listed as active.  So as long as
    the owner, the approved account and the operator approval are as they
    were at that moment, every [buyNFT] on the token reverts, and a buyer
    who pays the asked price gets [ERC721InsufficientApproval] for the
    marketplace, until the seller approves the marketplace. *)
Theorem mintAndList_needs_approval (E : Env) (sender buyer : address) (uri : string)
    (p v id : N) (s s' : State) :
  valid_env E ->
  reachable E s ->
  ERC721._isApprovedForAll s sender (this E) = false ->
  transact (mintAndList E sender uri p) s = (s', inr id) ->
  let s_h := mint_hook sender (enter s) in
  accepts_token E s_h (this E) address0 sender id = true /\
  ERC721._ownerOf s_h id = sender /\
  ERC721._getApproved s_h id = address0 /\
  ERC721._isApprovedForAll s_h sender (this E) = false /\
  listing_of s' id = mkListing sender p true /\
  (ERC721._ownerOf s' id = ERC721._ownerOf s_h id ->
   ERC721._getApproved s' id = ERC721._getApproved s_h id ->
   ERC721._isApprovedForAll s' sender (this E)
   = ERC721._isApprovedForAll s_h sender (this E) ->
   (exists e, transact (buyNFT E buyer v id) s' = (s', inl e)) /\
   (buyer ≠ address0 -> buyer ≠ sender -> v = p -> p ≤ balance s' buyer ->
    p * marketplaceFee (market s') ≤ MAX_UINT256 ->
    transact (buyNFT E buyer v id) s'
    = (s', inl (ERC721InsufficientApproval (this E) id)))).
Proof.
  intros Henv Hreach Hop H. apply transact_success_inv in H.
  destruct (reachable_inv E Henv s Hreach) as [HI _].
  pose proof (reachable_fee E s Hreach) as Hcap.
  destruct Henv as (Hthis & _).
  destruct (mintAndList_hook E _ _ _ _ _ _ H) as (Hsender & _ & Hacc).
  apply mintAndList_facts in H
    as (Hp & Hs0 & Hid & Hfree & Hq' & _ & _ & _ & _ & _ & Hl & _ & Hfee & _).
  cbn zeta.
  assert (Hl' : listing_of s' id = mkListing sender p true).
  { unfold listing_of. by rewrite Hl, sload_insert_eq. }
  assert (Ho_h : ERC721._ownerOf (mint_hook sender (enter s)) id = sender).
  { unfold mint_hook. rewrite owner_after_transfer. by rewrite decide_True by done. }
  assert (Ha_h : ERC721._getApproved (mint_hook sender (enter s)) id = address0).
  { exact (inv_unowned s HI id Hfree). }
  assert (Hop_h : ERC721._isApprovedForAll (mint_hook sender (enter s)) sender (this E)
                  = false).
  { exact Hop. }
  split; [exact Hacc|]. split; [exact Ho_h|]. split; [exact Ha_h|].
  split; [exact Hop_h|]. split; [exact Hl'|].
  rewrite Ho_h, Ha_h, Hop_h. intros Ho' Ha' Hop'.
  assert (Hunauth : ERC721._isAuthorized s' sender (this E) id = false).
  { unfold ERC721._isAuthorized. rewrite Hop', Ha'.
    rewrite (bool_decide_eq_false_2 (sender = this E)) by done.
    rewrite (bool_decide_eq_false_2 (address0 = this E)) by congruence.
    by rewrite andb_false_r. }
  split.
  - unfold transact.
    destruct (buyNFT E buyer v id s') as [[] s''|e] eqn:Hbuy; [|by exists e].
    apply buyNFT_explicit in Hbuy as (_ & _ & _ & _ & _ & _ & _ & Hauth & _).
    specialize (Hauth Hthis). rewrite Hl' in Hauth. cbn [seller] in Hauth.
    congruence.
  - intros Hb Hself -> Hfund Hmul.
    assert (Hsome : ERC721._ownerOf s' id ≠ address0) by congruence.
    apply (buyNFT_failed_transfer E buyer p id s');
      rewrite ?Hl'; cbn [seller price isActive]; try done.
    + rewrite Hfee. unfold fee_on, FEE_DENOMINATOR. unfold MAX_FEE in Hcap.
      transitivity (p * 1000 / 10000).
      * apply N.Div0.div_le_mono. by apply N.mul_le_mono_l.
      * change 10000 with (10 * 1000). rewrite N.Div0.div_mul_cancel_r by done.
        apply N.Div0.div_le_upper_bound. lia.
    + apply safeTransferFrom_unauthorized; try done.
      change (ERC721._isAuthorized s' (ERC721._ownerOf s' id) (this E) id = false).
      by rewrite Ho'.
Qed.

(** The theorem at alice's [mintAndList] of the first token: bob, paying
    the asked 1000, is refused as long as alice has not approved the
    marketplace. *)
Lemma mintAndList_needs_approval_witness :
  transact (mintAndList Scenario.friendly Scenario.alice "ipfs://QmSampleNFT1" 1000)
    Scenario.deployed = (Scenario.minted_once, inr 0) /\
  ERC721._getApproved (mint_hook Scenario.alice (enter Scenario.deployed)) 0 = address0 /\
  (exists e, transact (buyNFT Scenario.friendly Scenario.bob 1000 0) Scenario.minted_once
             = (Scenario.minted_once, inl e)) /\
  transact (buyNFT Scenario.friendly Scenario.bob 1000 0) Scenario.minted_once
    = (Scenario.minted_once, inl (ERC721InsufficientApproval Scenario.marketplace 0)).
Proof.
  assert (H : transact (mintAndList Scenario.friendly Scenario.alice "ipfs://QmSampleNFT1" 1000)
                Scenario.deployed = (Scenario.minted_once, inr 0))
    by (vm_compute; reflexivity).
  assert (Hreach : reachable Scenario.friendly Scenario.deployed)
    by (apply reachable_init).
  assert (Hop : ERC721._isApprovedForAll Scenario.deployed Scenario.alice
                  (this Scenario.friendly) = false) by reflexivity.
  split; [exact H|].
  destruct (mintAndList_needs_approval Scenario.friendly Scenario.alice Scenario.bob
              "ipfs://QmSampleNFT1" 1000 1000 0 Scenario.deployed Scenario.minted_once
              scenario_env_valid Hreach Hop H) as (_ & _ & Ha & _ & _ & Hbuy).
  split; [exact Ha|].
  destruct Hbuy as [H1 H2];
    [vm_compute; reflexivity | vm_compute; reflexivity | vm_compute; reflexivity|].
  split; [exact H1|].
  apply H2.
  - discriminate.
  - discriminate.
  - reflexivity.
  - vm_compute. discriminate.
  - vm_compute. discriminate.
Defined.

(** ** Delisting, repricing and the number of active listings *)

Section ManageEffects.

Context (E : Env).

Lemma delistNFT_inactive caller t s :
  mkt_entered (market s) = false ->
  isActive (listing_of s t) = false ->
  delistNFT caller t s = Revert ListingNotActive.
Proof.
  intros Hq Hact. unfold delistNFT. rewrite nonReentrant_run by done. mstep.
  by rewrite listing_of_enter, Hact.
Qed.

Lemma updateListingPrice_inactive caller t p s :
  mkt_entered (market s) = false ->
  p ≠ 0 ->
  isActive (listing_of s t) = false ->
  updateListingPrice caller t p s = Revert ListingNotActive.
Proof.
  intros Hq Hp Hact. unfold updateListingPrice. rewrite nonReentrant_run by done. mstep.
  rewrite bool_decide_eq_false_2 by done. by rewrite listing_of_enter, Hact.
Qed.

Lemma buyNFT_wrong_payment caller v t s :
  mkt_entered (market s) = false ->
  v ≤ balance s caller ->
  isActive (listing_of s t) = true ->
  caller ≠ seller (listing_of s t) ->
  v ≠ price (listing_of s t) ->
  buyNFT E caller v t s = Revert IncorrectPaymentAmount.
Proof.
  intros Hq Hfund Hact Hother Hpay. rewrite buyNFT_run by done.
  unfold buyNFT_body. mstep.
  rewrite !listing_of_enter, !listing_of_move_ether, Hact. cbn [negb].
  rewrite bool_decide_eq_false_2 by done.
  by rewrite bool_decide_eq_true_2.
Qed.

Lemma listing_of_reprice s t p t' :
  listing_of (reprice t p s) t'
  = if decide (t = t')
    then mkListing (seller (listing_of s t)) p (isActive (listing_of s t))
    else listing_of s t'.
Proof.
  unfold reprice, listing_of at 1, write_listing. cbn. case_decide as Heq.
  - subst. by rewrite sload_insert_eq.
  - by rewrite sload_insert_ne.
Qed.

(** *** Counting the active entries of an index *)

Lemma filter_length_ext (f g : N -> bool) (l : list N) :
  (forall x, x ∈ l -> f x = g x) ->
  length (List.filter f l) = length (List.filter g l).
Proof.
  intros Hext. f_equal. apply List.filter_ext_in.
  intros x Hin. apply Hext. by apply list_elem_of_In.
Qed.

Lemma filter_length_flip (f g : N -> bool) (l : list N) (t : N) :
  NoDup l -> t ∈ l -> f t = true -> g t = false ->
  (forall x, x ≠ t -> g x = f x) ->
  length (List.filter f l) = S (length (List.filter g l)).
Proof.
  intros Hnd Hin Hf Hg Hext. induction l as [|x l IH]; [by apply elem_of_nil in Hin|].
  apply NoDup_cons in Hnd as [Hx Hnd]. cbn [List.filter].
  destruct (decide (x = t)) as [->|Hne].
  - rewrite Hf, Hg. cbn [length]. f_equal. apply filter_length_ext.
    intros y Hy. symmetry. apply Hext. intros ->. done.
  - rewrite (Hext x Hne).
    apply elem_of_cons in Hin as [Heq|Hin]; [congruence|].
    destruct (f x); cbn [length]; by rewrite IH.
Qed.

Lemma active_ids_same s s' :
  listedTokenIds (market s') = listedTokenIds (market s) ->
  (forall x, x ∈ listedTokenIds (market s) ->
     isActive (listing_of s' x) = isActive (listing_of s x)) ->
  length (active_ids s') = length (active_ids s).
Proof.
  intros Hids Hext. unfold active_ids. rewrite Hids. by apply filter_length_ext.
Qed.

Lemma active_ids_off s s' t :
  NoDup (listedTokenIds (market s)) -> t ∈ listedTokenIds (market s) ->
  listedTokenIds (market s') = listedTokenIds (market s) ->
  isActive (listing_of s t) = true -> isActive (listing_of s' t) = false ->
  (forall x, x ≠ t -> listing_of s' x = listing_of s x) ->
  length (active_ids s) = S (length (active_ids s')).
Proof.
  intros Hnd Hin Hids Hon Hoff Hext. unfold active_ids. rewrite Hids.
  apply (filter_length_flip _ _ _ t); try done.
  intros x Hne. by rewrite Hext.
Qed.

Lemma active_ids_on s s' t :
  NoDup (listedTokenIds (market s)) -> t ∈ listedTokenIds (market s) ->
  listedTokenIds (market s') = listedTokenIds (market s) ->
  isActive (listing_of s t) = false -> isActive (listing_of s' t) = true ->
  (forall x, x ≠ t -> listing_of s' x = listing_of s x) ->
  length (active_ids s') = S (length (active_ids s)).
Proof.
  intros Hnd Hin Hids Hoff Hon Hext. unfold active_ids. rewrite Hids.
  apply (filter_length_flip _ _ _ t); try done.
  intros x Hne. by rewrite Hext.
Qed.

Lemma active_ids_snoc s s' t :
  t ∉ listedTokenIds (market s) ->
  listedTokenIds (market s') = listedTokenIds (market s) ++ [t] ->
  isActive (listing_of s' t) = true ->
  (forall x, x ≠ t -> listing_of s' x = listing_of s x) ->
  length (active_ids s') = S (length (active_ids s)).
Proof.
  intros Hfresh Hids Hon Hext. unfold active_ids. rewrite Hids.
  rewrite List.filter_app, length_app. cbn [List.filter]. rewrite Hon. cbn [length].
  rewrite (filter_length_ext _ (fun x => isActive (listing_of s x))); [lia|].
  intros x Hx. rewrite Hext; [done|]. intros ->. done.
Qed.

Lemma getActiveListingCount_run s :
  getActiveListingCount s = Ok (N.of_nat (length (active_ids s))) s.
Proof. unfold getActiveListingCount, gets. by rewrite count_loop_active_ids. Qed.

End ManageEffects.

Lemma scenario_five_active_reachable : reachable Scenario.friendly Scenario.five_active.
Proof.
  change Scenario.five_active with
    (apply_txs Scenario.friendly Scenario.five_active_txs
       (initial_state Scenario.friendly Scenario.deployer Scenario.funds)).
  unfold Scenario.five_active_txs. cbn [apply_txs fold_left].
  repeat (apply reachable_step; [|split; discriminate]).
  apply reachable_init.
Qed.

(** X13.  A successful [delistNFT] was called by the recorded seller of an
    active listing and only clears the active flag: [getListing] returns
    the same seller and price with [false]; the other listings, the index,
    the token registry and the balances are as before.  The token is then
    off the market: [buyNFT] by a caller who holds the payment, a second
    [delistNFT], and [updateListingPrice] with a price other than zero
    revert on it with [ListingNotActive]. *)
Theorem delistNFT_effect (E : Env) (sender : address) (t : N) (s s' : State) :
  transact (delistNFT sender t) s = (s', inr tt) ->
  seller (listing_of s t) = sender /\ isActive (listing_of s t) = true /\
  getListing t s' = Ok (sender, price (listing_of s t), false) s' /\
  (forall t', t' ≠ t -> listing_of s' t' = listing_of s t') /\
  listedTokenIds (market s') = listedTokenIds (market s) /\
  nft s' = nft s /\ balances s' = balances s /\
  (forall buyer v, v ≤ balance s' buyer ->
     transact (buyNFT E buyer v t) s' = (s', inl ListingNotActive)) /\
  (forall who, transact (delistNFT who t) s' = (s', inl ListingNotActive)) /\
  (forall who p, p ≠ 0 ->
     transact (updateListingPrice who t p) s' = (s', inl ListingNotActive)).
Proof.
  intros H. apply transact_success_inv in H.
  apply delistNFT_explicit in H as (Hq & Hact & Hseller & ->).
  assert (Hoff : isActive (listing_of (leave (deactivate t (enter s))) t) = false).
  { by rewrite listing_of_leave, listing_of_deactivate_eq. }
  split; [exact Hseller|]. split; [exact Hact|].
  split.
  { unfold getListing, gets. rewrite listing_of_leave, listing_of_deactivate_eq.
    cbn [seller price isActive]. by rewrite listing_of_enter, Hseller. }
  split.
  { intros t' Hne. rewrite listing_of_leave, listing_of_deactivate_ne by done.
    apply listing_of_enter. }
  split; [reflexivity|]. split; [reflexivity|]. split; [reflexivity|].
  split; [|split].
  - intros buyer v Hfund. by apply transact_revert, buyNFT_inactive.
  - intros who. by apply transact_revert, delistNFT_inactive.
  - intros who p Hp. by apply transact_revert, updateListingPrice_inactive.
Qed.

Lemma delistNFT_effect_witness :
  let s' := apply_tx Scenario.friendly (mkTx Scenario.alice Scenario.alice (DelistNFT 0))
              Scenario.listed in
  transact (delistNFT Scenario.alice 0) Scenario.listed = (s', inr tt) /\
  getListing 0 s' = Ok (Scenario.alice, price (listing_of Scenario.listed 0), false) s' /\
  transact (buyNFT Scenario.friendly Scenario.bob 1000 0) s' = (s', inl ListingNotActive).
Proof.
  intros s'.
  assert (H : transact (delistNFT Scenario.alice 0) Scenario.listed = (s', inr tt))
    by (vm_compute; reflexivity).
  split; [exact H|].
  destruct (delistNFT_effect Scenario.friendly Scenario.alice 0 Scenario.listed s' H)
    as (_ & _ & H3 & _ & _ & _ & _ & H8 & _).
  split; [exact H3|]. apply H8. vm_compute. discriminate.
Defined.

(** X14.  A successful [updateListingPrice] was called by the recorded
    seller of an active listing with a price other than zero and changes
    the price only: [getListing] returns the same seller, the new price and
    [true]; everything else is as before.  From then on the new price is
    the one asked: a buyer other than the seller who offers any other
    amount that they hold, the old price included, is refused with
    [IncorrectPaymentAmount]. *)
Theorem updateListingPrice_effect (E : Env) (sender : address) (t p : N) (s s' : State) :
  transact (updateListingPrice sender t p) s = (s', inr tt) ->
  p ≠ 0 /\ seller (listing_of s t) = sender /\ isActive (listing_of s t) = true /\
  getListing t s' = Ok (sender, p, true) s' /\
  (forall t', t' ≠ t -> listing_of s' t' = listing_of s t') /\
  listedTokenIds (market s') = listedTokenIds (market s) /\
  nft s' = nft s /\ balances s' = balances s /\
  (forall buyer v, buyer ≠ sender -> v ≠ p -> v ≤ balance s' buyer ->
     transact (buyNFT E buyer v t) s' = (s', inl IncorrectPaymentAmount)).
Proof.
  intros H. apply transact_success_inv in H.
  apply updateListingPrice_explicit in H as (Hq & Hp & Hact & Hseller & ->).
  assert (Hl : listing_of (leave (reprice t p (enter s))) t = mkListing sender p true).
  { rewrite listing_of_leave, listing_of_reprice, decide_True by done.
    by rewrite listing_of_enter, Hseller, Hact. }
  split; [exact Hp|]. split; [exact Hseller|]. split; [exact Hact|].
  split; [unfold getListing, gets; by rewrite Hl|].
  split.
  { intros t' Hne. rewrite listing_of_leave, listing_of_reprice.
    by rewrite decide_False by done. }
  split; [reflexivity|]. split; [reflexivity|]. split; [reflexivity|].
  intros buyer v Hother Hv Hfund.
  apply transact_revert, buyNFT_wrong_payment; rewrite ?Hl; done.
Qed.

Lemma updateListingPrice_effect_witness :
  let s' := apply_tx Scenario.friendly
              (mkTx Scenario.alice Scenario.alice (UpdateListingPrice 0 1500))
              Scenario.listed in
  transact (updateListingPrice Scenario.alice 0 1500) Scenario.listed = (s', inr tt) /\
  getListing 0 s' = Ok (Scenario.alice, 1500, true) s' /\
  transact (buyNFT Scenario.friendly Scenario.bob 1000 0) s'
    = (s', inl IncorrectPaymentAmount).
Proof.
  intros s'.
  assert (H : transact (updateListingPrice Scenario.alice 0 1500) Scenario.listed
              = (s', inr tt)) by (vm_compute; reflexivity).
  split; [exact H|].
  destruct (updateListingPrice_effect Scenario.friendly Scenario.alice 0 1500
              Scenario.listed s' H) as (_ & _ & _ & H4 & _ & _ & _ & _ & H9).
  split; [exact H4|]. apply H9; [discriminate|discriminate|].
  vm_compute. discriminate.
Defined.

(** X15.  Bookkeeping of [getActiveListingCount()] in the reachable states:
    a successful [delistNFT] or [buyNFT] lowers the count by exactly one, a
    successful [mintAndList] raises it by one, [updateListingPrice] leaves
    it, and [listNFT] raises it by one unless the token's listing was
    already active. *)
Theorem active_count_bookkeeping (E : Env) (s : State) (n : N) :
  valid_env E ->
  reachable E s ->
  getActiveListingCount s = Ok n s ->
  (forall sender t s',
     transact (delistNFT sender t) s = (s', inr tt) ->
     0 < n /\ getActiveListingCount s' = Ok (n - 1) s') /\
  (forall caller v t s',
     transact (buyNFT E caller v t) s = (s', inr tt) ->
     0 < n /\ getActiveListingCount s' = Ok (n - 1) s') /\
  (forall sender uri p id s',
     transact (mintAndList E sender uri p) s = (s', inr id) ->
     getActiveListingCount s' = Ok (n + 1) s') /\
  (forall sender t p s',
     transact (updateListingPrice sender t p) s = (s', inr tt) ->
     getActiveListingCount s' = Ok n s') /\
  (forall sender t p s',
     transact (listNFT E sender t p) s = (s', inr tt) ->
     getActiveListingCount s'
     = Ok (if isActive (listing_of s t) then n else n + 1) s').
Proof.
  intros Henv Hreach Hn.
  destruct (reachable_inv E Henv s Hreach) as [HI _].
  rewrite getActiveListingCount_run in Hn. apply Ok_inv in Hn as [<- _].
  split; [|split; [|split; [|split]]].
  - intros sender t s' H. apply transact_success_inv in H.
    apply delistNFT_explicit in H as (_ & Hact & _ & ->).
    rewrite getActiveListingCount_run.
    assert (Hlen : length (active_ids s)
                   = S (length (active_ids (leave (deactivate t (enter s)))))).
    { apply (active_ids_off _ _ t); try done.
      - apply (inv_nodup s HI).
      - by apply (inv_active s HI).
      - by rewrite listing_of_leave, listing_of_deactivate_eq.
      - intros x Hne. by rewrite listing_of_leave, listing_of_deactivate_ne. }
    split; [lia|]. f_equal. lia.
  - intros caller v t s' H. apply transact_success_inv in H.
    apply buyNFT_explicit in H as (_ & _ & Hact & _ & _ & _ & _ & _ & Hm & _).
    rewrite getActiveListingCount_run.
    assert (Hl : forall x, listing_of s' x = listing_of (deactivate t s) x).
    { intros x. unfold listing_of. by rewrite Hm. }
    assert (Hlen : length (active_ids s) = S (length (active_ids s'))).
    { apply (active_ids_off _ _ t); try done.
      - apply (inv_nodup s HI).
      - by apply (inv_active s HI).
      - by rewrite Hm.
      - by rewrite Hl, listing_of_deactivate_eq.
      - intros x Hne. by rewrite Hl, listing_of_deactivate_ne. }
    split; [lia|]. f_equal. lia.
  - intros sender uri p id s' H. apply transact_success_inv in H.
    apply mintAndList_facts in H
      as (_ & _ & Hid & _ & _ & _ & _ & _ & _ & _ & Hl & Hi & _).
    rewrite getActiveListingCount_run.
    assert (Hlen : length (active_ids s') = S (length (active_ids s))).
    { apply (active_ids_snoc _ _ id); try done.
      - intros Hin. apply (inv_indexed_minted s HI) in Hin. lia.
      - unfold listing_of. by rewrite Hl, sload_insert_eq.
      - intros x Hne. unfold listing_of. rewrite Hl. by rewrite sload_insert_ne. }
    f_equal. lia.
  - intros sender t p s' H. apply transact_success_inv in H.
    apply updateListingPrice_explicit in H as (_ & _ & Hact & _ & ->).
    rewrite getActiveListingCount_run.
    assert (Hlen : length (active_ids (leave (reprice t p (enter s))))
                   = length (active_ids s)).
    { apply active_ids_same; [done|].
      intros x _. rewrite listing_of_leave, listing_of_reprice.
      case_decide; [by subst|done]. }
    by rewrite Hlen.
  - intros sender t p s' H. apply transact_success_inv in H.
    apply listNFT_ok in H as (_ & Hown & Hsender & ->).
    rewrite getActiveListingCount_run.
    destruct (has_been_listed s t) eqn:Htracked.
    + assert (Hin : t ∈ listedTokenIds (market s)) by (by apply (inv_tracked s HI)).
      destruct (isActive (listing_of s t)) eqn:Hact.
      * assert (Hlen : length (active_ids
                         (leave (write_listing t (mkListing sender p true) (enter s))))
                       = length (active_ids s)).
        { apply active_ids_same; [done|].
          intros x _. rewrite listing_of_leave, listing_of_write_listing.
          case_decide; [by subst|done]. }
        by rewrite Hlen.
      * assert (Hlen : length (active_ids
                         (leave (write_listing t (mkListing sender p true) (enter s))))
                       = S (length (active_ids s))).
        { apply (active_ids_on _ _ t); try done.
          - apply (inv_nodup s HI).
          - by rewrite listing_of_leave, listing_of_write_listing, decide_True.
          - intros x Hne. rewrite listing_of_leave, listing_of_write_listing.
            by rewrite decide_False by done. }
        f_equal. lia.
    + assert (Hfresh : t ∉ listedTokenIds (market s)).
      { intros Hin. apply (inv_tracked s HI) in Hin. congruence. }
      assert (Hact : isActive (listing_of s t) = false).
      { destruct (isActive (listing_of s t)) eqn:Hact; [|done].
        by apply (inv_active s HI) in Hact. }
      rewrite Hact.
      assert (Hlen : length (active_ids
                       (leave (track_listed t
                                 (write_listing t (mkListing sender p true) (enter s)))))
                     = S (length (active_ids s))).
      { apply (active_ids_snoc _ _ t); try done.
        - change (isActive (listing_of (write_listing t (mkListing sender p true) (enter s)) t)
                  = true).
          by rewrite listing_of_write_listing, decide_True.
        - intros x Hne.
          change (listing_of (write_listing t (mkListing sender p true) (enter s)) x
                  = listing_of s x).
          rewrite listing_of_write_listing. by rewrite decide_False by done. }
      f_equal. lia.
Qed.

Lemma active_count_bookkeeping_witness :
  let s' := apply_tx Scenario.friendly (mkTx Scenario.alice Scenario.alice (DelistNFT 2))
              Scenario.five_active in
  getActiveListingCount Scenario.five_active = Ok 5 Scenario.five_active /\
  transact (delistNFT Scenario.alice 2) Scenario.five_active = (s', inr tt) /\
  getActiveListingCount s' = Ok (5 - 1) s'.
Proof.
  intros s'.
  assert (H : getActiveListingCount Scenario.five_active = Ok 5 Scenario.five_active)
    by (vm_compute; reflexivity).
  assert (Hrun : transact (delistNFT Scenario.alice 2) Scenario.five_active = (s', inr tt))
    by (vm_compute; reflexivity).
  split; [exact H|]. split; [exact Hrun|].
  destruct (active_count_bookkeeping Scenario.friendly Scenario.five_active 5
              scenario_env_valid scenario_five_active_reachable H) as (H1 & _).
  destruct (H1 Scenario.alice 2 s' Hrun) as [_ Hcount]. exact Hcount.
Defined.

(** ** Pages of the enumeration *)

Section Pages.

Lemma take_add_drop {X : Type} (a b : nat) (l : list X) :
  take (a + b) l = take a l ++ take b (drop a l).
Proof.
  revert l. induction a as [|a IH]; intros l; [done|].
  destruct l as [|x l]; cbn; [by rewrite take_nil|]. by rewrite IH.
Qed.

Lemma map_lookup {X Y : Type} (f : X -> Y) (l : list X) (i : nat) :
  map f l !! i = f <$> (l !! i).
Proof.
  revert i. induction l as [|x l IH]; intros i; [done|].
  destruct i as [|i]; [done|]. cbn. apply IH.
Qed.

Lemma active_ids_NoDup s :
  NoDup (listedTokenIds (market s)) -> NoDup (active_ids s).
Proof.
  intros Hnd. unfold active_ids. apply NoDup_ListNoDup, List.NoDup_filter.
  by apply NoDup_ListNoDup.
Qed.

Lemma active_ids_elem s t :
  t ∈ active_ids s <->
  t ∈ listedTokenIds (market s) /\ isActive (listing_of s t) = true.
Proof.
  unfold active_ids. rewrite !list_elem_of_In. apply List.filter_In.
Qed.

(** The window of a page is a part of the active entries. *)
Lemma window_sublist {X : Type} (a b : nat) (l : list X) :
  take b (drop a l) `sublist_of` l.
Proof. etrans; [apply sublist_take|apply sublist_drop]. Qed.

End Pages.

(** X16.  Consecutive pages of [getActiveListings] fit together: the page
    of [limit1] entries at [offset] followed by the page of [limit2] entries
    at [offset + limit1] is the page of [limit1 + limit2] entries at
    [offset], in each of the three arrays; so paging through the listings
    neither skips an active listing nor returns one twice. *)
Theorem getActiveListings_pages_concatenate (offset limit1 limit2 : N) (s : State) :
  offset + limit1 + limit2 ≤ MAX_UINT256 ->
  exists p1 p2 p,
    getActiveListings offset limit1 s = Ok p1 s /\
    getActiveListings (offset + limit1) limit2 s = Ok p2 s /\
    getActiveListings offset (limit1 + limit2) s = Ok p s /\
    page_tokenIds p = page_tokenIds p1 ++ page_tokenIds p2 /\
    page_sellers p = page_sellers p1 ++ page_sellers p2 /\
    page_prices p = page_prices p1 ++ page_prices p2.
Proof.
  intros Hsum.
  exists (page_spec offset limit1 s), (page_spec (offset + limit1) limit2 s),
    (page_spec offset (limit1 + limit2) s).
  split; [apply getActiveListings_run; lia|].
  split; [apply getActiveListings_run; lia|].
  split; [apply getActiveListings_run; lia|].
  assert (Hw : take (N.to_nat (limit1 + limit2)) (drop (N.to_nat offset) (active_ids s))
               = take (N.to_nat limit1) (drop (N.to_nat offset) (active_ids s))
                 ++ take (N.to_nat limit2)
                      (drop (N.to_nat (offset + limit1)) (active_ids s))).
  { rewrite N2Nat.inj_add, take_add_drop, drop_drop. by rewrite N2Nat.inj_add. }
  unfold page_spec. cbn [page_tokenIds page_sellers page_prices].
  rewrite Hw, !map_app. done.
Qed.

Lemma getActiveListings_pages_concatenate_witness :
  exists p1 p2 p,
    getActiveListings 1 2 Scenario.five_active = Ok p1 Scenario.five_active /\
    getActiveListings (1 + 2) 2 Scenario.five_active = Ok p2 Scenario.five_active /\
    getActiveListings 1 (2 + 2) Scenario.five_active = Ok p Scenario.five_active /\
    page_tokenIds p = page_tokenIds p1 ++ page_tokenIds p2 /\
    page_sellers p = page_sellers p1 ++ page_sellers p2 /\
    page_prices p = page_prices p1 ++ page_prices p2.
Proof.
  apply (getActiveListings_pages_concatenate 1 2 2 Scenario.five_active).
  vm_compute. discriminate.
Defined.

(** X17.  The arrays that [getActiveListings] returns in a reachable state:
    the three have the same length, the smaller of the limit and the number
    of active listings from the offset on; the token ids are pairwise
    different; and position by position they hold a token of the index
    whose listing is active, the seller and the price of that listing. *)
Theorem getActiveListings_entries (E : Env) (offset limit : N) (s : State) :
  valid_env E ->
  reachable E s ->
  offset + limit ≤ MAX_UINT256 ->
  exists p n,
    getActiveListings offset limit s = Ok p s /\
    getActiveListingCount s = Ok n s /\
    length (page_tokenIds p) = N.to_nat (N.min limit (n - offset)) /\
    length (page_sellers p) = length (page_tokenIds p) /\
    length (page_prices p) = length (page_tokenIds p) /\
    NoDup (page_tokenIds p) /\
    (forall i t,
       page_tokenIds p !! i = Some t ->
       t ∈ listedTokenIds (market s) /\ isActive (listing_of s t) = true /\
       page_sellers p !! i = Some (seller (listing_of s t)) /\
       page_prices p !! i = Some (price (listing_of s t))).
Proof.
  intros Henv Hreach Hsum.
  destruct (reachable_inv E Henv s Hreach) as [HI _].
  exists (page_spec offset limit s), (N.of_nat (length (active_ids s))).
  split; [by apply getActiveListings_run|].
  split; [apply getActiveListingCount_run|].
  unfold page_spec. cbn [page_tokenIds page_sellers page_prices].
  set (w := take (N.to_nat limit) (drop (N.to_nat offset) (active_ids s))).
  split; [unfold w; rewrite length_take, length_drop; lia|].
  split; [by rewrite length_map|]. split; [by rewrite length_map|].
  assert (Hsub : w `sublist_of` active_ids s) by apply window_sublist.
  split.
  - eapply sublist_NoDup; [|exact Hsub]. apply active_ids_NoDup, (inv_nodup s HI).
  - intros i t Hi.
    assert (Hin : t ∈ active_ids s).
    { eapply elem_of_sublist; [|exact Hsub]. by eapply list_elem_of_lookup_2. }
    apply active_ids_elem in Hin as [Hin Hact].
    split; [exact Hin|]. split; [exact Hact|].
    by rewrite !map_lookup, Hi.
Qed.

Lemma getActiveListings_entries_witness :
  exists p n,
    getActiveListings 2 2 Scenario.five_active = Ok p Scenario.five_active /\
    getActiveListingCount Scenario.five_active = Ok n Scenario.five_active /\
    length (page_tokenIds p) = N.to_nat (N.min 2 (n - 2)) /\
    length (page_sellers p) = length (page_tokenIds p) /\
    length (page_prices p) = length (page_tokenIds p) /\
    NoDup (page_tokenIds p) /\
    (forall i t,
       page_tokenIds p !! i = Some t ->
       t ∈ listedTokenIds (market Scenario.five_active) /\
       isActive (listing_of Scenario.five_active t) = true /\
       page_sellers p !! i = Some (seller (listing_of Scenario.five_active t)) /\
       page_prices p !! i = Some (price (listing_of Scenario.five_active t))).
Proof.
  apply (getActiveListings_entries Scenario.friendly 2 2 Scenario.five_active
           scenario_env_valid scenario_five_active_reachable).
  vm_compute. discriminate.
Defined.

(** ** The guards, deposits and the minter of the NFT contract *)

Section AdminFacts.

Context (E : Env).

Lemma market_after_guard s x :
  mkt_entered (market s) = false ->
  market x = market (enter s) ->
  market (leave x) = market s.
Proof.
  intros Hq Hx. unfold leave. cbn. rewrite Hx.
  destruct s as [b [o q f l ids idx h] n]. cbn in *. by subst.
Qed.

Lemma setMarketplaceAddress_run sender new s :
  NFT.setMarketplaceAddress sender new s =
  if decide (nft_owner (nft s) = sender) then
    if decide (new = address0) then Revert InvalidMarketplaceAddress
    else Ok tt (with_nft (set_marketplaceAddress new (nft s)) s)
  else Revert (OwnableUnauthorizedAccount sender).
Proof.
  unfold NFT.setMarketplaceAddress, NFT.onlyOwner. rewrite bind_gets.
  case_decide; [|done]. mstep. case_decide.
  - by rewrite bool_decide_eq_true_2.
  - by rewrite bool_decide_eq_false_2.
Qed.

End AdminFacts.

(** X18.  The guards never stay taken: in every reachable state the
    reentrancy guards of both contracts are released, so no transaction,
    successful or reverted, can lock the marketplace.  While the guard of
    the marketplace is taken, each of its guarded functions reverts with
    [ReentrancyGuardReentrantCall] ([buyNFT] when the caller holds the
    payment, [withdrawFees] when the owner calls it); likewise the two mint
    functions of the NFT contract under its own guard. *)
Theorem guards_released_between_transactions (E : Env) (s : State) :
  valid_env E ->
  (reachable E s -> mkt_entered (market s) = false /\ nft_entered (nft s) = false) /\
  (forall x, mkt_entered (market x) = true ->
     (forall o a uri,
        transact (mintNFT E o a uri) x = (x, inl ReentrancyGuardReentrantCall)) /\
     (forall a uri p,
        transact (mintAndList E a uri p) x = (x, inl ReentrancyGuardReentrantCall)) /\
     (forall a t p,
        transact (listNFT E a t p) x = (x, inl ReentrancyGuardReentrantCall)) /\
     (forall a v t, v ≤ balance x a ->
        transact (buyNFT E a v t) x = (x, inl ReentrancyGuardReentrantCall)) /\
     (forall a t,
        transact (delistNFT a t) x = (x, inl ReentrancyGuardReentrantCall)) /\
     (forall a t p,
        transact (updateListingPrice a t p) x = (x, inl ReentrancyGuardReentrantCall)) /\
     (forall to,
        transact (withdrawFees E (mkt_owner (market x)) to) x
        = (x, inl ReentrancyGuardReentrantCall))) /\
  (forall x, nft_entered (nft x) = true ->
     (forall o a uri,
        transact (NFT.mint E o a uri) x = (x, inl ReentrancyGuardReentrantCall)) /\
     (forall a to uri,
        transact (NFT.mintTo E a to uri) x = (x, inl ReentrancyGuardReentrantCall))).
Proof.
  intros Henv. split; [|split].
  - intros Hreach. by destruct (reachable_inv E Henv s Hreach) as [_ Hidle].
  - intros x Hq. repeat split; intros; apply transact_revert.
    + by apply nonReentrant_entered.
    + by apply nonReentrant_entered.
    + by apply nonReentrant_entered.
    + unfold buyNFT. rewrite payable_run by done. by apply nonReentrant_entered.
    + by apply nonReentrant_entered.
    + by apply nonReentrant_entered.
    + unfold withdrawFees. rewrite onlyOwner_run, decide_True by done.
      by apply nonReentrant_entered.
  - intros x Hq. split; intros; apply transact_revert.
    + by apply NFT_nonReentrant_entered.
    + by apply NFT_nonReentrant_entered.
Qed.

Lemma guards_released_between_transactions_witness :
  mkt_entered (market Scenario.listed) = false /\
  nft_entered (nft Scenario.listed) = false /\
  transact (delistNFT Scenario.alice 0) (enter Scenario.listed)
    = (enter Scenario.listed, inl ReentrancyGuardReentrantCall).
Proof.
  destruct (guards_released_between_transactions Scenario.friendly Scenario.listed
              scenario_env_valid) as (H1 & H2 & _).
  destruct (H1 scenario_listed_reachable) as [Hq Hn].
  split; [exact Hq|]. split; [exact Hn|].
  destruct (H2 (enter Scenario.listed)) as (_ & _ & _ & _ & H5 & _); [reflexivity|].
  apply H5.
Defined.



(** X20.  [setMarketplaceAddress] of the NFT contract: a caller who is not
    the owner of the contract gets [OwnableUnauthorizedAccount]; the owner
    gets [InvalidMarketplaceAddress] for [address(0)]; otherwise the call
    replaces the authorised minter and nothing else.  From then on exactly
    the new address and the owner may mint: [mintTo] by anyone else, the
    previous marketplace included, reverts with [NotAuthorizedToMint]. *)
Theorem setMarketplaceAddress_cases (E : Env) (sender newMarketplace : address)
    (s : State) :
  (nft_owner (nft s) ≠ sender ->
   transact (NFT.setMarketplaceAddress sender newMarketplace) s
   = (s, inl (OwnableUnauthorizedAccount sender))) /\
  (nft_owner (nft s) = sender -> newMarketplace = address0 ->
   transact (NFT.setMarketplaceAddress sender newMarketplace) s
   = (s, inl InvalidMarketplaceAddress)) /\
  (nft_owner (nft s) = sender -> newMarketplace ≠ address0 ->
   exists s',
     transact (NFT.setMarketplaceAddress sender newMarketplace) s = (s', inr tt) /\
     marketplaceAddress (nft s') = newMarketplace /\
     nft_owner (nft s') = sender /\
     _owners (nft s') = _owners (nft s) /\
     _tokenIdCounter (nft s') = _tokenIdCounter (nft s) /\
     market s' = market s /\ balances s' = balances s /\
     (forall who,
        NFT.not_authorized_to_mint s' who = false <-> who = newMarketplace \/ who = sender) /\
     (forall who to uri,
        who ≠ newMarketplace -> who ≠ sender -> nft_entered (nft s) = false ->
        transact (NFT.mintTo E who to uri) s' = (s', inl NotAuthorizedToMint))).
Proof.
  split; [|split].
  - intros Hother. apply transact_revert. rewrite setMarketplaceAddress_run.
    by rewrite decide_False.
  - intros Howner Hzero. apply transact_revert. rewrite setMarketplaceAddress_run.
    rewrite decide_True by done. by rewrite decide_True.
  - intros Howner Hnew.
    exists (with_nft (set_marketplaceAddress newMarketplace (nft s)) s).
    assert (Hauth : forall who,
               NFT.not_authorized_to_mint
                 (with_nft (set_marketplaceAddress newMarketplace (nft s)) s) who = false
               <-> who = newMarketplace \/ who = sender).
    { intros who. unfold NFT.not_authorized_to_mint. cbn. rewrite Howner.
      rewrite andb_false_iff, !bool_decide_eq_false.
      split; (intros [H|H]; [left|right]);
        first [ by apply dec_stable | by intros Hne ]. }
    split.
    { apply transact_ok. rewrite setMarketplaceAddress_run.
      rewrite decide_True by done. by rewrite decide_False. }
    do 6 (split; [done|]).
    split; [exact Hauth|].
    intros who to uri Hw1 Hw2 Hn. apply transact_revert. unfold NFT.mintTo.
    apply NFT_nonReentrant_unauthorized; [done|].
    destruct (NFT.not_authorized_to_mint _ who) eqn:Hun; [done|].
    apply Hauth in Hun as [?|?]; done.
Qed.

(** X21.  [mintNFT] mints and does nothing else: in a reachable state a
    successful call leaves the storage of the marketplace and the balances
    as they were; the new token is not in the listing index, its listing
    is inactive and it has no approved account, so [buyNFT] on it reverts
    with [ListingNotActive] until its owner lists it. *)
Theorem mintNFT_creates_no_listing (E : Env) (origin sender : address) (uri : string)
    (id : N) (s s' : State) :
  valid_env E ->
  reachable E s ->
  transact (mintNFT E origin sender uri) s = (s', inr id) ->
  market s' = market s /\ balances s' = balances s /\
  (id ∉ listedTokenIds (market s')) /\
  isActive (listing_of s' id) = false /\
  ERC721._getApproved s' id = address0 /\
  (forall buyer v, v ≤ balance s' buyer ->
     transact (buyNFT E buyer v id) s' = (s', inl ListingNotActive)).
Proof.
  intros Henv Hreach H. apply transact_success_inv in H.
  destruct (reachable_inv E Henv s Hreach) as [HI _].
  apply mintNFT_explicit in H as (Hq & _ & Hid & _ & Hfree & ->).
  assert (Hm : market (leave (mint_state origin uri (enter s))) = market s)
    by (by apply market_after_guard).
  assert (Hfresh : id ∉ listedTokenIds (market s)).
  { intros Hin. apply (inv_indexed_minted s HI) in Hin. lia. }
  assert (Hoff : isActive (listing_of (leave (mint_state origin uri (enter s))) id) = false).
  { unfold listing_of. rewrite Hm. fold (listing_of s id).
    destruct (isActive (listing_of s id)) eqn:Hact; [|done].
    by apply (inv_active s HI) in Hact. }
  split; [exact Hm|]. split; [reflexivity|].
  split; [by rewrite Hm|]. split; [exact Hoff|].
  split; [exact (inv_unowned s HI id Hfree)|].
  intros buyer v Hfund. by apply transact_revert, buyNFT_inactive.
Qed.

Lemma mintNFT_creates_no_listing_witness :
  transact (mintNFT Scenario.friendly Scenario.bob Scenario.bob "ipfs://QmSampleNFT2")
    Scenario.minted_once = (Scenario.minted_twice, inr 1) /\
  market Scenario.minted_twice = market Scenario.minted_once /\
  isActive (listing_of Scenario.minted_twice 1) = false /\
  transact (buyNFT Scenario.friendly Scenario.carol 1000 1) Scenario.minted_twice
    = (Scenario.minted_twice, inl ListingNotActive).
Proof.
  assert (H : transact (mintNFT Scenario.friendly Scenario.bob Scenario.bob
                          "ipfs://QmSampleNFT2") Scenario.minted_once
              = (Scenario.minted_twice, inr 1)) by (vm_compute; reflexivity).
  assert (Hreach : reachable Scenario.friendly Scenario.minted_once).
  { change Scenario.minted_once with
      (apply_tx Scenario.friendly
         (mkTx Scenario.alice Scenario.alice (MintAndList "ipfs://QmSampleNFT1" 1000))
         (initial_state Scenario.friendly Scenario.deployer Scenario.funds)).
    apply reachable_step; [apply reachable_init|]. split; discriminate. }
  split; [exact H|].
  destruct (mintNFT_creates_no_listing Scenario.friendly Scenario.bob Scenario.bob
              "ipfs://QmSampleNFT2" 1 Scenario.minted_once Scenario.minted_twice
              scenario_env_valid Hreach H) as (H1 & _ & _ & H4 & _ & H6).
  split; [exact H1|]. split; [exact H4|].
  apply H6. vm_compute. discriminate.
Defined.

(** ** Ether, listings and metadata across all calls *)

(** Takes apart a successful [run_call] into the facts and the state of
    the call made. *)
Ltac run_call_inv H :=
  lazymatch type of H with
  | run_call _ _ _ ?c _ = Ok _ _ => destruct c; cbn [run_call] in H
  end;
  [ minv H; subst;
    lazymatch goal with
    | Hx : mintNFT _ _ _ _ _ = Ok _ _ |- _ =>
        apply mintNFT_explicit in Hx as (Hq & Hnq & Hid & Hto & Hfree & ->)
    end
  | minv H; subst;
    lazymatch goal with
    | Hx : mintAndList _ _ _ _ _ = Ok _ _ |- _ =>
        apply mintAndList_explicit in Hx as (Hq & Hnq & Hp & Hid & Hto & Hfree & ->)
    end
  | pose proof H as Hcall; apply listNFT_ok in H as (Hq & Hown & Hto & ->)
  | pose proof H as Hcall;
    apply buyNFT_explicit in H as (Hq & Hfund & Hact & Hself & Hv & Hto & Hown & Hauth & Hm & Hn)
  | apply delistNFT_explicit in H as (Hq & Hact & Hseller & ->)
  | apply updateListingPrice_explicit in H as (Hq & Hp & Hact & Hseller & ->)
  | apply setMarketplaceFee_explicit in H as (Howner & Hcap & ->)
  | apply withdrawFees_explicit in H as (Hq & Howner & Hsome & s_p & Hpay & ->)
  | apply receive_explicit in H as (Hfund & ->)
  | apply approve_explicit in H as (Hsome & ->)
  | apply setApprovalForAll_explicit in H as (Hop & ->)
  | apply transferFrom_ok in H as (Hto & Hfrom & Hauth & ->)
  | apply safeTransferFrom_ok in H as (Hto & Hfrom & Hauth & -> & Hacc)
  | minv H; subst;
    lazymatch goal with
    | Hx : NFT.mint _ _ _ _ _ = Ok _ _ |- _ =>
        apply mint_explicit in Hx as (Hnq & Hmay & Hid & Hto & Hfree & ->)
    end
  | minv H; subst;
    lazymatch goal with
    | Hx : NFT.mintTo _ _ _ _ _ = Ok _ _ |- _ =>
        apply mintTo_explicit in Hx as (Hnq & Hmay & Hid & Hto & Hfree & ->)
    end ].

Section Ledger.

Context (E : Env).

(** *** The sum of the balances *)

Lemma sum_comm (z1 z2 y : N) : z1 + (z2 + y) = z2 + (z1 + y).
Proof. lia. Qed.

Lemma sum_insert (m : gmap N N) (k v : N) :
  map_fold (fun _ v acc => v + acc) 0 (<[k := v]> m) + sload 0 m k
  = map_fold (fun _ v acc => v + acc) 0 m + v.
Proof.
  unfold sload. destruct (m !! k) as [v0|] eqn:Hk; cbn.
  - rewrite <- insert_delete_eq.
    rewrite map_fold_insert_L; [|intros; apply sum_comm|apply lookup_delete_eq].
    rewrite (map_fold_delete_L _ _ k v0 m); [|intros; apply sum_comm|done].
    lia.
  - rewrite map_fold_insert_L; [|intros; apply sum_comm|done]. lia.
Qed.

Lemma total_move_ether from to v s :
  v ≤ balance s from -> total_ether (move_ether from to v s) = total_ether s.
Proof.
  intros Hfund. unfold total_ether, move_ether, balance in *. cbn.
  pose proof (sum_insert (balances s) from (sload 0 (balances s) from - v)) as H1.
  pose proof (sum_insert (<[from := sload 0 (balances s) from - v]> (balances s)) to
                (sload 0 (<[from := sload 0 (balances s) from - v]> (balances s)) to + v))
    as H2.
  lia.
Qed.

Lemma total_same s s' : balances s' = balances s -> total_ether s' = total_ether s.
Proof. unfold total_ether. by intros ->. Qed.

Lemma call_value_total to v s b s' :
  call_value E to v s = Ok b s' -> total_ether s' = total_ether s.
Proof.
  unfold call_value. intros H.
  case_decide as Hfund; [|by simplify_eq].
  repeat case_decide; simplify_eq; try done.
  destruct (accepts_ether E s to v); simplify_eq; [|done].
  by apply total_move_ether.
Qed.

Lemma run_call_total origin sender c s u s' :
  run_call E origin sender c s = Ok u s' -> total_ether s' = total_ether s.
Proof.
  intros H. run_call_inv H;
    try (apply total_same;
         first [ reflexivity
               | by destruct (has_been_listed s _tokenId)
               | by case_decide ]).
  - apply buyNFT_ok in Hcall
      as (_ & _ & _ & _ & _ & _ & s_t & s_p & Ht & Hp & ->); [|done].
    apply call_value_total in Hp.
    apply safeTransferFrom_same_ledger in Ht as [Hb _].
    transitivity (total_ether s_p); [by apply total_same|]. rewrite Hp.
    transitivity (total_ether (move_ether sender (this E) msg_value s)).
    + by apply total_same.
    + by apply total_move_ether.
  - apply call_value_total in Hpay.
    transitivity (total_ether s_p); [by apply total_same|]. by rewrite Hpay.
  - by apply total_move_ether.
Qed.

(** *** The metadata URIs *)

Lemma run_call_uris origin sender c s u s' :
  run_call E origin sender c s = Ok u s' ->
  (_tokenURIs (nft s') = _tokenURIs (nft s) /\
   _tokenIdCounter (nft s') = _tokenIdCounter (nft s)) \/
  (exists uri,
     _tokenURIs (nft s') = <[_tokenIdCounter (nft s) := uri]> (_tokenURIs (nft s)) /\
     _tokenIdCounter (nft s') = _tokenIdCounter (nft s) + 1).
Proof.
  intros H. run_call_inv H;
    try (left; split; reflexivity);
    try (right; eexists; split; reflexivity);
    try (left; by destruct (has_been_listed s _tokenId)).
  - left. rewrite Hn. by case_decide.
  - apply call_value_market in Hpay as [_ Hn]. left. cbn. by rewrite Hn.
  - left. by case_decide.
  - left. by case_decide.
Qed.

Lemma uris_minted_step origin sender c s u s' :
  run_call E origin sender c s = Ok u s' -> uris_minted s ->
  uris_minted s' /\
  (forall t uri, _tokenURIs (nft s) !! t = Some uri -> _tokenURIs (nft s') !! t = Some uri).
Proof.
  intros H HU. apply run_call_uris in H as [[Hu Hc]|(uri & Hu & Hc)].
  - split; [|by rewrite Hu]. intros t. by rewrite Hu, Hc.
  - assert (Hnone : _tokenURIs (nft s) !! _tokenIdCounter (nft s) = None).
    { destruct (_tokenURIs (nft s) !! _tokenIdCounter (nft s)) eqn:Hx; [|done].
      assert (Hlt : _tokenIdCounter (nft s) < _tokenIdCounter (nft s))
        by (apply HU; by rewrite Hx). lia. }
    split.
    + intros t. rewrite Hu, Hc. destruct (decide (_tokenIdCounter (nft s) = t)) as [<-|Hne].
      * rewrite lookup_insert_eq. split; [done|lia].
      * rewrite lookup_insert_ne by done. specialize (HU t). split; [intros ?; apply HU; lia|].
        intros Hs. apply HU in Hs. lia.
    + intros t uri' Ht. rewrite Hu.
      destruct (decide (_tokenIdCounter (nft s) = t)) as [<-|Hne]; [congruence|].
      by rewrite lookup_insert_ne.
Qed.

Lemma reachable_uris s : reachable E s -> uris_minted s.
Proof.
  induction 1 as [deployer b0|s tx _ IH _].
  - intros t. cbn. rewrite lookup_empty. split; [lia|by intros [? ?]].
  - unfold apply_tx, transact.
    destruct (run_call E (tx_origin tx) (msg_sender tx) (tx_call tx) s) as [u s'|e] eqn:H;
      [|done].
    by eapply uris_minted_step.
Qed.

Lemma apply_txs_uris txs s t uri :
  uris_minted s -> _tokenURIs (nft s) !! t = Some uri ->
  uris_minted (apply_txs E txs s) /\
  _tokenURIs (nft (apply_txs E txs s)) !! t = Some uri.
Proof.
  revert s. induction txs as [|tx txs IH]; intros s HU Ht; [done|].
  change (apply_txs E (tx :: txs) s) with (apply_txs E txs (apply_tx E tx s)).
  unfold apply_tx, transact.
  destruct (run_call E (tx_origin tx) (msg_sender tx) (tx_call tx) s) as [u s'|e] eqn:H.
  - destruct (uris_minted_step _ _ _ _ _ _ H HU) as [HU' Hkeep]. apply IH; auto.
  - by apply IH.
Qed.

End Ledger.

Section ListingWrites.

Context (E : Env).

(** What a successful call may write to [listings]: nothing, or the slot of
    one token of the index, which gets a new active listing with a price
    and a seller, or keeps the seller of its active listing and is
    deactivated or repriced. *)
Lemma run_call_listings origin sender c s u s' :
  ledger_inv s ->
  run_call E origin sender c s = Ok u s' ->
  listings (market s') = listings (market s) \/
  exists t l,
    listings (market s') = <[t := l]> (listings (market s)) /\
    t ∈ listedTokenIds (market s') /\
    ((isActive l = true /\ price l ≠ 0 /\ seller l ≠ address0) \/
     (isActive (listing_of s t) = true /\ seller l = seller (listing_of s t) /\
      (isActive l = false \/ price l ≠ 0))).
Proof.
  intros HI H. run_call_inv H; try (left; reflexivity).
  - subst. right. exists (_tokenIdCounter (nft s)), (mkListing sender _price true).
    split; [reflexivity|]. split; [|by left].
    cbn. apply elem_of_app. right. apply list_elem_of_here.
  - assert (Hp : _price ≠ 0).
    { intros ->. rewrite listNFT_run in Hcall by done. by rewrite decide_True in Hcall. }
    right. exists _tokenId, (mkListing sender _price true).
    destruct (has_been_listed s _tokenId) eqn:Htracked.
    + split; [reflexivity|]. split; [by apply (inv_tracked s HI)|by left].
    + split; [reflexivity|]. split; [|by left].
      cbn. apply elem_of_app. right. apply list_elem_of_here.
  - right. exists _tokenId,
      (mkListing (seller (listing_of s _tokenId)) (price (listing_of s _tokenId)) false).
    split; [by rewrite Hm|]. split; [rewrite Hm; by apply (inv_active s HI)|].
    right. split; [done|]. split; [done|by left].
  - right. exists _tokenId,
      (mkListing (seller (listing_of s _tokenId)) (price (listing_of s _tokenId)) false).
    split; [reflexivity|]. split; [by apply (inv_active s HI)|].
    right. split; [done|]. split; [done|by left].
  - right. exists _tokenId,
      (mkListing (seller (listing_of s _tokenId)) _newPrice (isActive (listing_of s _tokenId))).
    split; [reflexivity|]. split; [by apply (inv_active s HI)|].
    right. split; [done|]. split; [done|by right].
  - apply call_value_market in Hpay as [Hm _]. left. cbn. by rewrite Hm.
  - left. by case_decide.
  - left. by case_decide.
Qed.

Lemma listings_priced_step origin sender c s u s' :
  ledger_inv s -> run_call E origin sender c s = Ok u s' ->
  listings_priced s -> listings_priced s'.
Proof.
  intros HI H HP.
  apply (run_call_listings _ _ _ _ _ _ HI) in H as [Hl|(t & l & Hl & _ & Hcase)].
  - intros t. unfold listing_of. rewrite Hl. apply HP.
  - intros t'. unfold listing_of. rewrite Hl.
    destruct (decide (t = t')) as [<-|Hne].
    + rewrite sload_insert_eq. intros Hact.
      destruct Hcase as [(_ & Hp & Hs)|(Hold & Hs & Hp)]; [done|].
      destruct (HP t Hold) as [_ Hseller]. split; [|by rewrite Hs].
      destruct Hp as [Hp|Hp]; [congruence|done].
    + rewrite sload_insert_ne by done. apply HP.
Qed.

Lemma unlisted_blank_step origin sender c s u s' :
  ledger_inv s -> run_call E origin sender c s = Ok u s' ->
  unlisted_blank s -> unlisted_blank s'.
Proof.
  intros HI H HU t' Hout.
  assert (Hout' : t' ∉ listedTokenIds (market s)).
  { intros Hin. apply Hout.
    destruct (run_call_steps E _ _ _ _ _ _ H) as (_ & Hidx & _).
    eapply elem_of_prefix; [exact Hin|]. by apply index_step_prefix. }
  apply (run_call_listings _ _ _ _ _ _ HI) in H as [Hl|(t & l & Hl & Hin & _)].
  - rewrite Hl. by apply HU.
  - rewrite Hl. rewrite lookup_insert_ne by (intros ->; done). by apply HU.
Qed.

Lemma reachable_listings s :
  valid_env E -> reachable E s -> listings_priced s /\ unlisted_blank s.
Proof.
  intros Henv. induction 1 as [deployer b0|s tx Hreach [IHP IHU] Htx].
  - split.
    + intros t. unfold listing_of. cbn. by rewrite sload_empty.
    + intros t _. apply lookup_empty.
  - destruct (reachable_inv E Henv s Hreach) as [HI _].
    unfold apply_tx, transact.
    destruct (run_call E (tx_origin tx) (msg_sender tx) (tx_call tx) s) as [u s'|e] eqn:H;
      [|done].
    split; [by eapply listings_priced_step|by eapply unlisted_blank_step].
Qed.

End ListingWrites.

(** ** Calls that go through *)

(** Runs the leading steps of a computation in the goal, nested ones
    included. *)
Ltac mrun :=
  repeat first
    [ rewrite bind_assoc | rewrite bind_gets | rewrite bind_modify | rewrite bind_ret
    | rewrite bind_revert_if | rewrite bind_checked_add ];
  cbn beta iota.

Section Runs.

Context (E : Env).

Lemma bind_if_decide {A B : Type} (P : Prop) `{Decision P} (m1 m2 : M A) (k : A -> M B) s :
  bind (if decide P then m1 else m2) k s
  = if decide P then bind m1 k s else bind m2 k s.
Proof. by case_decide. Qed.

Lemma mintTo_succeeds sender to uri s :
  nft_entered (nft s) = false ->
  NFT.not_authorized_to_mint s sender = false ->
  _tokenIdCounter (nft s) < MAX_UINT256 ->
  to ≠ address0 -> to ≠ this E -> to ≠ nftContract E ->
  ERC721._ownerOf s (_tokenIdCounter (nft s)) = address0 ->
  (forall x, accepts_token E x sender address0 to (_tokenIdCounter (nft s)) = true) ->
  NFT.mintTo E sender to uri s = Ok (_tokenIdCounter (nft s)) (mint_state to uri s).
Proof.
  intros Hq Hun Hroom Hto Hthis Hnft Hfree Hacc.
  unfold NFT.mintTo, NFT.nonReentrant, NFT.next_token_id, ERC721._safeMint, ERC721._mint,
    ERC721._update, ERC721._checkOnERC721Received, ERC721._setTokenURI.
  rewrite bind_gets, Hq, bind_modify. mrun.
  change (NFT.not_authorized_to_mint (with_nft (set_nft_entered true (nft s)) s) sender)
    with (NFT.not_authorized_to_mint s sender).
  rewrite Hun. cbn iota. mrun.
  cbn [nft with_nft set_nft_entered _tokenIdCounter].
  rewrite decide_True by lia.
  rewrite (decide_False (P := to = address0)) by done. mrun.
  rewrite (decide_True (P := address0 = address0)) by done. mrun.
  change (ERC721._ownerOf _ (_tokenIdCounter (nft s)))
    with (ERC721._ownerOf s (_tokenIdCounter (nft s))).
  rewrite Hfree.
  rewrite (decide_True (P := address0 = address0)) by done. mrun.
  rewrite (decide_True (P := address0 = address0)) by done. mrun.
  rewrite Hacc. rewrite !bool_decide_eq_true_2 by done. cbn [andb]. mrun.
  reflexivity.
Qed.

Lemma mint_succeeds origin sender uri s :
  nft_entered (nft s) = false ->
  NFT.not_authorized_to_mint s sender = false ->
  _tokenIdCounter (nft s) < MAX_UINT256 ->
  origin ≠ address0 -> origin ≠ this E -> origin ≠ nftContract E ->
  ERC721._ownerOf s (_tokenIdCounter (nft s)) = address0 ->
  (forall x, accepts_token E x sender address0 origin (_tokenIdCounter (nft s)) = true) ->
  NFT.mint E origin sender uri s = Ok (_tokenIdCounter (nft s)) (mint_state origin uri s).
Proof.
  intros Hq Hun Hroom Hto Hthis Hnft Hfree Hacc.
  unfold NFT.mint, NFT.nonReentrant, NFT.next_token_id, ERC721._safeMint, ERC721._mint,
    ERC721._update, ERC721._checkOnERC721Received, ERC721._setTokenURI.
  rewrite bind_gets, Hq, bind_modify. mrun.
  change (NFT.not_authorized_to_mint (with_nft (set_nft_entered true (nft s)) s) sender)
    with (NFT.not_authorized_to_mint s sender).
  rewrite Hun. cbn iota. mrun.
  cbn [nft with_nft set_nft_entered _tokenIdCounter].
  rewrite decide_True by lia.
  rewrite (decide_False (P := origin = address0)) by done. mrun.
  rewrite (decide_True (P := address0 = address0)) by done. mrun.
  change (ERC721._ownerOf _ (_tokenIdCounter (nft s)))
    with (ERC721._ownerOf s (_tokenIdCounter (nft s))).
  rewrite Hfree.
  rewrite (decide_True (P := address0 = address0)) by done. mrun.
  rewrite (decide_True (P := address0 = address0)) by done. mrun.
  rewrite Hacc. rewrite !bool_decide_eq_true_2 by done. cbn [andb]. mrun.
  reflexivity.
Qed.

Lemma safeTransferFrom_succeeds sender from to t s :
  to ≠ address0 -> to ≠ this E -> to ≠ nftContract E ->
  sender ≠ address0 -> from ≠ address0 ->
  ERC721._ownerOf s t = from ->
  ERC721._isAuthorized s from sender t = true ->
  (forall x, accepts_token E x sender from to t = true) ->
  ERC721.safeTransferFrom E sender from to t s = Ok tt (transfer_state t to s).
Proof.
  intros Hto Hthis Hnft Hsender Hfrom Hown Hauth Hacc.
  unfold ERC721.safeTransferFrom, ERC721.transferFrom, ERC721._update,
    ERC721._checkAuthorized, ERC721._checkOnERC721Received.
  rewrite bind_if_decide. rewrite (decide_False (P := to = address0)) by done. mrun.
  rewrite Hown. rewrite (decide_False (P := sender = address0)) by done. mrun.
  rewrite Hauth. mrun.
  rewrite (decide_False (P := from = address0)) by done. mrun.
  rewrite (decide_True (P := from = from)) by done. mrun.
  rewrite Hacc. rewrite !bool_decide_eq_true_2 by done. cbn [andb]. reflexivity.
Qed.

End Runs.

Section BuyRuns.

Context (E : Env).

Lemma buyNFT_succeeds caller t s :
  mkt_entered (market s) = false ->
  price (listing_of s t) ≤ balance s caller ->
  isActive (listing_of s t) = true ->
  caller ≠ seller (listing_of s t) ->
  price (listing_of s t) * marketplaceFee (market s) ≤ MAX_UINT256 ->
  fee_on (price (listing_of s t)) (marketplaceFee (market s)) ≤ price (listing_of s t) ->
  this E ≠ address0 ->
  caller ≠ address0 -> caller ≠ this E -> caller ≠ nftContract E ->
  seller (listing_of s t) ≠ address0 ->
  seller (listing_of s t) ≠ this E -> seller (listing_of s t) ≠ nftContract E ->
  ERC721._ownerOf s t = seller (listing_of s t) ->
  ERC721._isAuthorized s (seller (listing_of s t)) (this E) t = true ->
  (forall x, accepts_token E x (this E) (seller (listing_of s t)) caller t = true) ->
  (forall x v, accepts_ether E x (seller (listing_of s t)) v = true) ->
  exists s', buyNFT E caller (price (listing_of s t)) t s = Ok tt s'.
Proof.
  intros Hq Hfund Hact Hself Hmul Hfee Hthis Hc0 Hc1 Hc2 Hs0 Hs1 Hs2 Hown Hauth Htok Heth.
  set (s_d := deactivate t (enter (move_ether caller (this E) (price (listing_of s t)) s))).
  assert (Hsafe : ERC721.safeTransferFrom E (this E) (seller (listing_of s t)) caller t s_d
                  = Ok tt (transfer_state t caller s_d)).
  { by apply safeTransferFrom_succeeds. }
  assert (Hl : listing_of (transfer_state t caller s_d) t
               = mkListing (seller (listing_of s t)) (price (listing_of s t)) false).
  { change (listing_of s_d t = mkListing (seller (listing_of s t)) (price (listing_of s t)) false).
    unfold s_d. by rewrite listing_of_deactivate_eq. }
  assert (Hbal : balance (transfer_state t caller s_d) (this E)
                 = balance s (this E) + price (listing_of s t)).
  { change (balance (move_ether caller (this E) (price (listing_of s t)) s) (this E)
            = balance s (this E) + price (listing_of s t)).
    by apply balance_move_to. }
  eexists. rewrite buyNFT_run by done.
  unfold buyNFT_body. mstep.
  rewrite !listing_of_deactivate_eq. cbn [seller price].
  rewrite !listing_of_enter, !listing_of_move_ether, Hact. cbn [negb].
  rewrite bool_decide_eq_false_2 by done.
  rewrite bool_decide_eq_false_2 by (intros Hne; by apply Hne).
  change (marketplaceFee (market (deactivate t (enter (move_ether caller (this E)
            (price (listing_of s t)) s)))))
    with (marketplaceFee (market s)).
  rewrite decide_True by done. rewrite decide_True by done.
  fold s_d. rewrite (bind_ok _ _ _ _ _ Hsafe). mstep.
  rewrite Hl. cbn [seller].
  lazymatch goal with
  | |- context [call_value E ?a ?v] =>
      assert (Hcall : call_value E a v (transfer_state t caller s_d)
                      = Ok true (move_ether (this E) a v (transfer_state t caller s_d)))
  end.
  { unfold call_value. rewrite Hbal.
    rewrite decide_True
      by (etrans; [apply N.le_sub_l|]; generalize (balance s (this E)); intros; lia).
    rewrite (decide_False (P := seller (listing_of s t) = this E)) by done.
    rewrite (decide_False (P := seller (listing_of s t) = nftContract E)) by done.
    by rewrite Heth. }
  rewrite (bind_ok _ _ _ _ _ Hcall). reflexivity.
Qed.

End BuyRuns.

Lemma scenario_minted_once_reachable : reachable Scenario.friendly Scenario.minted_once.
Proof.
  change Scenario.minted_once with
    (apply_tx Scenario.friendly
       (mkTx Scenario.alice Scenario.alice (MintAndList "ipfs://QmSampleNFT1" 1000))
       (initial_state Scenario.friendly Scenario.deployer Scenario.funds)).
  apply reachable_step; [apply reachable_init|]. split; discriminate.
Qed.

(** X22.  The two contracts neither create nor destroy ether: whatever
    transactions are applied, purchases, withdrawals and deposits among
    them, successful or reverted, the sum of the balances of all accounts
    stays the same. *)
Theorem ether_is_conserved (E : Env) (txs : list Tx) (s : State) :
  total_ether (apply_txs E txs s) = total_ether s.
Proof.
  revert s. induction txs as [|tx txs IH]; intros s; [done|].
  change (apply_txs E (tx :: txs) s) with (apply_txs E txs (apply_tx E tx s)).
  rewrite IH. unfold apply_tx, transact.
  destruct (run_call E (tx_origin tx) (msg_sender tx) (tx_call tx) s) as [u s'|e] eqn:H.
  - by eapply run_call_total.
  - reflexivity.
Qed.

(** X23.  The metadata of a token is permanent: in every reachable state
    exactly the minted tokens, those below the total supply, have a URI,
    and the URI a token has is still its URI after any further
    transactions. *)
Theorem token_uri_is_permanent (E : Env) (txs : list Tx) (s : State) (t : N) :
  reachable E s ->
  (t < _tokenIdCounter (nft s) <-> is_Some (_tokenURIs (nft s) !! t)) /\
  (forall uri,
     _tokenURIs (nft s) !! t = Some uri ->
     _tokenURIs (nft (apply_txs E txs s)) !! t = Some uri).
Proof.
  intros Hreach. pose proof (reachable_uris E s Hreach) as HU.
  split; [apply HU|].
  intros uri Ht. by apply apply_txs_uris.
Qed.

Lemma token_uri_is_permanent_witness :
  (0 < _tokenIdCounter (nft Scenario.minted_once)
   <-> is_Some (_tokenURIs (nft Scenario.minted_once) !! 0)) /\
  (forall uri,
     _tokenURIs (nft Scenario.minted_once) !! 0 = Some uri ->
     _tokenURIs (nft (apply_txs Scenario.friendly
                        [mkTx Scenario.bob Scenario.bob (MintNFT "ipfs://QmSampleNFT2")]
                        Scenario.minted_once)) !! 0 = Some uri).
Proof.
  exact (token_uri_is_permanent Scenario.friendly
           [mkTx Scenario.bob Scenario.bob (MintNFT "ipfs://QmSampleNFT2")]
           Scenario.minted_once 0 scenario_minted_once_reachable).
Defined.

(** X24.  Nothing is on sale for free or for nobody: in every reachable
    state an active listing has a price above zero, a seller other than
    [address(0)] and the marketplace, and its token is in the listing
    index; a [buyNFT] that sends no ether reverts. *)
Theorem active_listing_has_price_and_seller (E : Env) (s : State) (t : N) :
  valid_env E ->
  reachable E s ->
  isActive (listing_of s t) = true ->
  0 < price (listing_of s t) /\
  seller (listing_of s t) ≠ address0 /\ seller (listing_of s t) ≠ this E /\
  t ∈ listedTokenIds (market s) /\
  (forall buyer, exists e, transact (buyNFT E buyer 0 t) s = (s, inl e)).
Proof.
  intros Henv Hreach Hact.
  destruct (reachable_listings E s Henv Hreach) as [HP _].
  destruct (reachable_inv E Henv s Hreach) as [HI _].
  destruct (HP t Hact) as [Hprice Hseller].
  split; [lia|]. split; [exact Hseller|].
  split; [by apply (reachable_sellers_external E s Henv Hreach t)|].
  split; [by apply (inv_active s HI)|].
  intros buyer. unfold transact.
  destruct (buyNFT E buyer 0 t s) as [[] s'|e] eqn:H; [|by exists e].
  apply buyNFT_explicit in H as (_ & _ & _ & _ & Hv & _). congruence.
Qed.

Lemma active_listing_has_price_and_seller_witness :
  isActive (listing_of Scenario.listed 0) = true /\
  0 < price (listing_of Scenario.listed 0) /\
  seller (listing_of Scenario.listed 0) ≠ address0 /\
  seller (listing_of Scenario.listed 0) ≠ this Scenario.friendly /\
  0 ∈ listedTokenIds (market Scenario.listed) /\
  (forall buyer,
     exists e, transact (buyNFT Scenario.friendly buyer 0 0) Scenario.listed
               = (Scenario.listed, inl e)).
Proof.
  assert (H : isActive (listing_of Scenario.listed 0) = true) by reflexivity.
  split; [exact H|].
  exact (active_listing_has_price_and_seller Scenario.friendly Scenario.listed 0
           scenario_env_valid scenario_listed_reachable H).
Defined.

(** X25.  A token that was never listed has the blank listing: in every
    reachable state, for a token outside the listing index, among them
    every id that is not minted yet, [getListing] returns [address(0)],
    price 0 and [false], and the token is not flagged as listed before. *)
Theorem unlisted_token_has_blank_listing (E : Env) (s : State) (t : N) :
  valid_env E ->
  reachable E s ->
  (_tokenIdCounter (nft s) ≤ t -> t ∉ listedTokenIds (market s)) /\
  (t ∉ listedTokenIds (market s) ->
   getListing t s = Ok (address0, 0, false) s /\ has_been_listed s t = false).
Proof.
  intros Henv Hreach.
  destruct (reachable_listings E s Henv Hreach) as [_ HU].
  destruct (reachable_inv E Henv s Hreach) as [HI _].
  split.
  - intros Hge Hin. apply (inv_indexed_minted s HI) in Hin. lia.
  - intros Hout. split.
    + unfold getListing, gets, listing_of, sload. by rewrite (HU t Hout).
    + destruct (has_been_listed s t) eqn:Htracked; [|done].
      by apply (inv_tracked s HI) in Htracked.
Qed.

Lemma unlisted_token_has_blank_listing_witness :
  _tokenIdCounter (nft Scenario.minted_twice) ≤ 5 /\
  (5 ∉ listedTokenIds (market Scenario.minted_twice)) /\
  getListing 5 Scenario.minted_twice = Ok (address0, 0, false) Scenario.minted_twice /\
  has_been_listed Scenario.minted_twice 5 = false.
Proof.
  assert (Hreach : reachable Scenario.friendly Scenario.minted_twice).
  { change Scenario.minted_twice with
      (apply_tx Scenario.friendly
         (mkTx Scenario.bob Scenario.bob (MintNFT "ipfs://QmSampleNFT2"))
         Scenario.minted_once).
    apply reachable_step; [apply scenario_minted_once_reachable|]. split; discriminate. }
  assert (Hge : _tokenIdCounter (nft Scenario.minted_twice) ≤ 5)
    by (vm_compute; discriminate).
  destruct (unlisted_token_has_blank_listing Scenario.friendly Scenario.minted_twice 5
              scenario_env_valid Hreach) as [Hout Hblank].
  split; [exact Hge|]. split; [exact (Hout Hge)|]. exact (Hblank (Hout Hge)).
Defined.

(** X26.  [setMarketplaceFee]: a caller who is not the owner of the
    marketplace gets [OwnableUnauthorizedAccount], whatever the fee; the
    owner gets [FeeExceedsMaximum] for a fee above 1000 basis points; a fee
    up to 1000, the bound and zero included, is accepted and becomes the
    rate, with the listings, the index, the guard, the token registry and
    the balances as before. *)
Theorem setMarketplaceFee_cases (sender : address) (fee : N) (s : State) :
  (mkt_owner (market s) ≠ sender ->
   transact (setMarketplaceFee sender fee) s
   = (s, inl (OwnableUnauthorizedAccount sender))) /\
  (mkt_owner (market s) = sender -> 1000 < fee ->
   transact (setMarketplaceFee sender fee) s = (s, inl FeeExceedsMaximum)) /\
  (mkt_owner (market s) = sender -> fee ≤ 1000 ->
   exists s',
     transact (setMarketplaceFee sender fee) s = (s', inr tt) /\
     marketplaceFee (market s') = fee /\
     listings (market s') = listings (market s) /\
     listedTokenIds (market s') = listedTokenIds (market s) /\
     mkt_entered (market s') = mkt_entered (market s) /\
     mkt_owner (market s') = mkt_owner (market s) /\
     nft s' = nft s /\ balances s' = balances s).
Proof.
  split; [|split].
  - intros Hother. apply transact_revert. rewrite setMarketplaceFee_run.
    by rewrite decide_False.
  - intros Howner Hfee. apply transact_revert. rewrite setMarketplaceFee_run.
    rewrite decide_True by done. by rewrite decide_True.
  - intros Howner Hfee.
    exists (with_market (set_marketplaceFee fee (market s)) s). split.
    + apply transact_ok. rewrite setMarketplaceFee_run.
      rewrite decide_True by done. rewrite decide_False; [done|].
      unfold MAX_FEE. lia.
    + by do 6 (split; [reflexivity|]).
Qed.

(** X27.  Minting cannot be blocked: in every reachable state, as long as
    the token counter has not reached its maximum, [mintNFT] for an
    originating account and [mintAndList] with a price other than zero by
    a caller succeed and return the total supply as the new id, whenever
    that account is not [address(0)], is neither of the two contracts, and
    accepts the token. *)
Theorem minting_is_always_available (E : Env) (to : address) (s : State) :
  valid_env E ->
  reachable E s ->
  _tokenIdCounter (nft s) < MAX_UINT256 ->
  to ≠ address0 -> to ≠ this E -> to ≠ nftContract E ->
  (forall x, accepts_token E x (this E) address0 to (_tokenIdCounter (nft s)) = true) ->
  (forall caller uri,
     exists s', transact (mintNFT E to caller uri) s = (s', inr (_tokenIdCounter (nft s)))) /\
  (forall uri p, p ≠ 0 ->
     exists s', transact (mintAndList E to uri p) s = (s', inr (_tokenIdCounter (nft s)))).
Proof.
  intros Henv Hreach Hroom Hto Hthis Hnft Hacc.
  destruct (reachable_inv E Henv s Hreach) as [HI [Hq Hnq]].
  destruct (reachable_minter E s Hreach) as [_ Hminter].
  assert (Hfree : ERC721._ownerOf s (_tokenIdCounter (nft s)) = address0).
  { destruct (decide (ERC721._ownerOf s (_tokenIdCounter (nft s)) = address0)) as [|Hn];
      [done|]. apply (inv_owned_minted s HI) in Hn. lia. }
  assert (Hmay : NFT.not_authorized_to_mint s (this E) = false).
  { unfold NFT.not_authorized_to_mint. rewrite Hminter.
    by rewrite bool_decide_eq_false_2 by (intros Hne; by apply Hne). }
  split.
  - intros caller uri. eexists. apply transact_ok.
    unfold mintNFT. rewrite nonReentrant_run by done.
    pose proof (mint_succeeds E to (this E) uri (enter s) Hnq Hmay Hroom Hto Hthis Hnft
                  Hfree Hacc) as Hm.
    rewrite Hm. reflexivity.
  - intros uri p Hp. eexists. apply transact_ok.
    unfold mintAndList. rewrite nonReentrant_run by done.
    rewrite bind_revert_if. rewrite bool_decide_eq_false_2 by done.
    pose proof (mintTo_succeeds E (this E) to uri (enter s) Hnq Hmay Hroom Hto Hthis Hnft
                  Hfree Hacc) as Hm.
    rewrite (bind_ok _ _ _ _ _ Hm). reflexivity.
Qed.

Lemma minting_is_always_available_witness :
  (forall caller uri,
     exists s', transact (mintNFT Scenario.friendly Scenario.carol caller uri) Scenario.listed
                = (s', inr (_tokenIdCounter (nft Scenario.listed)))) /\
  (forall uri p, p ≠ 0 ->
     exists s', transact (mintAndList Scenario.friendly Scenario.carol uri p) Scenario.listed
                = (s', inr (_tokenIdCounter (nft Scenario.listed)))).
Proof.
  apply (minting_is_always_available Scenario.friendly Scenario.carol Scenario.listed
           scenario_env_valid scenario_listed_reachable).
  - reflexivity.
  - discriminate.
  - discriminate.
  - discriminate.
  - intros x. reflexivity.
Defined.

(** X28.  A listing that is in order can be bought: in a reachable state,
    when the listing of a token is active, its recorded seller still owns
    the token and the marketplace is the approved account of the token or
    an operator of the seller, [buyNFT] with exactly the price succeeds for
    every buyer who holds the price, is not the seller, [address(0)] or one
    of the two contracts and accepts the token, provided the seller
    accepts ether and the fee computation does not overflow. *)
Theorem approved_listing_can_be_bought (E : Env) (buyer : address) (t : N) (s : State) :
  valid_env E ->
  reachable E s ->
  isActive (listing_of s t) = true ->
  ERC721._ownerOf s t = seller (listing_of s t) ->
  ERC721._getApproved s t = this E \/
    ERC721._isApprovedForAll s (seller (listing_of s t)) (this E) = true ->
  buyer ≠ seller (listing_of s t) ->
  buyer ≠ address0 -> buyer ≠ this E -> buyer ≠ nftContract E ->
  seller (listing_of s t) ≠ nftContract E ->
  price (listing_of s t) ≤ balance s buyer ->
  price (listing_of s t) * marketplaceFee (market s) ≤ MAX_UINT256 ->
  (forall x, accepts_token E x (this E) (seller (listing_of s t)) buyer t = true) ->
  (forall x v, accepts_ether E x (seller (listing_of s t)) v = true) ->
  exists s', transact (buyNFT E buyer (price (listing_of s t)) t) s = (s', inr tt).
Proof.
  intros Henv Hreach Hact Hown Happ Hself Hb0 Hb1 Hb2 Hs2 Hfund Hmul Htok Heth.
  destruct (reachable_inv E Henv s Hreach) as [_ [Hq _]].
  destruct (reachable_listings E s Henv Hreach) as [HP _].
  destruct (HP t Hact) as [_ Hs0].
  pose proof (reachable_sellers_external E s Henv Hreach t Hact) as Hs1.
  pose proof (reachable_fee E s Hreach) as Hcap.
  pose proof Henv as (Hthis & _).
  assert (Hfee : fee_on (price (listing_of s t)) (marketplaceFee (market s))
                 ≤ price (listing_of s t)).
  { unfold fee_on, FEE_DENOMINATOR. unfold MAX_FEE in Hcap.
    transitivity (price (listing_of s t) * 1000 / 10000).
    - apply N.Div0.div_le_mono. by apply N.mul_le_mono_l.
    - change 10000 with (10 * 1000). rewrite N.Div0.div_mul_cancel_r by done.
      apply N.Div0.div_le_upper_bound. lia. }
  assert (Hauth : ERC721._isAuthorized s (seller (listing_of s t)) (this E) t = true).
  { unfold ERC721._isAuthorized. rewrite bool_decide_eq_true_2 by done. cbn [andb].
    destruct Happ as [Ha|Ha].
    - rewrite (bool_decide_eq_true_2 (ERC721._getApproved s t = this E)) by done.
      by rewrite orb_true_r.
    - rewrite Ha. by rewrite orb_true_r. }
  destruct (buyNFT_succeeds E buyer t s) as [s' Hbuy]; try done.
  exists s'. by apply transact_ok.
Qed.

Lemma approved_listing_can_be_bought_witness :
  isActive (listing_of Scenario.listed 0) = true /\
  ERC721._getApproved Scenario.listed 0 = this Scenario.friendly /\
  exists s', transact (buyNFT Scenario.friendly Scenario.carol
                         (price (listing_of Scenario.listed 0)) 0) Scenario.listed
             = (s', inr tt).
Proof.
  assert (Hact : isActive (listing_of Scenario.listed 0) = true) by reflexivity.
  assert (Happ : ERC721._getApproved Scenario.listed 0 = this Scenario.friendly)
    by reflexivity.
  split; [exact Hact|]. split; [exact Happ|].
  apply (approved_listing_can_be_bought Scenario.friendly Scenario.carol 0 Scenario.listed
           scenario_env_valid scenario_listed_reachable Hact).
  - reflexivity.
  - left. exact Happ.
  - discriminate.
  - discriminate.
  - discriminate.
  - discriminate.
  - discriminate.
  - vm_compute. discriminate.
  - vm_compute. discriminate.
  - intros x. reflexivity.
  - intros x v. reflexivity.
Defined.

Lemma setMarketplaceAddress_cases_witness :
  transact (NFT.setMarketplaceAddress Scenario.marketplace address0) Scenario.listed
    = (Scenario.listed, inl InvalidMarketplaceAddress) /\
  exists s',
    transact (NFT.setMarketplaceAddress Scenario.marketplace Scenario.carol) Scenario.listed
      = (s', inr tt) /\
    marketplaceAddress (nft s') = Scenario.carol.
Proof.
  destruct (setMarketplaceAddress_cases Scenario.friendly Scenario.marketplace address0
              Scenario.listed) as (_ & H2 & _).
  destruct (setMarketplaceAddress_cases Scenario.friendly Scenario.marketplace
              Scenario.carol Scenario.listed) as (_ & _ & H3).
  split; [by apply H2|].
  destruct H3 as (s' & Hrun & Hset & _); [reflexivity|discriminate|].
  exists s'. split; [exact Hrun|exact Hset].
Defined.

Lemma setMarketplaceFee_cases_witness :
  transact (setMarketplaceFee Scenario.deployer 1001) Scenario.listed
    = (Scenario.listed, inl FeeExceedsMaximum) /\
  transact (setMarketplaceFee Scenario.alice 100) Scenario.listed
    = (Scenario.listed, inl (OwnableUnauthorizedAccount Scenario.alice)) /\
  exists s',
    transact (setMarketplaceFee Scenario.deployer 1000) Scenario.listed = (s', inr tt) /\
    marketplaceFee (market s') = 1000.
Proof.
  destruct (setMarketplaceFee_cases Scenario.deployer 1001 Scenario.listed) as (_ & H2 & _).
  destruct (setMarketplaceFee_cases Scenario.alice 100 Scenario.listed) as (H1 & _).
  destruct (setMarketplaceFee_cases Scenario.deployer 1000 Scenario.listed) as (_ & _ & H3).
  split; [apply H2; [reflexivity|vm_compute; reflexivity]|].
  split; [apply H1; discriminate|].
  destruct H3 as (s' & Hrun & Hset & _); [reflexivity|vm_compute; discriminate|].
  exists s'. split; [exact Hrun|exact Hset].
Defined.

(** ** Tokens move only with consent *)

Section Consent.

Context (E : Env).

Lemma owner_after_mint to uri s t :
  ERC721._ownerOf (mint_state to uri s) t
  = if decide (_tokenIdCounter (nft s) = t) then to else ERC721._ownerOf s t.
Proof.
  unfold ERC721._ownerOf, mint_state, ERC721.write_owner. cbn. case_decide as Heq.
  - subst. by rewrite sload_insert_eq.
  - by rewrite sload_insert_ne.
Qed.

End Consent.

(** X29.  A token changes hands only with the consent of its owner.  Among
    the calls in which no account outside the two contracts is called
    ([listNFT], [delistNFT], [updateListingPrice], [setMarketplaceFee], a
    deposit, [approve], [setApprovalForAll] and [transferFrom]) only
    [transferFrom] changes the owner of a token: when such a call by
    [sender] succeeds and the owner of a token that had one is another
    afterwards, the call is a [transferFrom] of that token from its owner,
    [sender] was authorised for it (as the owner, the approved account or
    an operator of the owner), and the new owner is the named recipient,
    who is not [address(0)]. *)
Theorem token_moves_only_with_consent (E : Env) (origin sender : address) (c : Call)
    (s s' : State) (t : N) :
  sender ≠ address0 ->
  runs_no_foreign_code c = true ->
  run_call E origin sender c s = Ok tt s' ->
  ERC721._ownerOf s t ≠ address0 ->
  ERC721._ownerOf s' t ≠ ERC721._ownerOf s t ->
  ERC721._isAuthorized s (ERC721._ownerOf s t) sender t = true /\
  ERC721._ownerOf s' t ≠ address0 /\
  c = TransferFrom (ERC721._ownerOf s t) (ERC721._ownerOf s' t) t.
Proof.
  intros Hsender Hpure H Hhad Hchg.
  run_call_inv H;
    try (cbn in Hpure; discriminate Hpure);
    try (exfalso; apply Hchg; reflexivity).
  - exfalso. apply Hchg. by destruct (has_been_listed s _tokenId).
  - destruct (decide (tokenId = t)) as [->|Hne].
    + rewrite <- Hfrom. rewrite owner_after_transfer, decide_True by done.
      split; [by apply Hauth|]. split; done.
    + exfalso. apply Hchg. rewrite owner_after_transfer, decide_False by done.
      by case_decide.
Qed.

(** The theorem at alice giving token 0 away to carol. *)
Lemma token_moves_only_with_consent_witness :
  run_call Scenario.friendly Scenario.alice Scenario.alice
    (TransferFrom Scenario.alice Scenario.carol 0) Scenario.listed
    = Ok tt Scenario.given_away /\
  ERC721._ownerOf Scenario.listed 0 = Scenario.alice /\
  ERC721._ownerOf Scenario.given_away 0 = Scenario.carol /\
  ERC721._isAuthorized Scenario.listed (ERC721._ownerOf Scenario.listed 0) Scenario.alice 0
    = true.
Proof.
  assert (H : run_call Scenario.friendly Scenario.alice Scenario.alice
                (TransferFrom Scenario.alice Scenario.carol 0) Scenario.listed
              = Ok tt Scenario.given_away) by (vm_compute; reflexivity).
  assert (Hs : Scenario.alice ≠ address0) by discriminate.
  assert (Hhad : ERC721._ownerOf Scenario.listed 0 ≠ address0)
    by (vm_compute; discriminate).
  assert (Hchg : ERC721._ownerOf Scenario.given_away 0 ≠ ERC721._ownerOf Scenario.listed 0)
    by (vm_compute; discriminate).
  split; [exact H|]. split; [vm_compute; reflexivity|].
  split; [vm_compute; reflexivity|].
  destruct (token_moves_only_with_consent Scenario.friendly Scenario.alice Scenario.alice
              (TransferFrom Scenario.alice Scenario.carol 0)
              Scenario.listed Scenario.given_away 0 Hs eq_refl H Hhad Hchg) as (Hauth & _).
  exact Hauth.
Defined.
